(* ===== verification/_CoqProject ===== *)
-Q . S2P
Prelude.v
Builtins.v
Config.v
Datetime.v
Json.v
Jose.v
Base64.v
Hasher.v
Symbolic.v
Jwt.v
Malleability.v
Schemas.v
Routes.v
Session.v
App.v
Cors.v
Asgi.v
Service.v
Concurrency.v
