(* ===== verification/Prelude.v ===== *)
(** * A verification development of the JWT login and registration service

    The program ([src/backend/app]) is a FastAPI service with two
    endpoints.  [POST /register] validates a [UserCreate] body, refuses an
    email already stored, hashes the password, inserts the user and answers
    with a JWT; [POST /login] validates a [UserLogin] body, looks the user
    up, checks the password and answers with a JWT.  Tokens are made and
    checked by [app/auth/jwt.py] over python-jose, with the secret,
    algorithm and lifetime read from the environment by [app/config.py].

    ** Files, in dependency order

    - [Prelude] (this file): Python strings and bytes as [list Z], the
      closed type [exc] of the exceptions on these paths, the
      state-and-exception monad [PyM] with its [let*] notation in
      [py_scope], [raises_only] (which exceptions a computation can raise)
      with its rules, the [py] hint database and the [py_run] and
      [raises_run] tactics.
    - [Builtins]: [str.isspace], [str.strip], [int(str)] (sign,
      underscores, the 4300-digit limit), [str(int)], [hmac.compare_digest]
      and UTF-8 on ASCII, as CPython defines them.
    - [Config] (Module [Config]): [app/config.py].  [settings_of_env] is the
      [Settings] class body evaluated at import over the environment (a
      [gmap]); [get_settings] threads its [lru_cache] as explicit state.
    - [Datetime] (Module [Datetime]): aware UTC datetimes in microseconds,
      [timedelta], [timegm] truncation, and the [Clock] interface for
      [datetime.now].
    - [Json]: JSON values, dict lookup in insertion order, well-formedness,
      nesting depth and a nested induction principle.
    - [Jose] (Module [Jose]): python-jose 3.3's HMAC path, function by
      function ([jwt.encode], [jws.sign], [jws._load], [_verify_signature],
      [jwk.construct], [_validate_claims], [jwt.decode]) over two
      interfaces, [JoseCodec] (base64url and JSON) and [Hmac], each with a
      class of laws.  [json.loads] may raise: [ValueError] on bytes that are
      not JSON, [RecursionError] on nesting past the recursion limit; its
      law only promises to read back what [json.dumps] wrote for values
      nested at most [json_safe_depth] (100) levels.
    - [Base64] (Module [Base64]): python-jose's [base64url_encode] and
      [base64url_decode] after CPython's [binascii] ([b2a_base64], and the
      non-strict [a2b_base64] loop with its quad position, pending bits and
      padding count), with the round trip and the malleability of the last
      character of an encoding whose input length is not a multiple of 3.
    - [Hasher] (Module [Hasher]): [app/auth/password.py] is not among the
      sources; [PasswordHasher] is its interface, with the laws the spec
      states (a digest verifies its plaintext; different salts give
      different digests).
    - [Symbolic] (Module [Symbolic]): one instance of each interface, with
      its laws proved, so that concrete tokens, digests and requests
      compute: a linear serialisation stands for JSON and base64url (its
      loader raises [RecursionError] past 1000 levels, CPython's default
      recursion limit), the MAC of (hash, key, message) is its injective
      encoding, and the email validator caps addresses at 254 characters
      as email-validator does.
    - [Jwt] (Module [Jwt]): [create_access_token] and [verify_token], for
      any instances satisfying the laws and any clock.
    - [Malleability] (Module [Malleability]): the codec instance built on
      [Base64] (python-jose's own base64url), any MAC with [hashlib]'s
      digest sizes, and what that does to issued tokens.
    - [Schemas] (Module [Schemas]): the pydantic models of
      [app/schemas/auth.py]: field validators, the after-model validator,
      error collection; [EmailStr] is the interface [EmailValidator].
    - [Routes] (Module [Routes]): [register] and [login] of
      [app/routes/auth.py] over a [world] holding the [users] table of
      [app/models/user.py] (a [gmap] keyed by the unique email), the id
      sequence, the clock and the salt source; [step] and [reachable] run
      any sequence of requests from [init_db]'s empty table.
    - [Session] (Module [Session]): [app/database.py] and the handlers as
      written: [create_engine], [SessionLocal], the session operations the
      routes call ([db_execute_select], [db_add], [db_commit] with its
      rollback, [db_refresh], [db_close]), [get_db] with its [finally],
      [register_db] and [login_db] line by line against the session,
      [init_db] ([create_all]) and the start-up half of [lifespan] in
      [app/main.py], and [User.__repr__].
    - [App] (Module [App]): the HTTP layer of [app/main.py] and the route
      decorators: 422 for a body that fails validation, the decorators'
      status codes, an [HTTPException] as its status and detail, any other
      exception as 500, and [GET /health]; [handle] maps a request and the
      world to the response and the new world.
    - [Cors] (Module [Cors]): the [CORSMiddleware] configuration of
      [app/main.py] ([app_cors]) and Starlette's middleware for any
      configuration: [cors_init] is its [__init__], [preflight_response]
      and [simple_response] its two answers, [cors_app] its [__call__];
      response headers as an association list updated like Starlette's
      [MutableHeaders] ([hdr_set], [add_vary_header]).
    - [Asgi] (Module [Asgi]): the application object of [app/main.py]:
      FastAPI's metadata and documentation routes, the route table
      ([app_routes], with the [/static] mount when the directory exists),
      Starlette's router ([dispatch]: 405, trailing-slash redirect, 404),
      the middleware stack [asgi] ([ServerErrorMiddleware], CORS,
      [ExceptionMiddleware], router), and the [__main__] block that hands
      [get_settings()]'s host and port to [uvicorn.run].
    - [Concurrency] (Module [Concurrency]): concurrent [register] requests,
      each split into its two atomic database visits ([SELECT], then
      [INSERT]/[COMMIT] and token issuance), interleaved by [sched].
    - [Service] (Module [Service]): the spec's account registry as an
      abstract specification ([spec_op] on a map from emails to
      passwords), [serve] running [register] and [login] one after the
      other as a client observes them, [serve_http] doing the same with
      HTTP requests through [App.handle], and the refinement relation
      [abs_rel] between the [users] table and the accounts.

    ** What the theorems show

    - Tokens ([Jwt]): a token from [create_access_token] verifies to its
      subject exactly until the end of the second that contains its expiry
      (so it is still accepted at the expiry instant); [verify_token]
      accepts only tokens whose signature is the configured key's HMAC
      under the configured algorithm, and refuses tokens of another secret;
      [timedelta(0)] is read as "no delta"; a negative lifetime gives
      tokens expired on issue; [exp: null] and a secret that reads as a
      JSON boolean make [verify_token] raise instead of returning [None];
      with a usable secret, [UnicodeEncodeError], [RecursionError],
      [TypeError] and [OverflowError] are the only exceptions that escape
      it (an [exp] of [Infinity] gives the last), by the [raises_only]
      calculus of this file; and a header nested past the recursion limit
      makes it raise [RecursionError] whatever the signature and the
      secret.
    - Malleability ([Base64], [Malleability]): decoding inverts encoding;
      under HS256 and HS512 every issued token has a second spelling, its
      last signature character changed, that [verify_token] treats exactly
      as the token; every issued token is three URL-safe segments joined
      by two dots.
    - Routes ([Routes]): [register] and [login] on every branch; a
      successful [register] followed by [login] with the same credentials
      returns the same token; the two login failures give the same 401;
      every reachable database is well formed (rule induction on [step]).
    - Sessions ([Session]): lemmas that let [App] run the handlers as
      written against the session ([get_db] around [register_db] and
      [login_db] computes the [register] and [login] of [Routes]);
      [User.__repr__] shows exactly the id and the email.
    - HTTP ([App]): the same round trip over HTTP with one JSON body; the
      status codes each endpoint can answer, and which leave the database
      unchanged.
    - The served application ([Asgi], [Cors]): for every request that is
      not a CORS preflight, a wrong method on [/register] or [/login] gets
      405 with [Allow: POST] and a trailing slash a 307, without touching
      the database; a 500 carries no CORS header whatever the origin; and
      with [allow_origins=["*"]] and
      [allow_credentials=True] every origin is granted credentialed access
      (preflights echo it, and so do cookie-carrying requests).
    - Refinement ([Service]): from related states, every sequence of
      registrations and logins, and every sequence of HTTP requests with
      arbitrary JSON bodies (validation, [get_db], the routes and the
      HTTP status mapping composed), gives the responses the abstract
      specification predicts, under stated conditions (usable secret,
      salt-independent hasher verdicts, digests and emails that fit their
      columns, a clock under which issued tokens are valid).
    - Concurrency ([Concurrency]): under any interleaving, at most one
      registration of an email succeeds (rule induction on [sched]); a
      schedule exists in which a duplicate registration gets a 500
      ([IntegrityError]) instead of the 400 of the sequential case.  That
      the split of [register] into two pieces is the handler, that every
      schedule terminates and that every request can be answered are
      lemmas about the scheduler, which hold whatever [register] does.
    - Schemas ([Schemas]): exactly which bodies each model accepts, the
      order of pydantic's checks, and that the length rule counts
      whitespace.
    - Configuration ([Config]): which environments make the import fail,
      that any secret (the empty one included) is accepted verbatim, that
      an integer setting reads back the number it prints, and the cache.

    ** Bounds and fuel

    - [digits_of_nat] (the digits of [str(n)]) takes [Pos.size n] steps, a
      bound on the number of decimal digits ([digit_fuel_enough]).
    - [int(str)] refuses more than 4300 digits, as CPython does;
      [int_str_limit] = 10^4300 is the matching bound on printed integers.
    - The scheduler of [Concurrency] needs no fuel: its termination is
      proved with the measure [work] (two pieces per request at most).
    - [a2b_loop] recurs on its input; [b64url_decode] pads it to a
      multiple of 4 first, as python-jose does.
    - [to_b256] takes [Pos.size n] steps, more than the number of base-256
      digits; [dec_json] takes the length of its input, since every level
      of nesting reads an octet.
    - Datetimes are checked against Python's range (years 1 to 9999) and
      timedeltas against 999999999 days, where [OverflowError] is raised.

    ** Not modelled

    SQLAlchemy's connection pool and the SQL it generates (the session
    is modelled by its effect on the table; [Base] has no behaviour); in
    [app/main.py], the pages of FastAPI's documentation routes and the
    files [StaticFiles] serves (parameters of [Asgi]: library code that
    reads nothing of the table or the tokens), uvicorn's server loop and
    its [reload], the [Location] header of a redirect as a path rather
    than a full URL, and the [content-length] and [content-type] headers
    Starlette adds to every response; CORS's [allow_origin_regex] and
    [expose_headers], which the app does not pass; the package
    [__init__] files (import lists); the full text of FastAPI's 422 error bodies (only
    the error types are kept), the internals of the JSON, HMAC-SHA2
    and bcrypt primitives (interfaces with laws instead; base64url is
    modelled in [Base64], and [Symbolic] also gives a hexadecimal stand-in
    that the other concrete runs use),
    python-jose's asymmetric algorithms, non-ASCII decimal digits in
    [int()], and interleavings of [login] (it only reads, so running it
    atomically loses nothing). *)

(** ** Prelude: the shared vocabulary of the development

    - Python values the code manipulates: [pystr] (a [str], as its list of
      Unicode code points) and [bytes] (a list of octets), with [py] to write
      ASCII literals;
    - [exc], the closed list of Python exceptions that the modelled code
      raises or catches, organised as python-jose's exception hierarchy;
    - [PyM], a state-and-exception monad: a Python call that reads or changes
      the world (clock, database, random salts) and may raise.  Exceptions do
      not roll the state back, as in Python.  Its notation ([let*]) lives in
      [py_scope];
    - the [py] hint database and the tactic [py_run] that evaluate monadic
      programs step by step. *)

From stdpp Require Export base list gmap strings.
From Stdlib Require Export ZArith Lia.

Declare Scope py_scope.
Delimit Scope py_scope with py.
Open Scope Z_scope.

(** ** Strings and bytes *)

(** A Python [str]: its sequence of code points. *)
Abbreviation pystr := (list Z).
(** A Python [bytes] object: its sequence of octets. *)
Abbreviation bytes := (list Z).

(** An ASCII literal as a Python string. *)
Definition py (s : string) : pystr :=
  map (fun a => Z.of_nat (Ascii.nat_of_ascii a)) (String.list_ascii_of_string s).

(** Every element is an octet. *)
Definition octets (b : bytes) : Prop := Forall (fun x => 0 <= x < 256) b.

(** ** Python exceptions *)

(** Why python-jose's [jws] layer refused a token or a key
    ([jose.exceptions.JWSError]). *)
Inductive jws_failure :=
| NotEnoughSegments        (** [_load]: fewer than three segments, or a header
                               segment that is not base64url ([binascii.Error]
                               is a [ValueError], caught by the first clause) *)
| BadHeaderString          (** [_load]: header is not JSON *)
| HeaderNotObject          (** [_load]: header is JSON but not an object *)
| BadPayloadPadding        (** [_load]: payload segment is not base64url *)
| BadCryptoPadding         (** [_load]: signature segment is not base64url *)
| NoAlgorithm              (** [_verify_signature]: falsy [alg] *)
| AlgNotAllowed            (** [_verify_signature]: [alg] not whitelisted *)
| SignatureFailed          (** [_verify_signature]: MAC mismatch *)
| SigningFailed.           (** [sign]: algorithm unsupported, or the key is
                               not usable with it *)

(** Why python-jose's [jwt] layer refused claims
    ([JWTClaimsError], [ExpiredSignatureError]). *)
Inductive claims_failure :=
| IatNotInt | NbfNotInt | NotYetValid | ExpNotInt | Expired
| BadAudience | SubNotString | JtiNotString | AtHashUnchecked.

Inductive jwt_failure :=
| FromJWS (w : jws_failure)     (** [raise JWTError(e)] around [jws.verify] *)
| BadPayloadString              (** claims are not JSON *)
| PayloadNotObject              (** claims are JSON but not an object *)
| Claims (c : claims_failure).  (** a subclass of [JWTError] *)

Inductive exc :=
| ValueError
| TypeError
| OverflowError
| UnicodeEncodeError
| AttributeError
| RecursionError            (** [json.loads] nested past the interpreter's recursion limit *)
| JWKError                  (** [jose.exceptions.JWKError]: not a [JWTError] *)
| JWSError (w : jws_failure)
| JWTError (w : jwt_failure)
| HTTPException (status : Z) (detail : pystr) (headers : list (pystr * pystr))
| IntegrityError            (** [sqlalchemy.exc.IntegrityError]: unique or key violation *)
| DataError                (** [sqlalchemy.exc.DataError]: value too long for its column *)
| InvalidRequestError.     (** [sqlalchemy.exc.InvalidRequestError]: refresh of a row that is gone *)

(** [except JWTError:] catches exactly the [JWTError] family. *)
Definition is_JWTError (e : exc) : bool :=
  match e with JWTError _ => true | _ => false end.

(** ** The state-and-exception monad *)

Inductive res (A : Type) :=
| Ret (v : A)
| Exc (e : exc).
Arguments Ret {A} v.
Arguments Exc {A} e.

Definition PyM (S A : Type) : Type := S -> res A * S.

Section Monad.
Context {S : Type}.

Definition py_ret {A} (v : A) : PyM S A := fun s => (Ret v, s).
Definition py_raise {A} (e : exc) : PyM S A := fun s => (Exc e, s).
Definition py_bind {A B} (m : PyM S A) (k : A -> PyM S B) : PyM S B :=
  fun s => match m s with
           | (Ret v, s') => k v s'
           | (Exc e, s') => (Exc e, s')
           end.
(** [try: m except <handled>: h] *)
Definition py_try {A} (m : PyM S A) (handled : exc -> bool)
           (h : exc -> PyM S A) : PyM S A :=
  fun s => match m s with
           | (Exc e, s') => if handled e then h e s' else (Exc e, s')
           | r => r
           end.
(** A pure fallible computation lifted into the monad. *)
Definition py_lift {A} (r : res A) : PyM S A := fun s => (r, s).

Lemma py_bind_ret {A B} (v : A) (k : A -> PyM S B) s :
  py_bind (py_ret v) k s = k v s.
Proof. reflexivity. Qed.

Lemma py_bind_raise {A B} e (k : A -> PyM S B) s :
  py_bind (py_raise e) k s = (Exc e, s).
Proof. reflexivity. Qed.

Lemma py_bind_assoc {A B C} (m : PyM S A) (k : A -> PyM S B)
      (k' : B -> PyM S C) s :
  py_bind (py_bind m k) k' s = py_bind m (fun x => py_bind (k x) k') s.
Proof. unfold py_bind. by destruct (m s) as [[] ?]. Qed.

Lemma py_bind_Ret {A B} (m : PyM S A) (k : A -> PyM S B) s v s' :
  m s = (Ret v, s') -> py_bind m k s = k v s'.
Proof. unfold py_bind. by intros ->. Qed.

Lemma py_bind_Exc {A B} (m : PyM S A) (k : A -> PyM S B) s e s' :
  m s = (Exc e, s') -> py_bind m k s = (Exc e, s').
Proof. unfold py_bind. by intros ->. Qed.

(** ** Which exceptions a computation can raise *)

(** [m] raises, from any state, only exceptions satisfying [P]. *)
Definition raises_only {A} (P : exc -> Prop) (m : PyM S A) : Prop :=
  forall s e s', m s = (Exc e, s') -> P e.

Section Raises.
Context (P : exc -> Prop).

Lemma raises_only_ret {A} (v : A) : raises_only P (py_ret v).
Proof. by intros s e s' [=]. Qed.

Lemma raises_only_raise {A} (e : exc) : P e -> raises_only P (@py_raise A e).
Proof. by intros He s e' s' [= <- _]. Qed.

Lemma raises_only_lift {A} (r : res A) : (forall e, r = Exc e -> P e) -> raises_only P (py_lift r).
Proof. intros Hr s e s' [= -> _]. by apply Hr. Qed.

Lemma raises_only_bind {A B} (m : PyM S A) (k : A -> PyM S B) :
  raises_only P m -> (forall v, raises_only P (k v)) -> raises_only P (py_bind m k).
Proof.
  intros Hm Hk s e s'. unfold py_bind. destruct (m s) as [[v|e0] s0] eqn:Hs.
  - apply Hk.
  - intros [= <- _]. by apply (Hm s e0 s0).
Qed.

Lemma raises_only_try {A} (m : PyM S A) (handled : exc -> bool) (h : exc -> PyM S A) :
  raises_only (fun e => handled e = true \/ P e) m -> (forall e, raises_only P (h e)) ->
  raises_only P (py_try m handled h).
Proof.
  intros Hm Hh s e s'. unfold py_try. destruct (m s) as [[v|e0] s0] eqn:Hs; [by intros [=]|].
  destruct (handled e0) eqn:He; [apply Hh|].
  intros [= <- _]. destruct (Hm s e0 s0 Hs) as [?|?]; [congruence|done].
Qed.

End Raises.

Lemma raises_only_impl {A} (P Q : exc -> Prop) (m : PyM S A) :
  (forall e, P e -> Q e) -> raises_only P m -> raises_only Q m.
Proof. intros HPQ Hm s e s' Hs. apply HPQ. by apply (Hm s e s'). Qed.
End Monad.

Notation "'let*' x ':=' m 'in' k" := (py_bind m (fun x => k))
  (at level 10, x name, m at level 100, k at level 200) : py_scope.
Notation "'do*' m ';' k" := (py_bind m (fun _ => k))
  (at level 10, m at level 100, k at level 200) : py_scope.

(** ** Automation *)

Create HintDb py discriminated.
Create Rewrite HintDb py_rw.
#[export] Hint Rewrite @py_bind_ret @py_bind_raise @py_bind_assoc : py_rw.
#[export] Hint Resolve raises_only_ret raises_only_bind : py.

(** Reduce a [raises_only] goal to the pure pieces of the program. *)
Ltac raises_run :=
  repeat first [ apply raises_only_ret | apply raises_only_bind; [|intros ?]
               | apply raises_only_lift; intros ? ?
               | apply raises_only_raise
               | progress case_match ].

(** Evaluate  a monadic program one bind at a time. *)
Ltac py_run :=
  repeat (unfold py_lift, py_ret, py_raise in *; simpl in *;
          autorewrite with py_rw in *).

(** ** Generic lemmas *)

Lemma Z_div_le_mono_pos (a b c : Z) : 0 < c -> a <= b -> a / c <= b / c.
Proof. intros. by apply Z.div_le_mono. Qed.

(** [x / c] is the unique [q] with [q * c <= x < (q + 1) * c]. *)
Lemma Z_div_spec_iff (x q c : Z) :
  0 < c -> (x / c = q <-> q * c <= x < (q + 1) * c).
Proof.
  intros Hc. split.
  - intros <-. pose proof (Z.mul_div_le x c Hc).
    pose proof (Z.mod_pos_bound x c Hc). pose proof (Z.div_mod x c). lia.
  - intros [H1 H2]. symmetry. apply (Z.div_unique_pos x c q (x - q * c)); lia.
Qed.

#[export] Hint Resolve Z_div_le_mono_pos : py.
