(* ===== verification/Builtins.v ===== *)
(** * Python builtins the program relies on

    The application calls a few builtins whose exact behaviour decides the
    outcome of a request: [str.strip] and [len] in the password validators
    ([src/backend/app/schemas/auth.py]), [int(str)] on environment variables
    ([src/backend/app/config.py]) and, inside python-jose, [int(...)] on the
    [exp]/[iat]/[nbf] claims.  They are modelled after CPython 3.11+:

    - [py_isspace]: [str.isspace] on one code point (the Unicode White_Space
      characters plus the separators 0x1C-0x1F that CPython also counts);
    - [py_strip]: [str.strip()] with no argument;
    - [int_of_str]: [int(s)] for base 10 ([PyLong_FromUnicodeObject]):
      surrounding whitespace, one optional sign, ASCII digits with single
      underscores between them, at most 4300 digits
      ([sys.get_int_max_str_digits()]); anything else raises [ValueError];
    - [str_of_Z]: [str(n)] for an [int], the decimal numeral.

    Non-ASCII decimal digits (Unicode category Nd), which CPython also
    accepts in [int()], are not modelled: on them [int_of_str] raises. *)

From S2P Require Import Prelude.

(** ** Characters *)

Definition py_isspace (c : Z) : bool :=
  ((9 <=? c) && (c <=? 13)) || ((28 <=? c) && (c <=? 32)) ||
  (c =? 133) || (c =? 160) || (c =? 5760) ||
  ((8192 <=? c) && (c <=? 8202)) || (c =? 8232) || (c =? 8233) ||
  (c =? 8239) || (c =? 8287) || (c =? 12288).

Definition is_ascii_digit (c : Z) : bool := (48 <=? c) && (c <=? 57).

(** ** [str.strip] *)

Fixpoint lstrip (s : pystr) : pystr :=
  match s with
  | c :: r => if py_isspace c then lstrip r else s
  | [] => []
  end.

Definition py_strip (s : pystr) : pystr := rev (lstrip (rev (lstrip s))).

(** ** [int(s)] in base 10 *)

(** The digits after the first one: each one may be preceded by a single
    underscore; an underscore must be followed by a digit. *)
Fixpoint digits_tail (s : pystr) : option (list Z) :=
  match s with
  | [] => Some []
  | c :: r =>
      if c =? 95 then
        match r with
        | d :: r' => if is_ascii_digit d then cons (d - 48) <$> digits_tail r'
                     else None
        | [] => None
        end
      else if is_ascii_digit c then cons (c - 48) <$> digits_tail r
      else None
  end.

(** A numeral: a digit first (no leading underscore), then [digits_tail]. *)
Definition digits_body (s : pystr) : option (list Z) :=
  match s with
  | d :: r => if is_ascii_digit d then cons (d - 48) <$> digits_tail r else None
  | [] => None
  end.

(** The value of a list of decimal digits, most significant first. *)
Definition digits_value (ds : list Z) : Z := fold_left (fun acc d => acc * 10 + d) ds 0.

(** [sys.get_int_max_str_digits()] by default. *)
Definition int_max_str_digits : nat := 4300.

Definition int_of_str (s : pystr) : res Z :=
  let t := py_strip s in
  let '(sign, body) :=
    match t with
    | c :: r => if c =? 43 then (1, r) else if c =? 45 then (-1, r) else (1, t)
    | [] => (1, t)
    end in
  match digits_body body with
  | None => Exc ValueError
  | Some ds =>
      if Nat.ltb int_max_str_digits (length ds) then Exc ValueError
      else Ret (sign * digits_value ds)
  end.

(** ** [str(n)] *)

(** Decimal digits of [n >= 0], most significant first, prepended to [acc];
    [fuel] bounds the number of digits. *)
Fixpoint digits_of_nat (fuel : nat) (n : Z) (acc : list Z) : list Z :=
  match fuel with
  | O => acc
  | S f => if n <? 10 then n :: acc else digits_of_nat f (n / 10) (n mod 10 :: acc)
  end.

(** The number of binary digits of [n] bounds its decimal digits. *)
Definition digit_fuel (n : Z) : nat := Pos.to_nat (Pos.size (Z.to_pos n)).

Definition decimal_digits (n : Z) : list Z := digits_of_nat (digit_fuel n) n [].

Definition str_of_Z (z : Z) : pystr :=
  if z <? 0 then 45 :: map (fun d => d + 48) (decimal_digits (- z))
  else map (fun d => d + 48) (decimal_digits z).

(** ** [hmac.compare_digest(a, b)]

    CPython's [_tscmp]: the loop runs over [b] whatever the contents; when
    the lengths differ it compares [b] with itself and starts from a
    non-zero result.  Differences are accumulated with [|=] and [^], so no
    byte decides when the loop stops. *)
Fixpoint tscmp_loop (result : Z) (left right : bytes) : Z :=
  match left, right with
  | l :: ls, r :: rs => tscmp_loop (Z.lor result (Z.lxor l r)) ls rs
  | _, _ => result
  end.

Definition compare_digest (a b : bytes) : bool :=
  let same_len := Nat.eqb (length a) (length b) in
  let left := if same_len then a else b in
  let result := if same_len then 0 else 1 in
  Z.eqb (tscmp_loop result left b) 0.

(** The number of loop iterations: the length of [b], independent of where
    the inputs differ. *)
Definition compare_digest_steps (a b : bytes) : nat := length b.

(** ** [str.encode("utf-8")]

    Lone surrogates (U+D800 to U+DFFF) raise [UnicodeEncodeError]: the
    result is [None] then. *)
Definition utf8_char (c : Z) : option bytes :=
  if c <? 0 then None
  else if c <? 128 then Some [c]
  else if c <? 2048 then Some [192 + c / 64; 128 + c mod 64]
  else if (55296 <=? c) && (c <=? 57343) then None
  else if c <? 65536 then Some [224 + c / 4096; 128 + (c / 64) mod 64; 128 + c mod 64]
  else if c <? 1114112 then
    Some [240 + c / 262144; 128 + (c / 4096) mod 64; 128 + (c / 64) mod 64; 128 + c mod 64]
  else None.

Fixpoint utf8_encode (s : pystr) : option bytes :=
  match s with
  | [] => Some []
  | c :: r => match utf8_char c, utf8_encode r with
              | Some b, Some br => Some (b ++ br)
              | _, _ => None
              end
  end.

(** ** [bytes.split(sep, 1)], [bytes.rsplit(sep, 1)] and [needle in hay] *)

(** The parts before and after the first [sep]; [None] when [sep] does not
    occur (unpacking the one-element result then raises [ValueError]). *)
Fixpoint split_first (sep : Z) (s : bytes) : option (bytes * bytes) :=
  match s with
  | [] => None
  | c :: r => if c =? sep then Some ([], r)
              else (fun '(a, b) => (c :: a, b)) <$> split_first sep r
  end.

(** The parts before and after the last [sep]. *)
Definition split_last (sep : Z) (s : bytes) : option (bytes * bytes) :=
  (fun '(a, b) => (rev b, rev a)) <$> split_first sep (rev s).

Fixpoint bytes_contains (needle hay : bytes) : bool :=
  match hay with
  | [] => bool_decide (needle = [])
  | _ :: r => bool_decide (needle `prefix_of` hay) || bytes_contains needle r
  end.

(** ** Lemmas *)

(** [int(str)] raises nothing but [ValueError]. *)
Lemma int_of_str_exc (s : pystr) (e : exc) : int_of_str s = Exc e -> e = ValueError.
Proof. unfold int_of_str. repeat case_match; congruence. Qed.

Definition is_digit_val (d : Z) : Prop := 0 <= d <= 9.

Lemma fold_digits_shift (l : list Z) (a : Z) :
  fold_left (fun acc d => acc * 10 + d) l a =
  a * 10 ^ Z.of_nat (length l) + digits_value l.
Proof.
  unfold digits_value. revert a. induction l as [|d l IH]; intros a; simpl.
  - lia.
  - rewrite (IH (a * 10 + d)), (IH (0 * 10 + d)).
    rewrite Nat2Z.inj_succ, Z.pow_succ_r by lia. lia.
Qed.

Lemma digits_value_app (l1 l2 : list Z) :
  digits_value (l1 ++ l2) =
  digits_value l1 * 10 ^ Z.of_nat (length l2) + digits_value l2.
Proof. unfold digits_value at 1. by rewrite fold_left_app, fold_digits_shift. Qed.

Lemma digits_value_single (d : Z) : digits_value [d] = d.
Proof. reflexivity. Qed.

(** The value of [k] decimal digits is below [10^k]. *)
Lemma digits_value_bound (ds : list Z) :
  Forall is_digit_val ds ->
  0 <= digits_value ds < 10 ^ Z.of_nat (length ds).
Proof.
  induction ds as [|d ds IH] using rev_ind; intros Hds; [cbn; lia|].
  apply Forall_app in Hds as [Hds Hd]. inversion Hd; subst.
  unfold is_digit_val in *.
  rewrite digits_value_app, length_app, Nat2Z.inj_add. simpl.
  specialize (IH Hds). rewrite Z.pow_add_r by lia.
  rewrite digits_value_single. change (10 ^ Z.of_nat 1) with 10. lia.
Qed.

Lemma digits_of_nat_spec (fuel : nat) (n : Z) (acc : list Z) :
  (1 <= fuel)%nat -> 0 <= n < 10 ^ Z.of_nat fuel ->
  exists ds, digits_of_nat fuel n acc = ds ++ acc /\ ds <> [] /\
             Forall is_digit_val ds /\ digits_value ds = n /\
             forall m : nat, (1 <= m)%nat -> n < 10 ^ Z.of_nat m ->
                             (length ds <= m)%nat.
Proof.
  revert n acc. induction fuel as [|f IH]; intros n acc Hf Hn; [lia|].
  simpl. destruct (Z.ltb_spec n 10).
  - exists [n]. split; [done|]. split; [done|].
    split; [constructor; [red; lia|constructor]|]. split; [reflexivity|].
    intros m Hm _. simpl. lia.
  - rewrite Nat2Z.inj_succ, Z.pow_succ_r in Hn by lia.
    destruct (IH (n / 10) (n mod 10 :: acc)) as (ds & Heq & _ & Hdig & Hval & Hlen).
    { destruct f; [simpl in Hn; lia|lia]. }
    { split; [apply Z.div_pos; lia|]. apply Z.div_lt_upper_bound; lia. }
    exists (ds ++ [n mod 10]). rewrite Heq, <- app_assoc.
    split; [done|]. split; [|split; [|split]].
    + by destruct ds.
    + apply Forall_app. split; [done|]. constructor; [|done].
      unfold is_digit_val. pose proof (Z.mod_pos_bound n 10). lia.
    + rewrite digits_value_app, Hval, digits_value_single.
      change (10 ^ Z.of_nat (length [n mod 10])) with 10.
      pose proof (Z.div_mod n 10). lia.
    + intros m Hm Hnm. rewrite length_app. simpl.
      destruct m as [|m]; [lia|].
      assert (1 <= m)%nat.
      { destruct m; [simpl in Hnm; lia|lia]. }
      enough (length ds <= m)%nat by lia. apply Hlen; [done|].
      rewrite Nat2Z.inj_succ, Z.pow_succ_r in Hnm by lia.
      apply Z.div_lt_upper_bound; lia.
Qed.

Lemma digit_fuel_enough (n : Z) :
  0 <= n -> (1 <= digit_fuel n)%nat /\ n < 10 ^ Z.of_nat (digit_fuel n).
Proof.
  intros Hn. unfold digit_fuel. split; [lia|].
  rewrite positive_nat_Z.
  destruct n as [|p|p]; [simpl; lia| |lia]. simpl.
  assert (Hp : Z.pos p < Z.pos (2 ^ Pos.size p)) by exact (Pos.size_gt p).
  rewrite Pos2Z.inj_pow in Hp.
  assert (2 ^ Z.pos (Pos.size p) <= 10 ^ Z.pos (Pos.size p))
    by (apply Z.pow_le_mono_l; lia).
  lia.
Qed.

Lemma decimal_digits_spec (n : Z) :
  0 <= n ->
  decimal_digits n <> [] /\ Forall is_digit_val (decimal_digits n) /\
  digits_value (decimal_digits n) = n /\
  forall m : nat, (1 <= m)%nat -> n < 10 ^ Z.of_nat m ->
                  (length (decimal_digits n) <= m)%nat.
Proof.
  intros Hn. destruct (digit_fuel_enough n Hn) as [Hf Hlt].
  destruct (digits_of_nat_spec (digit_fuel n) n [] Hf (conj Hn Hlt))
    as (ds & Heq & ? & ? & ? & ?).
  unfold decimal_digits. rewrite Heq, app_nil_r. done.
Qed.

Lemma is_ascii_digit_shift (d : Z) : is_digit_val d -> is_ascii_digit (d + 48) = true.
Proof. unfold is_digit_val, is_ascii_digit. intros. apply andb_true_iff; lia. Qed.

Lemma is_ascii_digit_spec (c : Z) : is_ascii_digit c = true <-> is_digit_val (c - 48).
Proof. unfold is_digit_val, is_ascii_digit. rewrite andb_true_iff. lia. Qed.

Lemma digits_tail_map (ds : list Z) :
  Forall is_digit_val ds -> digits_tail (map (fun d => d + 48) ds) = Some ds.
Proof.
  induction 1 as [|d ds Hd _ IH]; [done|]. simpl.
  rewrite is_ascii_digit_shift by done. red in Hd.
  destruct (Z.eqb_spec (d + 48) 95); [lia|]. by rewrite IH, Z.add_simpl_r.
Qed.

Lemma digits_body_map (ds : list Z) :
  ds <> [] -> Forall is_digit_val ds ->
  digits_body (map (fun d => d + 48) ds) = Some ds.
Proof.
  destruct ds as [|d ds]; [done|]. intros _ Hds. inversion Hds; subst. simpl.
  rewrite is_ascii_digit_shift, digits_tail_map by done. by rewrite Z.add_simpl_r.
Qed.

Lemma digits_tail_digits_n (n : nat) (s : pystr) (ds : list Z) :
  (length s <= n)%nat -> digits_tail s = Some ds -> Forall is_digit_val ds.
Proof.
  revert s ds. induction n as [|n IH]; intros s ds Hlen H;
    (destruct s as [|c r]; [simpl in H; by injection H as <-|]); simpl in *; [lia|].
  destruct (c =? 95).
  - destruct r as [|d r']; [done|].
    destruct (is_ascii_digit d) eqn:Hd; [|done].
    destruct (digits_tail r') eqn:Ht; simpl in H; [|done]. injection H as <-.
    constructor; [by apply is_ascii_digit_spec|]. apply (IH r'); [simpl in Hlen; lia|done].
  - destruct (is_ascii_digit c) eqn:Hd; [|done].
    destruct (digits_tail r) eqn:Ht; simpl in H; [|done]. injection H as <-.
    constructor; [by apply is_ascii_digit_spec|]. apply (IH r); [lia|done].
Qed.

Lemma digits_tail_digits (s : pystr) (ds : list Z) :
  digits_tail s = Some ds -> Forall is_digit_val ds.
Proof. by apply digits_tail_digits_n with (length s). Qed.

Lemma digits_body_digits (s : pystr) (ds : list Z) :
  digits_body s = Some ds -> Forall is_digit_val ds.
Proof.
  destruct s as [|d r]; simpl; [done|]. destruct (is_ascii_digit d) eqn:Hd; [|done].
  destruct (digits_tail r) eqn:Ht; simpl; [|done]. intros [= <-].
  constructor; [by apply is_ascii_digit_spec|]. by eapply digits_tail_digits.
Qed.

Lemma lstrip_id (s : pystr) : Forall (fun c => py_isspace c = false) s -> lstrip s = s.
Proof. destruct 1; simpl; [done|]. by rewrite H. Qed.

Lemma py_strip_id (s : pystr) : Forall (fun c => py_isspace c = false) s -> py_strip s = s.
Proof.
  intros Hs. unfold py_strip. rewrite (lstrip_id s Hs), lstrip_id, rev_involutive; [done|].
  by apply Forall_rev.
Qed.

(** [s.strip()] is empty exactly when [s] is all whitespace. *)
Lemma lstrip_nil_iff (s : pystr) : lstrip s = [] <-> Forall (fun c => py_isspace c = true) s.
Proof.
  induction s as [|c r IH]; simpl; [split; constructor|].
  destruct (py_isspace c) eqn:Hc.
  - rewrite IH. split; [by constructor|by inversion 1].
  - split; [done|inversion 1; congruence].
Qed.

Lemma lstrip_head (s : pystr) :
  lstrip s = [] \/ exists c r, lstrip s = c :: r /\ py_isspace c = false.
Proof.
  induction s as [|c r IH]; simpl; [by left|].
  destruct (py_isspace c) eqn:Hc; [done|right; eauto].
Qed.

Lemma py_strip_nil_iff (s : pystr) :
  py_strip s = [] <-> Forall (fun c => py_isspace c = true) s.
Proof.
  rewrite <- lstrip_nil_iff. unfold py_strip.
  destruct (lstrip_head s) as [->|(c & r & -> & Hc)]; [done|].
  split; [|done]. intros Hn.
  apply (f_equal (@rev Z)) in Hn. rewrite rev_involutive in Hn.
  apply lstrip_nil_iff in Hn. simpl in Hn.
  apply Forall_app in Hn as [_ Hn]. inversion Hn. congruence.
Qed.

Lemma numeral_not_space (ds : list Z) :
  Forall is_digit_val ds -> Forall (fun c => py_isspace c = false) (map (fun d => d + 48) ds).
Proof.
  intros Hds. apply Forall_map. eapply Forall_impl; [exact Hds|].
  unfold is_digit_val, py_isspace. intros d Hd. repeat rewrite ?orb_false_iff, ?andb_false_iff.
  lia.
Qed.

#[local] Arguments digits_body : simpl never.

Lemma int_of_str_numeral (sign : list Z) (ds : list Z) :
  sign = [] \/ sign = [45] ->
  ds <> [] -> Forall is_digit_val ds -> (length ds <= int_max_str_digits)%nat ->
  int_of_str (sign ++ map (fun d => d + 48) ds) =
  Ret ((if decide (sign = []) then 1 else -1) * digits_value ds).
Proof.
  intros Hsign Hne Hds Hlen. unfold int_of_str.
  rewrite py_strip_id.
  2:{ apply Forall_app. split; [|by apply numeral_not_space].
      destruct Hsign as [->| ->]; repeat constructor. }
  destruct ds as [|d ds']; [done|]. inversion Hds as [|? ? Hd _]; subst. red in Hd.
  assert (Hnl : Nat.ltb int_max_str_digits (length (d :: ds')) = false)
    by (apply Nat.ltb_ge; done).
  pose proof (digits_body_map (d :: ds') Hne Hds) as Hb.
  destruct Hsign as [->| ->]; cbn [app map] in *.
  - destruct (Z.eqb_spec (d + 48) 43); [lia|]. destruct (Z.eqb_spec (d + 48) 45); [lia|].
    by rewrite Hb, Hnl.
  - change (45 =? 43) with false. change (45 =? 45) with true. cbv beta iota.
    rewrite Hb, Hnl. by rewrite decide_False.
Qed.

(** [10^4300], the first integer that [int()] refuses to read. *)
Definition int_str_limit : Z := 10 ^ Z.of_nat int_max_str_digits.

(** The characters of [str(n)]: a sign, then decimal digits. *)
Lemma str_of_Z_chars (z : Z) : Forall (fun c => c = 45 \/ 48 <= c <= 57) (str_of_Z z).
Proof.
  assert (Hd : forall n, 0 <= n -> Forall (fun c => c = 45 \/ 48 <= c <= 57)
                                    (map (fun d => d + 48) (decimal_digits n))).
  { intros n Hn. destruct (decimal_digits_spec n Hn) as (_ & Hds & _).
    apply Forall_map. eapply Forall_impl; [exact Hds|]. unfold is_digit_val. simpl. lia. }
  unfold str_of_Z. destruct (z <? 0) eqn:Hz; [constructor; [by left|]|]; apply Hd; lia.
Qed.

Lemma map_digit_inj (ds1 ds2 : list Z) :
  map (fun d => d + 48) ds1 = map (fun d => d + 48) ds2 -> ds1 = ds2.
Proof.
  revert ds2. induction ds1 as [|d1 ds1 IH]; intros [|d2 ds2]; simpl; try done.
  intros [= Hd Hr]. f_equal; [lia|by apply IH].
Qed.

(** [str] on integers is injective. *)
Lemma str_of_Z_inj (z1 z2 : Z) : str_of_Z z1 = str_of_Z z2 -> z1 = z2.
Proof.
  assert (Hnn : forall n, 0 <= n -> exists d r, map (fun d => d + 48) (decimal_digits n) = d :: r /\
                                               48 <= d <= 57).
  { intros n Hn. destruct (decimal_digits_spec n Hn) as (Hne & Hds & _).
    destruct (decimal_digits n) as [|d r] eqn:Hdn; [done|]. inversion Hds; subst.
    exists (d + 48), (map (fun d => d + 48) r). unfold is_digit_val in *. split; [done|lia]. }
  assert (Hval : forall n1 n2, 0 <= n1 -> 0 <= n2 ->
            map (fun d => d + 48) (decimal_digits n1) = map (fun d => d + 48) (decimal_digits n2) ->
            n1 = n2).
  { intros n1 n2 H1 H2 Heq. apply map_digit_inj in Heq.
    destruct (decimal_digits_spec n1 H1) as (_ & _ & <- & _).
    destruct (decimal_digits_spec n2 H2) as (_ & _ & <- & _). by rewrite Heq. }
  unfold str_of_Z. destruct (Z.ltb_spec z1 0) as [H1|H1], (Z.ltb_spec z2 0) as [H2|H2].
  - intros [= Heq]. apply Hval in Heq; lia.
  - destruct (Hnn z2 H2) as (d & r & -> & Hd). intros [= <- _]. lia.
  - destruct (Hnn z1 H1) as (d & r & -> & Hd). intros [= -> _]. lia.
  - by apply Hval.
Qed.

(** ** Properties *)

(** [int()] reads back what [str()] prints, for every integer whose
    numeral has at most 4300 digits ([|z| < 10^4300]). *)
Theorem int_of_str_str_of_Z (z : Z) :
  Z.abs z < int_str_limit -> int_of_str (str_of_Z z) = Ret z.
Proof.
  intros Hz. unfold int_str_limit, str_of_Z in *.
  destruct (Z.ltb_spec z 0) as [Hneg|Hpos].
  - destruct (decimal_digits_spec (- z)) as (Hne & Hds & Hval & Hlen); [lia|].
    pose proof (int_of_str_numeral [45] (decimal_digits (- z))) as H.
    cbn [app] in H. rewrite H by first [done | by left | by right | apply Hlen; [cbv; lia | lia]].
    rewrite decide_False, Hval by done. f_equal. lia.
  - destruct (decimal_digits_spec z) as (Hne & Hds & Hval & Hlen); [lia|].
    pose proof (int_of_str_numeral [] (decimal_digits z)) as H.
    cbn [app] in H. rewrite H by first [done | by left | by right | apply Hlen; [cbv; lia | lia]].
    rewrite decide_True, Hval by done. f_equal. lia.
Qed.

(** whatever [int()] accepts is below the 4300-digit limit in absolute
    value: the limit check runs before any value is returned. *)
Theorem int_of_str_bound (s : pystr) (z : Z) :
  int_of_str s = Ret z -> Z.abs z < int_str_limit.
Proof.
  unfold int_of_str, int_str_limit.
  destruct (match py_strip s with
            | c :: r => if c =? 43 then (1, r) else if c =? 45 then (-1, r) else (1, py_strip s)
            | [] => (1, py_strip s) end) as [sign body] eqn:Hsb.
  assert (Hsign : sign = 1 \/ sign = -1).
  { destruct (py_strip s) as [|c r]; [by injection Hsb as <-; left|].
    destruct (c =? 43); [by injection Hsb as <-; left|].
    destruct (c =? 45); injection Hsb as <-; auto. }
  destruct (digits_body body) as [ds|] eqn:Hb; [|done].
  destruct (Nat.ltb_spec int_max_str_digits (length ds)); [done|].
  intros [= <-]. apply digits_body_digits in Hb. apply digits_value_bound in Hb.
  assert (10 ^ Z.of_nat (length ds) <= 10 ^ Z.of_nat int_max_str_digits)
    by (apply Z.pow_le_mono_r; lia).
  destruct Hsign as [-> | ->]; lia.
Qed.

Lemma tscmp_loop_zero (r : Z) (l b : bytes) :
  length l = length b -> tscmp_loop r l b = 0 <-> r = 0 /\ l = b.
Proof.
  revert r b. induction l as [|x l IH]; intros r [|y b] Hlen; simpl in *; try lia.
  - naive_solver.
  - rewrite IH by lia. rewrite Z.lor_eq_0_iff, Z.lxor_eq_0_iff. naive_solver.
Qed.

(** [hmac.compare_digest] is byte-string equality: the branch-free loop
    agrees with the short-circuiting comparison it replaces. *)
Theorem compare_digest_correct (a b : bytes) : compare_digest a b = bool_decide (a = b).
Proof.
  unfold compare_digest.
  destruct (Nat.eqb_spec (length a) (length b)) as [Hl|Hl];
    match goal with |- context [Z.eqb ?t 0] => destruct (Z.eqb_spec t 0) as [H|H] end;
    rewrite tscmp_loop_zero in H by done.
  - by rewrite bool_decide_true by naive_solver.
  - by rewrite bool_decide_false by naive_solver.
  - lia.
  - by rewrite bool_decide_false by (intros ->; done).
Qed.

Lemma utf8_encode_ascii (s : pystr) :
  Forall (fun c => 0 <= c < 128) s -> utf8_encode s = Some s.
Proof.
  induction 1 as [|c s Hc _ IH]; [done|]. simpl. rewrite IH.
  unfold utf8_char. destruct (Z.ltb_spec c 0); [lia|].
  destruct (Z.ltb_spec c 128); [done|lia].
Qed.

Lemma split_first_app (sep : Z) (a b : bytes) :
  sep ∉ a -> split_first sep (a ++ sep :: b) = Some (a, b).
Proof.
  induction a as [|c a IH]; intros Hnin; simpl.
  - by rewrite Z.eqb_refl.
  - rewrite not_elem_of_cons in Hnin.
    destruct (Z.eqb_spec c sep); [naive_solver|]. rewrite IH; naive_solver.
Qed.

Lemma split_last_app (sep : Z) (a b : bytes) :
  sep ∉ b -> split_last sep (a ++ sep :: b) = Some (a, b).
Proof.
  intros Hnin. unfold split_last.
  rewrite rev_app_distr. simpl. rewrite <- app_assoc. simpl.
  rewrite split_first_app; [simpl; by rewrite !rev_involutive|].
  by rewrite list_elem_of_In, <- in_rev, <- list_elem_of_In.
Qed.

(** ** Witnesses *)

Lemma int_of_str_str_of_Z_witness : int_of_str (str_of_Z (-12030)) = Ret (-12030).
Proof. apply int_of_str_str_of_Z. vm_compute. reflexivity. Defined.

Lemma int_of_str_bound_witness : Z.abs 1000 < int_str_limit.
Proof. apply (int_of_str_bound (py " +1_000 ")). vm_compute. reflexivity. Defined.
