(* ===== verification/Datetime.v ===== *)
(** * Datetime: the parts of Python's [datetime] and [calendar] the code uses

    [create_access_token] ([src/backend/app/auth/jwt.py]) computes
    [datetime.now(timezone.utc) + timedelta(...)], and python-jose turns
    datetimes into integer claims with [timegm(dt.utctimetuple())].

    - An aware UTC [datetime] is its count of microseconds since
      1970-01-01T00:00:00Z, the resolution of Python's [datetime]; it exists
      only between [dt_min] (0001-01-01) and [dt_max] (9999-12-31
      23:59:59.999999): [dt_add] raises [OverflowError] outside.
    - A [timedelta] is its microseconds; its constructor raises
      [OverflowError] when its normalised day count exceeds 999999999
      ([mk_timedelta]).  A [timedelta] is falsy exactly when it is zero.
    - [timegm(dt.utctimetuple())] drops the microseconds: floor division
      by 10^6 ([to_timestamp]), for dates before 1970 as well.
    - [datetime.now(timezone.utc)] reads a clock.  The clock is an
      interface, [Clock]: a state with its current time and the effect of
      one reading on the state.  A real clock is monotone; where a theorem
      needs that, it says so. *)

From S2P Require Import Prelude.

Module Datetime.

Definition us_per_s : Z := 1000000.
Definition us_per_min : Z := 60 * us_per_s.
Definition us_per_day : Z := 86400 * us_per_s.

(** [datetime.min] and [datetime.max], in microseconds since the epoch. *)
Definition dt_min : Z := -62135596800 * us_per_s.
Definition dt_max : Z := 253402300799 * us_per_s + 999999.

(** [timedelta.max.days]. *)
Definition max_delta_days : Z := 999999999.

(** [timedelta(microseconds=us)]: normalised to days, seconds and
    microseconds with [days = us // 86400000000]. *)
Definition mk_timedelta (us : Z) : res Z :=
  let days := us / us_per_day in
  if (- max_delta_days <=? days) && (days <=? max_delta_days) then Ret us
  else Exc OverflowError.

(** [timedelta(minutes=m)]. *)
Definition timedelta_minutes (m : Z) : res Z := mk_timedelta (m * us_per_min).

(** [bool(td)]. *)
Definition timedelta_truthy (td : Z) : bool := negb (td =? 0).

(** [dt + td]. *)
Definition dt_add (t td : Z) : res Z :=
  let r := t + td in
  if (dt_min <=? r) && (r <=? dt_max) then Ret r else Exc OverflowError.

(** [calendar.timegm(dt.utctimetuple())]. *)
Definition to_timestamp (t : Z) : Z := t / us_per_s.

(** The wall clock. *)
Class Clock (S : Type) := {
  clock_now : S -> Z;   (** the time a reading returns *)
  clock_step : S -> S   (** the state after the reading *)
}.

(** [datetime.now(timezone.utc)] (and [datetime.utcnow()], which python-jose
    uses: the same instant, without a time zone). *)
Definition datetime_now {S} `{Clock S} : PyM S Z :=
  fun s => (Ret (clock_now s), clock_step s).

(** A clock that does not move while one request runs: every reading in a
    request sees the same instant. *)
Record frozen_clock := { frozen_at : Z }.

#[export] Instance frozen_clock_Clock : Clock frozen_clock :=
  {| clock_now := frozen_at; clock_step := fun s => s |}.

(** ** Lemmas *)

Lemma to_timestamp_mono (t t' : Z) : t <= t' -> to_timestamp t <= to_timestamp t'.
Proof. intros. unfold to_timestamp, us_per_s. by apply Z.div_le_mono. Qed.

(** [to_timestamp t] is the second that contains [t]. *)
Lemma to_timestamp_spec (t q : Z) :
  to_timestamp t = q <-> q * us_per_s <= t < (q + 1) * us_per_s.
Proof. unfold to_timestamp. apply Z_div_spec_iff. unfold us_per_s. lia. Qed.

Lemma dt_add_ok (t td : Z) :
  dt_min <= t + td <= dt_max -> dt_add t td = Ret (t + td).
Proof.
  intros H. unfold dt_add.
  by replace ((dt_min <=? t + td) && (t + td <=? dt_max)) with true
    by (symmetry; apply andb_true_iff; lia).
Qed.

Lemma dt_add_overflow (t td : Z) :
  ~ (dt_min <= t + td <= dt_max) -> dt_add t td = Exc OverflowError.
Proof.
  intros H. unfold dt_add.
  destruct (Z.leb_spec dt_min (t + td)), (Z.leb_spec (t + td) dt_max); simpl;
    [lia|done..].
Qed.

Lemma timedelta_minutes_ok (m : Z) :
  - max_delta_days <= m * us_per_min / us_per_day <= max_delta_days ->
  timedelta_minutes m = Ret (m * us_per_min).
Proof.
  intros H. unfold timedelta_minutes, mk_timedelta.
  by replace (_ && _) with true by (symmetry; apply andb_true_iff; lia).
Qed.

Lemma dt_add_Ret (t td r : Z) : dt_add t td = Ret r -> r = t + td.
Proof. unfold dt_add. by destruct (_ && _); intros [=]. Qed.

Lemma timedelta_minutes_Ret (m td : Z) : timedelta_minutes m = Ret td -> td = m * us_per_min.
Proof. unfold timedelta_minutes, mk_timedelta. by destruct (_ && _); intros [=]. Qed.

End Datetime.
