(* ===== verification/Json.v ===== *)
(** * Json: the Python values [json.loads] produces, and what the code asks
    of them

    python-jose decodes a token's header and claims with [json.loads] and
    then inspects the result with Python operations: truthiness ([if not
    alg]), membership ([alg not in algorithms], ["exp" in claims]),
    [claims.get(k)], [isinstance(v, str)] and [int(v)].

    - [json]: [None], [bool], [int], [float] (an IEEE double, as Stdlib's
      [spec_float]), [str], [list] and [dict]; a [dict] keeps its keys in
      insertion order as an association list whose keys are distinct
      ([json.loads] keeps the last value of a repeated key);
    - [truthy], [dict_get], [dict_mem], [int_of_json] model those operations;
      [int_of_json] is [int(v)] with its three failure modes
      ([TypeError], [ValueError], [OverflowError]). *)

From Stdlib Require Import SpecFloat.
From S2P Require Import Prelude Builtins.

Inductive json :=
| JNull
| JBool (b : bool)
| JInt (z : Z)
| JFloat (f : spec_float)
| JStr (s : pystr)
| JArray (l : list json)
| JObject (kv : list (pystr * json)).

Abbreviation dict := (list (pystr * json)).

(** ** Operations *)

(** [d.get(k)]. *)
Fixpoint dict_get (k : pystr) (d : dict) : option json :=
  match d with
  | [] => None
  | (k', v) :: r => if decide (k' = k) then Some v else dict_get k r
  end.

(** [k in d]. *)
Definition dict_mem (k : pystr) (d : dict) : bool := bool_decide (is_Some (dict_get k d)).

Definition float_is_zero (f : spec_float) : bool :=
  match f with S754_zero _ => true | _ => false end.

(** [bool(v)]. *)
Definition truthy (v : json) : bool :=
  match v with
  | JNull => false
  | JBool b => b
  | JInt z => negb (z =? 0)
  | JFloat f => negb (float_is_zero f)
  | JStr s => negb (bool_decide (s = []))
  | JArray l => negb (bool_decide (l = []))
  | JObject kv => negb (bool_decide (kv = []))
  end.

(** [int(f)] for a finite float: truncation toward zero. *)
Definition float_trunc (sign : bool) (m : positive) (e : Z) : Z :=
  let mag := if 0 <=? e then Zpos m * 2 ^ e else Zpos m / 2 ^ (- e) in
  if sign then - mag else mag.

(** [int(v)]. *)
Definition int_of_json (v : json) : res Z :=
  match v with
  | JInt z => Ret z
  | JBool b => Ret (if b then 1 else 0)
  | JFloat (S754_zero _) => Ret 0
  | JFloat (S754_infinity _) => Exc OverflowError
  | JFloat S754_nan => Exc ValueError
  | JFloat (S754_finite s m e) => Ret (float_trunc s m e)
  | JStr s => int_of_str s
  | JNull | JArray _ | JObject _ => Exc TypeError
  end.

(** [isinstance(v, str)]. *)
Definition is_str (v : json) : bool := match v with JStr _ => true | _ => false end.

(** [v in lst] for a list of strings. *)
Definition json_in_strs (v : json) (lst : list pystr) : bool :=
  match v with JStr s => bool_decide (s ∈ lst) | _ => false end.

(** ** Decidable equality *)

#[export] Instance spec_float_eq_dec : EqDecision spec_float.
Proof. solve_decision. Defined.

Fixpoint json_eq_dec (x y : json) : {x = y} + {x <> y}.
Proof.
  refine (match x, y with
          | JNull, JNull => left eq_refl
          | JBool a, JBool b => cast_if (decide (a = b))
          | JInt a, JInt b => cast_if (decide (a = b))
          | JFloat a, JFloat b => cast_if (decide (a = b))
          | JStr a, JStr b => cast_if (decide (a = b))
          | JArray a, JArray b =>
              cast_if (@list_eq_dec _ json_eq_dec a b)
          | JObject a, JObject b =>
              cast_if (@list_eq_dec _ (@prod_eq_dec _ _ _ json_eq_dec) a b)
          | _, _ => right _
          end); congruence.
Defined.

#[export] Instance json_EqDecision : EqDecision json := json_eq_dec.

(** ** Lemmas *)

(** [int(v)] on a JSON value raises [ValueError] (a string that is not a
    number, NaN), [TypeError] ([None], a list, a dict) or [OverflowError]
    (an infinite float). *)
Lemma int_of_json_exc (v : json) (e : exc) :
  int_of_json v = Exc e -> e = ValueError \/ e = TypeError \/ e = OverflowError.
Proof.
  destruct v as [| | |[]| | |]; simpl; try (intros [= <-]; tauto); try done.
  intros He%int_of_str_exc. by left.
Qed.

Lemma dict_get_cons_eq (k : pystr) (v : json) (d : dict) :
  dict_get k ((k, v) :: d) = Some v.
Proof. simpl. by rewrite decide_True. Qed.

Lemma dict_get_cons_ne (k k' : pystr) (v : json) (d : dict) :
  k' <> k -> dict_get k ((k', v) :: d) = dict_get k d.
Proof.
  intros Hne. simpl. by rewrite decide_False.
Qed.

Lemma dict_mem_get (k : pystr) (d : dict) :
  dict_mem k d = false <-> dict_get k d = None.
Proof.
  unfold dict_mem. rewrite bool_decide_eq_false.
  destruct (dict_get k d); split; intros H; try done. by destruct H.
Qed.

(** Every [dict] inside has distinct keys: what [json.loads] can return. *)
Fixpoint json_wf (j : json) : bool :=
  match j with
  | JArray l => forallb json_wf l
  | JObject kv => bool_decide (NoDup kv.*1) && forallb (fun p => json_wf p.2) kv
  | _ => true
  end.

(** The nesting depth of a value: how many arrays and objects
    [json.loads] enters to read it. *)
Fixpoint json_depth (j : json) : nat :=
  match j with
  | JArray l => S (fold_right (fun x m => Nat.max (json_depth x) m) 0%nat l)
  | JObject kv => S (fold_right (fun p m => Nat.max (json_depth p.2) m) 0%nat kv)
  | _ => 0%nat
  end.

(** A depth that CPython's [json.loads] always reads without reaching the
    recursion limit ([sys.getrecursionlimit()] is 1000 by default, and the
    frames below the call count against it). *)
Definition json_safe_depth : nat := 100.

(** ** Induction through nested lists *)

Section json_ind_nested.
Variable P : json -> Prop.
Hypothesis HNull : P JNull.
Hypothesis HBool : forall b, P (JBool b).
Hypothesis HInt : forall z, P (JInt z).
Hypothesis HFloat : forall f, P (JFloat f).
Hypothesis HStr : forall s, P (JStr s).
Hypothesis HArray : forall l, Forall P l -> P (JArray l).
Hypothesis HObject : forall kv, Forall (fun p => P p.2) kv -> P (JObject kv).

Fixpoint json_ind_nested (j : json) : P j :=
  match j with
  | JNull => HNull
  | JBool b => HBool b
  | JInt z => HInt z
  | JFloat f => HFloat f
  | JStr s => HStr s
  | JArray l =>
      HArray l ((fix go (l : list json) : Forall P l :=
                   match l with
                   | [] => @ListDef.Forall_nil _ P
                   | x :: r => @ListDef.Forall_cons _ P x r (json_ind_nested x) (go r)
                   end) l)
  | JObject kv =>
      HObject kv ((fix go (kv : list (pystr * json)) : Forall (fun p => P p.2) kv :=
                     match kv with
                     | [] => @ListDef.Forall_nil _ (fun p => P p.2)
                     | (k, v) :: r => @ListDef.Forall_cons _ (fun p => P p.2) (k, v) r (json_ind_nested v) (go r)
                     end) kv)
  end.
End json_ind_nested.

Lemma json_in_strs_single (a : json) (s : pystr) : json_in_strs a [s] = true -> a = JStr s.
Proof.
  destruct a; simpl; try done. rewrite bool_decide_eq_true, list_elem_of_singleton. by intros ->.
Qed.
