(* ===== verification/Jose.v ===== *)
(** * Jose: the python-jose 3.3 functions that [src/backend/app/auth/jwt.py]
    calls

    [create_access_token] calls [jwt.encode] and [verify_token] calls
    [jwt.decode]; python-jose is a library, not code of this repository,
    so these definitions follow its source (modules [jose.jwt], [jose.jws],
    [jose.jwk], [jose.backends.cryptography_backend.HMACKey]):

    - [jwt_encode]: converts the [datetime] values of the [exp], [iat] and
      [nbf] claims to integer timestamps, then [jws_sign]: header
      [{"alg":alg,"typ":"JWT"}] (sorted keys), payload as compact JSON, both
      base64url-encoded, joined by ".", and the base64url HMAC of that
      signing input appended after a second ".";
    - [jwt_decode]: [jws_load] splits the token on its last and first ".",
      decodes the three segments and parses the header (only a
      [ValueError] of [json.loads] becomes a [JWSError]; the
      [RecursionError] of a header nested past the recursion limit
      escapes, before any signature check);
      [verify_signature] checks the header's [alg] against the whitelist,
      derives candidate keys from the secret ([get_keys], which first tries
      to read the secret as JSON) and compares each key's HMAC with the
      signature ([compare_digest]); then the claims are parsed and
      [validate_claims] checks [iat], [nbf], [exp], [aud], [sub], [jti],
      [at_hash] in that order, reading the clock for [nbf] and [exp].

    Every [JWSError] raised under [jws.verify] becomes a [JWTError]; other
    exceptions ([TypeError] from [int(None)], [JWKError] from an unusable
    key, [UnicodeEncodeError]) propagate.

    The byte-level primitives are an interface: [JoseCodec] (base64url,
    JSON to and from UTF-8 bytes) with its laws [JoseCodecLaws], and [Hmac]
    (HMAC-SHA2) with [HmacLaws].  The theorems of [Jwt] hold for every
    instance satisfying the laws.  Asymmetric algorithms (RS256, ES256, PS256 and the like)
    are outside the model: [jwk_construct] refuses them, which is what
    python-jose does for a secret that is not a PEM key. *)

From S2P Require Import Prelude Builtins Datetime Json.

Module Jose.
Import Datetime.

Inductive sha := SHA256 | SHA384 | SHA512.

(** [HMACKey.HASHES]: the algorithm names python-jose signs with HMAC. *)
Definition hmac_hash (alg : pystr) : option sha :=
  if decide (alg = py "HS256") then Some SHA256
  else if decide (alg = py "HS384") then Some SHA384
  else if decide (alg = py "HS512") then Some SHA512
  else None.

(** ** Interfaces *)

Class JoseCodec := {
  (** [base64url_encode]: URL-safe base64 with the padding stripped *)
  b64url_encode : bytes -> bytes;
  (** [base64url_decode]: re-pads, decodes; [None] is [binascii.Error] *)
  b64url_decode : bytes -> option bytes;
  (** [json.dumps(v, separators=(",", ":")).encode("utf-8")] *)
  json_dump_bytes : json -> bytes;
  (** [json.loads(b.decode("utf-8"))]: a value, or the exception it
      raises ([ValueError] for bytes that are not UTF-8 JSON,
      [RecursionError] for nesting past the recursion limit) *)
  json_load_bytes : bytes -> res json;
  (** [json.loads(key, parse_int=str, parse_float=str)] on the secret, as
      [_get_keys] calls it: numbers come back as the [str] of their text;
      [None] when the secret is not JSON *)
  json_load_key : pystr -> option json
}.

Class JoseCodecLaws `{JoseCodec} := {
  b64url_decode_encode b : octets b -> b64url_decode (b64url_encode b) = Some b;
  b64url_encode_ascii b : octets b -> Forall (fun c => 0 <= c < 128 /\ c <> 46) (b64url_encode b);
  json_load_dump j : json_wf j = true -> (json_depth j <= json_safe_depth)%nat ->
    json_load_bytes (json_dump_bytes j) = Ret j;
  json_load_exc b e : json_load_bytes b = Exc e -> e = ValueError \/ e = RecursionError;
  json_dump_octets j : octets (json_dump_bytes j)
}.

Class Hmac := {
  (** [hmac.new(key, msg, hash).digest()] *)
  hmac_digest : sha -> bytes -> bytes -> bytes
}.

Class HmacLaws `{Hmac} := {
  hmac_octets h k m : octets (hmac_digest h k m)
}.

(** A value of the [claims] dict that [jwt.encode] receives. *)
Inductive pyval := PJ (j : json) | PDatetime (t : Z).

(** What [_get_keys] yields for the secret: a [str], or another JSON value. *)
Inductive key_material := KStr (s : pystr) | KValue (v : json).

Section Jose.
Context `{JoseCodec} `{Hmac}.

(** ** Keys *)

Definition key_of_json (v : json) : key_material :=
  match v with JStr s => KStr s | _ => KValue v end.

(** [for key in keys] over the value of a ["keys"] entry. *)
Definition iter_keys (v : json) : res (list key_material) :=
  match v with
  | JArray l => Ret (map key_of_json l)
  | JStr s => Ret (map (fun c => KStr [c]) s)
  | JObject kv => Ret (map (fun p => KStr p.1) kv)
  | _ => Exc TypeError
  end.

(** [jws._get_keys(key)] for a [str] key. *)
Definition get_keys (key : pystr) : res (list key_material) :=
  match json_load_key key with
  | None => Ret [KStr key]
  | Some (JObject kv as v) =>
      match dict_get (py "keys") kv with
      | Some ks => iter_keys ks
      | None =>
          if dict_mem (py "kty") kv then Ret [KValue v]
          else match kv with
               | [] => Ret [KValue v]
               | _ => Ret (map (fun p => key_of_json p.2) kv)
               end
      end
  | Some (JArray l) => Ret (map key_of_json l)
  | Some (JStr s) => Ret [KStr s]
  | Some v => Ret [KValue v]
  end.

Definition hmac_invalid_strings : list bytes :=
  [py "-----BEGIN PUBLIC KEY-----"; py "-----BEGIN RSA PUBLIC KEY-----";
   py "-----BEGIN CERTIFICATE-----"; py "ssh-rsa"].

(** [jwk.construct(key, alg)], i.e. [HMACKey(key, alg)]: the hash and the
    prepared key bytes. *)
Definition jwk_construct (k : key_material) (alg : pystr) : res (sha * bytes) :=
  match hmac_hash alg with
  | None => Exc JWKError
  | Some h =>
      match k with
      | KStr s =>
          match utf8_encode s with
          | None => Exc UnicodeEncodeError
          | Some kb =>
              if existsb (fun bad => bytes_contains bad kb) hmac_invalid_strings
              then Exc JWKError else Ret (h, kb)
          end
      | KValue (JObject kv) =>
          (** [_process_jwk]: an ["oct"] JWK carries its key base64url-encoded *)
          if bool_decide (dict_get (py "kty") kv = Some (JStr (py "oct"))) then
            match dict_get (py "k") kv with
            | Some (JStr k) =>
                match utf8_encode k with
                | None => Exc UnicodeEncodeError
                | Some kb => match b64url_decode kb with
                             | None => Exc ValueError
                             | Some key => Ret (h, key)
                             end
                end
            | _ => Exc AttributeError
            end
          else Exc JWKError
      | KValue _ => Exc JWKError
      end
  end.

(** ** Signing *)

Definition jws_header (alg : pystr) : json :=
  JObject [(py "alg", JStr alg); (py "typ", JStr (py "JWT"))].

(** [jws.sign(payload, key, algorithm=alg)]. *)
Definition jws_sign (payload : dict) (key alg : pystr) : res pystr :=
  let encoded_header := b64url_encode (json_dump_bytes (jws_header alg)) in
  let encoded_payload := b64url_encode (json_dump_bytes (JObject payload)) in
  let signing_input := encoded_header ++ [46] ++ encoded_payload in
  match jwk_construct (KStr key) alg with
  | Exc _ => Exc (JWSError SigningFailed)
  | Ret (h, kb) => Ret (signing_input ++ [46] ++ b64url_encode (hmac_digest h kb signing_input))
  end.

Definition time_claims : list pystr := [py "exp"; py "iat"; py "nbf"].

(** [jwt.encode] turns [datetime] time claims into timestamps; any other
    [datetime] makes [json.dumps] raise [TypeError]. *)
Fixpoint encode_claims (claims : list (pystr * pyval)) : res dict :=
  match claims with
  | [] => Ret []
  | (k, v) :: r =>
      let v' := match v with
                | PJ j => Ret j
                | PDatetime t =>
                    if bool_decide (k ∈ time_claims) then Ret (JInt (to_timestamp t))
                    else Exc TypeError
                end in
      match v', encode_claims r with
      | Ret j, Ret d => Ret ((k, j) :: d)
      | Exc e, _ | _, Exc e => Exc e
      end
  end.

(** [jwt.encode(claims, key, algorithm=alg)]. *)
Definition jwt_encode (claims : list (pystr * pyval)) (key alg : pystr) : res pystr :=
  match encode_claims claims with
  | Exc e => Exc e
  | Ret d => jws_sign d key alg
  end.

(** ** Verification *)

(** [jws._load(token)]: header, payload, signing input, signature. *)
Definition jws_load (token : pystr) : res (dict * bytes * bytes * bytes) :=
  match utf8_encode token with
  | None => Exc UnicodeEncodeError
  | Some tb =>
      match split_last 46 tb with
      | None => Exc (JWSError NotEnoughSegments)
      | Some (signing_input, crypto_segment) =>
          match split_first 46 signing_input with
          | None => Exc (JWSError NotEnoughSegments)
          | Some (header_segment, claims_segment) =>
              match b64url_decode header_segment with
              | None => Exc (JWSError NotEnoughSegments)
              | Some header_data =>
                  match json_load_bytes header_data with
                  | Exc ValueError => Exc (JWSError BadHeaderString)
                  | Exc e => Exc e
                  | Ret (JObject header) =>
                      match b64url_decode claims_segment with
                      | None => Exc (JWSError BadPayloadPadding)
                      | Some payload =>
                          match b64url_decode crypto_segment with
                          | None => Exc (JWSError BadCryptoPadding)
                          | Some signature => Ret (header, payload, signing_input, signature)
                          end
                      end
                  | Ret _ => Exc (JWSError HeaderNotObject)
                  end
              end
          end
      end
  end.

(** [jws._sig_matches_keys]: [jwk.construct] runs outside the [try], so
    its exceptions escape. *)
Fixpoint sig_matches_keys (keys : list key_material) (signing_input signature : bytes)
         (alg : pystr) : res bool :=
  match keys with
  | [] => Ret false
  | k :: ks =>
      match jwk_construct k alg with
      | Exc e => Exc e
      | Ret (h, kb) =>
          if compare_digest signature (hmac_digest h kb signing_input) then Ret true
          else sig_matches_keys ks signing_input signature alg
      end
  end.

(** [jws._verify_signature]. *)
Definition verify_signature (signing_input : bytes) (header : dict) (signature : bytes)
           (key : pystr) (algorithms : list pystr) : res unit :=
  match dict_get (py "alg") header with
  | None => Exc (JWSError NoAlgorithm)
  | Some a =>
      if negb (truthy a) then Exc (JWSError NoAlgorithm)
      else if negb (json_in_strs a algorithms) then Exc (JWSError AlgNotAllowed)
      else
        let alg := match a with JStr s => s | _ => [] end in
        match get_keys key with
        | Exc e => Exc e
        | Ret keys =>
            match sig_matches_keys keys signing_input signature alg with
            | Exc e => Exc e
            | Ret true => Ret tt
            | Ret false => Exc (JWSError SignatureFailed)
            end
        end
  end.

(** [jws.verify(token, key, algorithms)]: the payload bytes. *)
Definition jws_verify (token key : pystr) (algorithms : list pystr) : res bytes :=
  match jws_load token with
  | Exc e => Exc e
  | Ret (header, payload, signing_input, signature) =>
      match verify_signature signing_input header signature key algorithms with
      | Exc e => Exc e
      | Ret _ => Ret payload
      end
  end.

(** [except JWSError as e: raise JWTError(e)]. *)
Definition wrap_jws {A} (r : res A) : res A :=
  match r with Exc (JWSError w) => Exc (JWTError (FromJWS w)) | _ => r end.

(** [int(claims[name])] when [name in claims]; a [ValueError] becomes the
    claim's [JWTClaimsError], other exceptions escape. *)
Definition int_claim (name : pystr) (bad : claims_failure) (claims : dict) : res (option Z) :=
  match dict_get name claims with
  | None => Ret None
  | Some v =>
      match int_of_json v with
      | Ret z => Ret (Some z)
      | Exc ValueError => Exc (JWTError (Claims bad))
      | Exc e => Exc e
      end
  end.

(** [isinstance(claims[name], str)] when [name in claims]. *)
Definition str_claim (name : pystr) (bad : claims_failure) (claims : dict) : res unit :=
  match dict_get name claims with
  | Some v => if is_str v then Ret tt else Exc (JWTError (Claims bad))
  | None => Ret tt
  end.

Context {S : Type} `{Clock S}.

Definition validate_iat (claims : dict) : PyM S unit :=
  py_lift (match int_claim (py "iat") IatNotInt claims with
           | Exc e => Exc e
           | Ret _ => Ret tt
           end).

Definition validate_nbf (claims : dict) : PyM S unit :=
  (let* o := py_lift (int_claim (py "nbf") NbfNotInt claims) in
   match o with
   | None => py_ret tt
   | Some nbf =>
       let* now := datetime_now in
       if to_timestamp now <? nbf then py_raise (JWTError (Claims NotYetValid))
       else py_ret tt
   end)%py.

(** [_validate_exp]: [if exp < (now - leeway): raise ExpiredSignatureError],
    with [leeway = 0]. *)
Definition validate_exp (claims : dict) : PyM S unit :=
  (let* o := py_lift (int_claim (py "exp") ExpNotInt claims) in
   match o with
   | None => py_ret tt
   | Some exp =>
       let* now := datetime_now in
       if exp <? to_timestamp now then py_raise (JWTError (Claims Expired))
       else py_ret tt
   end)%py.

(** [_validate_aud] with [audience=None]: any [aud] claim is refused. *)
Definition validate_aud (claims : dict) : res unit :=
  if dict_mem (py "aud") claims then Exc (JWTError (Claims BadAudience)) else Ret tt.

(** [_validate_at_hash] with [access_token=None]. *)
Definition validate_at_hash (claims : dict) : res unit :=
  if dict_mem (py "at_hash") claims then Exc (JWTError (Claims AtHashUnchecked)) else Ret tt.

(** [_validate_claims] with the default options ([_validate_iss] does
    nothing when [issuer] is [None]). *)
Definition validate_claims (claims : dict) : PyM S unit :=
  (do* validate_iat claims;
   do* validate_nbf claims;
   do* validate_exp claims;
   do* py_lift (validate_aud claims);
   do* py_lift (str_claim (py "sub") SubNotString claims);
   do* py_lift (str_claim (py "jti") JtiNotString claims);
   py_lift (validate_at_hash claims))%py.

(** [jwt.decode(token, key, algorithms=algorithms)]. *)
Definition jwt_decode (token key : pystr) (algorithms : list pystr) : PyM S dict :=
  (let* payload := py_lift (wrap_jws (jws_verify token key algorithms)) in
   let* claims := py_lift (match json_load_bytes payload with
                           | Exc ValueError => Exc (JWTError BadPayloadString)
                           | Exc e => Exc e
                           | Ret (JObject c) => Ret c
                           | Ret _ => Exc (JWTError PayloadNotObject)
                           end) in
   do* validate_claims claims;
   py_ret claims)%py.

End Jose.
End Jose.
