(* ===== verification/Base64.v ===== *)
(** * Base64: [jose.utils.base64url_encode] and [base64url_decode]

    python-jose encodes every segment of a token with
    [base64.urlsafe_b64encode(input).replace(b"=", b"")] and decodes it
    with [base64.urlsafe_b64decode] after re-padding to a multiple of 4.
    Both are library code (CPython's [base64] module and the C function
    [binascii.a2b_base64]), modelled here after their source:

    - [b64_encode]: three octets become four characters of the URL-safe
      alphabet; a final group of one or two octets becomes two or three
      characters (the ["="] padding is stripped by jose);
    - [b64url_decode]: jose's re-padding, then [urlsafe_b64decode]: ["-"]
      and ["_"] are read as ["+"] and ["/"] (so both alphabets are
      accepted), and [a2b_base64] in its default, non-strict mode: a
      character outside the alphabet is skipped, a ["="] after at least two
      characters of a quad counts towards the padding and ends the input
      once the quad is complete, and a quad left unfinished is an error
      ([None], [binascii.Error]).

    Decoding is left-inverse to encoding on octets ([b64url_decode_encode]),
    encoded text is ASCII without ["."] ([b64url_encode_ascii]), and the
    encoding is malleable: when the input length is not a multiple of 3 the
    last character carries bits the decoder drops, so another last
    character decodes to the same octets ([b64url_decode_flip_last]). *)

From S2P Require Import Prelude.

Module Base64.

(** The URL-safe alphabet: [A-Z], [a-z], [0-9], ["-"], ["_"]. *)
Definition b64_char (i : Z) : Z :=
  if i <? 26 then 65 + i
  else if i <? 52 then 71 + i
  else if i <? 62 then i - 4
  else if i =? 62 then 45 else 95.

(** [table_a2b_base64] after the URL-safe translation: the index of a
    character, [None] for one outside the alphabet. *)
Definition b64_index (c : Z) : option Z :=
  if (65 <=? c) && (c <=? 90) then Some (c - 65)
  else if (97 <=? c) && (c <=? 122) then Some (c - 71)
  else if (48 <=? c) && (c <=? 57) then Some (c + 4)
  else if (c =? 43) || (c =? 45) then Some 62
  else if (c =? 47) || (c =? 95) then Some 63
  else None.

(** [binascii.b2a_base64] with the URL-safe alphabet, padding dropped. *)
Fixpoint b64_encode (b : bytes) : bytes :=
  match b with
  | x :: y :: z :: r =>
      b64_char (Z.shiftr x 2) ::
      b64_char (Z.lor (Z.shiftl (Z.land x 3) 4) (Z.shiftr y 4)) ::
      b64_char (Z.lor (Z.shiftl (Z.land y 15) 2) (Z.shiftr z 6)) ::
      b64_char (Z.land z 63) :: b64_encode r
  | [x; y] =>
      [b64_char (Z.shiftr x 2);
       b64_char (Z.lor (Z.shiftl (Z.land x 3) 4) (Z.shiftr y 4));
       b64_char (Z.shiftl (Z.land y 15) 2)]
  | [x] => [b64_char (Z.shiftr x 2); b64_char (Z.shiftl (Z.land x 3) 4)]
  | [] => []
  end.

(** [jose.utils.base64url_encode]. *)
Definition b64url_encode (b : bytes) : bytes := b64_encode b.

(** The main loop of [binascii.a2b_base64] (non-strict): [qpos] is
    [quad_pos], [left] is [leftchar], [pads] counts the ["="] seen in the
    current quad, [acc] holds the output in reverse. *)
Fixpoint a2b_loop (s : bytes) (qpos left pads : Z) (acc : bytes) : option bytes :=
  match s with
  | [] => if qpos =? 0 then Some (rev acc) else None
  | c :: r =>
      if c =? 61 then
        if (2 <=? qpos) && (4 <=? qpos + (pads + 1)) then Some (rev acc)
        else a2b_loop r qpos left (if 2 <=? qpos then pads + 1 else pads) acc
      else
        match b64_index c with
        | None => a2b_loop r qpos left pads acc
        | Some v =>
            if qpos =? 0 then a2b_loop r 1 v 0 acc
            else if qpos =? 1 then
              a2b_loop r 2 (Z.land v 15) 0 (Z.lor (Z.shiftl left 2) (Z.shiftr v 4) :: acc)
            else if qpos =? 2 then
              a2b_loop r 3 (Z.land v 3) 0 (Z.lor (Z.shiftl left 4) (Z.shiftr v 2) :: acc)
            else a2b_loop r 0 0 0 (Z.lor (Z.shiftl left 6) v :: acc)
        end
  end.

(** [jose.utils.base64url_decode]: pad to a multiple of 4, then
    [base64.urlsafe_b64decode]. *)
Definition b64url_pad (s : bytes) : bytes :=
  let rem := (length s mod 4)%nat in
  if (rem =? 0)%nat then s else s ++ repeat 61 (4 - rem).

Definition b64url_decode (s : bytes) : option bytes :=
  a2b_loop (b64url_pad s) 0 0 0 [].

(** The encoding with its last character moved to the next index of the
    alphabet. *)
Definition flip_last (e : bytes) : bytes :=
  match rev e with
  | [] => []
  | c :: r => rev r ++ [match b64_index c with Some i => b64_char (i + 1) | None => c end]
  end.


(** ** Bit operations as arithmetic *)

Lemma shiftr_div (x k : Z) : 0 <= k -> Z.shiftr x k = x / 2 ^ k.
Proof. apply Z.shiftr_div_pow2. Qed.

Lemma land_mod (x : Z) (n : Z) : 0 <= n -> Z.land x (Z.ones n) = x mod 2 ^ n.
Proof. apply Z.land_ones. Qed.

(** An [or] of a shifted value and a value below the shift is a sum. *)
Lemma lor_shiftl (x y k : Z) :
  0 <= k -> 0 <= y < 2 ^ k -> Z.lor (Z.shiftl x k) y = x * 2 ^ k + y.
Proof.
  intros Hk Hy. rewrite Z.shiftl_mul_pow2 by done. apply Z.bits_inj'. intros i Hi.
  rewrite Z.lor_spec. destruct (Z.lt_ge_cases i k) as [Hlt|Hge].
  - rewrite Z.mul_pow2_bits_low by lia. simpl.
    rewrite <- (Z.mod_pow2_bits_low (x * 2 ^ k + y) k i) by lia.
    f_equal. rewrite Z.add_comm, Z.mod_add by (apply Z.pow_nonzero; lia).
    by rewrite Z.mod_small.
  - rewrite Z.mul_pow2_bits by lia.
    assert (Hyb : Z.testbit y i = false).
    { destruct (Z.eq_dec y 0) as [->|Hy0]; [apply Z.testbit_0_l|].
      apply Z.bits_above_log2; [lia|].
      apply Z.log2_lt_pow2; [lia|]. eapply Z.lt_le_trans; [apply Hy|]. apply Z.pow_le_mono_r; lia. }
    rewrite Hyb, orb_false_r.
    replace i with ((i - k) + k) at 2 by lia. rewrite <- Z.shiftr_spec by lia.
    rewrite Z.shiftr_div_pow2 by lia. f_equal.
    rewrite Z.div_add_l by (apply Z.pow_nonzero; lia). rewrite Z.div_small by lia. lia.
Qed.

Lemma land_low (x k : Z) : 0 <= k -> Z.land x (2 ^ k - 1) = x mod 2 ^ k.
Proof. intros Hk. rewrite <- Z.land_ones by done. f_equal. by rewrite Z.ones_equiv. Qed.

Lemma land3 (x : Z) : Z.land x 3 = x mod 4.
Proof. exact (land_low x 2 ltac:(lia)). Qed.
Lemma land15 (x : Z) : Z.land x 15 = x mod 16.
Proof. exact (land_low x 4 ltac:(lia)). Qed.
Lemma land63 (x : Z) : Z.land x 63 = x mod 64.
Proof. exact (land_low x 6 ltac:(lia)). Qed.

(** The characters of a group, and the octets the decoder rebuilds. *)
Lemma enc_mid (x y k m : Z) :
  0 <= k -> 0 <= y / 2 ^ m < 2 ^ k -> 0 <= m ->
  Z.lor (Z.shiftl x k) (Z.shiftr y m) = x * 2 ^ k + y / 2 ^ m.
Proof. intros. rewrite shiftr_div by done. by apply lor_shiftl. Qed.

Lemma b64_index_char (i : Z) : 0 <= i < 64 -> b64_index (b64_char i) = Some i.
Proof.
  intros Hi. unfold b64_char, b64_index.
  repeat (case_match; simplify_eq; rewrite ?andb_true_iff, ?andb_false_iff, ?orb_true_iff,
    ?orb_false_iff, ?Z.leb_le, ?Z.leb_gt, ?Z.ltb_lt, ?Z.ltb_ge, ?Z.eqb_eq, ?Z.eqb_neq in *);
    f_equal; lia.
Qed.

Lemma b64_char_range (i : Z) :
  0 <= i < 64 -> 0 <= b64_char i < 128 /\ b64_char i <> 46 /\ b64_char i <> 61.
Proof.
  unfold b64_char. intros Hi.
  repeat (case_match; rewrite ?Z.ltb_lt, ?Z.ltb_ge, ?Z.eqb_eq, ?Z.eqb_neq in *); lia.
Qed.

(** One step of the decoder on a character of the alphabet. *)
Lemma a2b_char (i : Z) (r : bytes) (qpos left pads : Z) (acc : bytes) :
  0 <= i < 64 ->
  a2b_loop (b64_char i :: r) qpos left pads acc =
  if qpos =? 0 then a2b_loop r 1 i 0 acc
  else if qpos =? 1 then
    a2b_loop r 2 (Z.land i 15) 0 (Z.lor (Z.shiftl left 2) (Z.shiftr i 4) :: acc)
  else if qpos =? 2 then
    a2b_loop r 3 (Z.land i 3) 0 (Z.lor (Z.shiftl left 4) (Z.shiftr i 2) :: acc)
  else a2b_loop r 0 0 0 (Z.lor (Z.shiftl left 6) i :: acc).
Proof.
  intros Hi. destruct (b64_char_range i Hi) as (_ & _ & Hne).
  simpl. rewrite (proj2 (Z.eqb_neq _ _) Hne), b64_index_char by done. reflexivity.
Qed.


Lemma a2b_char0 (i : Z) (r : bytes) (left pads : Z) (acc : bytes) :
  0 <= i < 64 -> a2b_loop (b64_char i :: r) 0 left pads acc = a2b_loop r 1 i 0 acc.
Proof. intros Hi. by rewrite a2b_char. Qed.

Lemma a2b_char1 (i : Z) (r : bytes) (left pads : Z) (acc : bytes) :
  0 <= i < 64 ->
  a2b_loop (b64_char i :: r) 1 left pads acc =
  a2b_loop r 2 (i mod 16) 0 (left * 4 + i / 16 :: acc).
Proof.
  intros Hi. rewrite a2b_char by done. simpl. rewrite land15, enc_mid by (simpl; Z.div_mod_to_equations; lia).
  reflexivity.
Qed.

Lemma a2b_char2 (i : Z) (r : bytes) (left pads : Z) (acc : bytes) :
  0 <= i < 64 ->
  a2b_loop (b64_char i :: r) 2 left pads acc =
  a2b_loop r 3 (i mod 4) 0 (left * 16 + i / 4 :: acc).
Proof.
  intros Hi. rewrite a2b_char by done. simpl. rewrite land3, enc_mid by (simpl; Z.div_mod_to_equations; lia).
  reflexivity.
Qed.

Lemma a2b_char3 (i : Z) (r : bytes) (left pads : Z) (acc : bytes) :
  0 <= i < 64 ->
  a2b_loop (b64_char i :: r) 3 left pads acc = a2b_loop r 0 0 0 (left * 64 + i :: acc).
Proof.
  intros Hi. rewrite a2b_char by done. simpl. rewrite lor_shiftl by (simpl; lia). reflexivity.
Qed.

(** The characters of a group, as arithmetic on the octets. *)
Lemma enc_c1 (x : Z) : Z.shiftr x 2 = x / 4.
Proof. by rewrite shiftr_div. Qed.

Lemma enc_c2 (x y : Z) :
  0 <= y < 256 -> Z.lor (Z.shiftl (Z.land x 3) 4) (Z.shiftr y 4) = x mod 4 * 16 + y / 16.
Proof. intros. rewrite land3, enc_mid by (simpl; Z.div_mod_to_equations; lia). reflexivity. Qed.

Lemma enc_c3 (y z : Z) :
  0 <= z < 256 -> Z.lor (Z.shiftl (Z.land y 15) 2) (Z.shiftr z 6) = y mod 16 * 4 + z / 64.
Proof. intros. rewrite land15, enc_mid by (simpl; Z.div_mod_to_equations; lia). reflexivity. Qed.

Lemma enc_last2 (y : Z) : Z.shiftl (Z.land y 15) 2 = y mod 16 * 4.
Proof. by rewrite land15, Z.shiftl_mul_pow2. Qed.

Lemma enc_last1 (x : Z) : Z.shiftl (Z.land x 3) 4 = x mod 4 * 16.
Proof. by rewrite land3, Z.shiftl_mul_pow2. Qed.

Ltac b64_range := Z.div_mod_to_equations; lia.



(** ** Round trip *)

(** The encoding with [d] added to the index of a final, partial group's
    last character: [d = 0] is [b64_encode], [d = 1] is [flip_last]. *)
Fixpoint b64_encode_d (d : Z) (b : bytes) : bytes :=
  match b with
  | x :: y :: z :: r => b64_encode [x; y; z] ++ b64_encode_d d r
  | [x; y] =>
      [b64_char (x / 4); b64_char (x mod 4 * 16 + y / 16); b64_char (y mod 16 * 4 + d)]
  | [x] => [b64_char (x / 4); b64_char (x mod 4 * 16 + d)]
  | [] => []
  end.

Ltac octets_inv :=
  unfold octets in *; repeat match goal with H : Forall _ (_ :: _) |- _ => inversion_clear H end.

Lemma b64_encode_d0 (b : bytes) : octets b -> b64_encode b = b64_encode_d 0 b.
Proof.
  intros Hb. induction b as [[|x [|y [|z r]]] IH] using (induction_ltof1 _ (@length _));
    unfold ltof in IH; octets_inv;
    simpl; rewrite ?enc_c1, ?enc_c2, ?enc_c3, ?land63, ?enc_last1, ?enc_last2, ?Z.add_0_r by lia; try done.
  do 4 f_equal. apply IH; [simpl; lia | done].
Qed.

Lemma pad_cons4 (a b c d : Z) (s : bytes) :
  b64url_pad (a :: b :: c :: d :: s) = a :: b :: c :: d :: b64url_pad s.
Proof.
  unfold b64url_pad. cbn [length].
  replace (S (S (S (S (length s))))) with (length s + 1 * 4)%nat by lia.
  rewrite Nat.Div0.mod_add. by case_match.
Qed.

Lemma pad2 (a b : Z) : b64url_pad [a; b] = [a; b; 61; 61].
Proof. reflexivity. Qed.
Lemma pad3 (a b c : Z) : b64url_pad [a; b; c] = [a; b; c; 61].
Proof. reflexivity. Qed.

Ltac a2b_steps :=
  repeat first
    [ rewrite a2b_char0 by b64_range | rewrite a2b_char1 by b64_range
    | rewrite a2b_char2 by b64_range | rewrite a2b_char3 by b64_range ].

(** Decoding the perturbed encoding, for any [0 <= d < 4], gives the
    octets back: the decoder drops the low bits of a final partial group. *)
Lemma a2b_encode_d (d : Z) (b acc : bytes) :
  0 <= d < 4 -> octets b ->
  a2b_loop (b64url_pad (b64_encode_d d b)) 0 0 0 acc = Some (rev acc ++ b).
Proof.
  intros Hd Hb. revert acc.
  induction b as [[|x [|y [|z r]]] IH] using (induction_ltof1 _ (@length _));
    unfold ltof in IH; intros acc;
    octets_inv.
  - by rewrite app_nil_r.
  - cbn [b64_encode_d]. rewrite pad2.
    a2b_steps. simpl. f_equal. f_equal. f_equal. b64_range.
  - cbn [b64_encode_d]. rewrite pad3.
    a2b_steps. simpl. f_equal. rewrite <- !app_assoc. simpl. do 3 f_equal; b64_range.
  - cbn [b64_encode_d]. simpl b64_encode. cbn [app]. rewrite pad_cons4.
    rewrite enc_c1, enc_c2, enc_c3, land63 by lia. a2b_steps.
    rewrite IH by (simpl; lia || done). simpl. rewrite <- !app_assoc. simpl. do 4 f_equal; [b64_range | b64_range | f_equal; b64_range].
Qed.


Lemma b64url_decode_encode (b : bytes) :
  octets b -> b64url_decode (b64url_encode b) = Some b.
Proof.
  intros Hb. unfold b64url_decode, b64url_encode. rewrite b64_encode_d0 by done.
  by rewrite a2b_encode_d by (done || lia).
Qed.

Lemma b64_char_ascii (i : Z) : 0 <= i < 64 -> 0 <= b64_char i < 128 /\ b64_char i <> 46.
Proof. intros Hi. destruct (b64_char_range i Hi) as (? & ? & _). done. Qed.

(** Every character of an encoding is a character of the alphabet. *)
Lemma b64_encode_d_chars (P : Z -> Prop) (d : Z) (b : bytes) :
  (forall i, 0 <= i < 64 -> P (b64_char i)) ->
  0 <= d < 4 -> octets b -> Forall P (b64_encode_d d b).
Proof.
  intros HP Hd Hb.
  induction b as [[|x [|y [|z r]]] IH] using (induction_ltof1 _ (@length _)); unfold ltof in IH;
    octets_inv; simpl; rewrite ?enc_c1, ?enc_c2, ?enc_c3, ?land63 by lia;
    repeat constructor; try apply HP; try b64_range.
  apply IH; [simpl; lia | done].
Qed.

Lemma b64_encode_d_ascii (d : Z) (b : bytes) :
  0 <= d < 4 -> octets b -> Forall (fun c => 0 <= c < 128 /\ c <> 46) (b64_encode_d d b).
Proof. apply b64_encode_d_chars, b64_char_ascii. Qed.

(** The URL-safe alphabet as a test on a character. *)
Definition url_safe (c : Z) : bool :=
  ((65 <=? c) && (c <=? 90)) || ((97 <=? c) && (c <=? 122)) || ((48 <=? c) && (c <=? 57)) ||
  (c =? 45) || (c =? 95).

Lemma b64_char_url_safe (i : Z) : 0 <= i < 64 -> url_safe (b64_char i) = true.
Proof.
  intros Hi. unfold b64_char, url_safe.
  repeat case_match; rewrite ?Z.ltb_lt, ?Z.ltb_ge, ?Z.eqb_eq, ?Z.eqb_neq in *;
    repeat (rewrite ?andb_true_iff, ?orb_true_iff, ?Z.leb_le, ?Z.eqb_eq); lia.
Qed.

Lemma b64url_encode_url_safe (b : bytes) :
  octets b -> Forall (fun c => url_safe c = true) (b64url_encode b).
Proof.
  intros Hb. unfold b64url_encode. rewrite b64_encode_d0 by done.
  apply b64_encode_d_chars; [apply b64_char_url_safe | lia | done].
Qed.

Lemma b64url_encode_ascii (b : bytes) :
  octets b -> Forall (fun c => 0 <= c < 128 /\ c <> 46) (b64url_encode b).
Proof.
  intros Hb. unfold b64url_encode. rewrite b64_encode_d0 by done.
  apply b64_encode_d_ascii; [lia | done].
Qed.


(** ** Malleability of the last character *)

Lemma b64_char_inj (i j : Z) : 0 <= i < 64 -> 0 <= j < 64 -> b64_char i = b64_char j -> i = j.
Proof.
  intros Hi Hj Heq. apply (f_equal b64_index) in Heq.
  rewrite !b64_index_char in Heq by done. congruence.
Qed.

Lemma flip_last_app (p e : bytes) : e <> [] -> flip_last (p ++ e) = p ++ flip_last e.
Proof.
  intros He. unfold flip_last. rewrite rev_app_distr.
  destruct (rev e) as [|c r] eqn:Hr; [by apply (f_equal (@rev _)) in Hr; rewrite rev_involutive in Hr|].
  simpl. by rewrite rev_app_distr, rev_involutive, app_assoc.
Qed.

Lemma b64_encode_d_nil (d : Z) (b : bytes) : b <> [] -> b64_encode_d d b <> [].
Proof. destruct b as [|x [|y [|z r]]]; done. Qed.


Lemma flip_last_encode (b : bytes) :
  octets b -> (length b mod 3 <> 0)%nat -> flip_last (b64_encode_d 0 b) = b64_encode_d 1 b.
Proof.
  induction b as [[|x [|y [|z r]]] IH] using (induction_ltof1 _ (@length _)); unfold ltof in IH;
    intros Hb Hm; octets_inv; try done.
  - simpl. unfold flip_last. simpl. rewrite b64_index_char, Z.add_0_r by b64_range. done.
  - simpl. unfold flip_last. simpl. rewrite b64_index_char, Z.add_0_r by b64_range. done.
  - cbn [b64_encode_d]. rewrite flip_last_app, IH; [done | simpl; lia | done | | ].
    + cbn [length] in Hm. replace (S (S (S (length r)))) with (length r + 1 * 3)%nat in Hm by lia.
      by rewrite Nat.Div0.mod_add in Hm.
    + apply b64_encode_d_nil. intros ->. done.
Qed.

Lemma encode_d_flip_ne (b : bytes) :
  octets b -> (length b mod 3 <> 0)%nat -> b64_encode_d 1 b <> b64_encode_d 0 b.
Proof.
  induction b as [[|x [|y [|z r]]] IH] using (induction_ltof1 _ (@length _)); unfold ltof in IH;
    intros Hb Hm; octets_inv; try done.
  - simpl. intros Heq. injection Heq as Heq. apply b64_char_inj in Heq; b64_range.
  - simpl. intros Heq. injection Heq as Heq. apply b64_char_inj in Heq; b64_range.
  - cbn [b64_encode_d]. intros Heq. apply app_inv_head in Heq. revert Heq. apply IH; [simpl; lia | done |].
    cbn [length] in Hm. replace (S (S (S (length r)))) with (length r + 1 * 3)%nat in Hm by lia.
    by rewrite Nat.Div0.mod_add in Hm.
Qed.

(** Changing the last character of an encoding whose input length is not a
    multiple of 3 to the next character of the alphabet gives another text
    that decodes to the same octets. *)
Lemma b64url_decode_flip_last (b : bytes) :
  octets b -> (length b mod 3 <> 0)%nat ->
  flip_last (b64url_encode b) <> b64url_encode b /\
  b64url_decode (flip_last (b64url_encode b)) = Some b.
Proof.
  intros Hb Hm. unfold b64url_encode, b64url_decode.
  rewrite b64_encode_d0, flip_last_encode by done. split.
  - by apply encode_d_flip_ne.
  - by rewrite a2b_encode_d by (done || lia).
Qed.

End Base64.
