(* ===== verification/Hasher.v ===== *)
(** * Hasher: [app.auth.password] ([hash_password], [verify_password])

    [src/backend/app/auth/__init__.py] and [src/backend/app/routes/auth.py]
    import [hash_password] and [verify_password] from
    [app/auth/password.py], a file of the repository that is not among the
    sources.  It is modelled from the spec (section 4.1) as an interface:

    - [hash_password p r]: the digest of plaintext [p] with the random salt
      drawn as [r]: the salt is an input, so that the randomness is an
      explicit draw from the world state ([Routes.draw_salt]);
    - [verify_password p d]: whether [p] matches the stored digest [d]; a
      malformed digest gives [false], never an exception.

    [PasswordHasherLaws] states what the spec promises and the routes rely
    on: a digest verifies its own plaintext, and two salts give two
    different digests.  [Symbolic] gives an instance. *)

From S2P Require Import Prelude.

Module Hasher.

Class PasswordHasher := {
  hash_password : pystr -> Z -> pystr;
  verify_password : pystr -> pystr -> bool
}.

Class PasswordHasherLaws `{PasswordHasher} := {
  verify_hash_password p r : verify_password p (hash_password p r) = true;
  hash_password_salted p r1 r2 : r1 <> r2 -> hash_password p r1 <> hash_password p r2
}.

End Hasher.
