(* ===== verification/Symbolic.v ===== *)
(** * Symbolic: concrete instances of the codec and MAC interfaces

    The theorems about tokens ([Jwt]) are stated for any [JoseCodec] and
    [Hmac] that satisfy [JoseCodecLaws] and [HmacLaws].  This file gives one
    instance of each, so that the theorems can be run on concrete tokens:

    - [sym_codec]: the base64url stand-in is lower-case hexadecimal
      ([hex_encode]: printable ASCII without ".", read back by
      [hex_decode]); a JSON value is written by [enc_json], a tagged,
      length-prefixed serialisation (an integer in [0, 253] is one octet,
      any other its base-256 digits), and read back by [json_of_bytes],
      whose fuel is the length of its input.  A secret is read as JSON only
      when it is one of the literals [true], [false], [null]
      ([sym_load_key]).
    - [sym_hmac]: the MAC of [(hash, key, message)] is the serialisation of
      the triple, an injective function: two different keys or messages
      never share a tag, as in a symbolic (Dolev-Yao) model of
      cryptography.
    - [sym_hasher]: a password digest is the salt followed by the
      plaintext, read back and compared by [verify_password].

    Every encoding is linear in its input, so concrete tokens are computed
    and re-checked by the kernel quickly. 

    These instances stand for the real primitives only in the properties the
    laws state. *)

From Stdlib Require Import SpecFloat.
From S2P Require Import Prelude Json Jose Hasher.

Module Symbolic.
Import Jose Hasher.

(** Base-256 digits of a non-negative integer, least significant first. *)
Fixpoint to_b256 (fuel : nat) (n : Z) : bytes :=
  match fuel with
  | O => []
  | S f => if n =? 0 then [] else n mod 256 :: to_b256 f (n / 256)
  end.

Definition of_b256 (l : bytes) : Z := fold_right (fun d acc => d + 256 * acc) 0 l.

Lemma of_to_b256 (fuel : nat) (n : Z) :
  0 <= n < 2 ^ Z.of_nat fuel -> of_b256 (to_b256 fuel n) = n.
Proof.
  revert n. induction fuel as [|f IH]; intros n Hn; simpl in *.
  - change (2 ^ 0) with 1 in Hn. lia.
  - destruct (Z.eqb_spec n 0); [by subst|]. simpl. rewrite IH.
    + pose proof (Z.div_mod n 256). lia.
    + rewrite Nat2Z.inj_succ, Z.pow_succ_r in Hn by lia.
      split; [apply Z.div_pos; lia|]. apply Z.div_lt_upper_bound; [lia|].
      assert (2 ^ Z.of_nat f >= 1) by (pose proof (Z.pow_pos_nonneg 2 (Z.of_nat f)); lia).
      lia.
Qed.

Lemma to_b256_octets (fuel : nat) (n : Z) : 0 <= n -> octets (to_b256 fuel n).
Proof.
  revert n. induction fuel as [|f IH]; intros n Hn; simpl; [constructor|].
  destruct (n =? 0); [constructor|]. constructor.
  - pose proof (Z.mod_pos_bound n 256). lia.
  - apply IH. apply Z.div_pos; lia.
Qed.

(** Lower-case hexadecimal, two digits per octet. *)
Definition hex_digit (d : Z) : Z := if d <? 10 then 48 + d else 87 + d.

Definition hex_value (c : Z) : option Z :=
  if (48 <=? c) && (c <=? 57) then Some (c - 48)
  else if (97 <=? c) && (c <=? 102) then Some (c - 87) else None.

Definition hex_pair (x : Z) : bytes :=
  let y := x mod 256 in [hex_digit (y / 16); hex_digit (y mod 16)].

Definition hex_encode (b : bytes) : bytes := flat_map hex_pair b.

Fixpoint hex_decode (b : bytes) : option bytes :=
  match b with
  | [] => Some []
  | c1 :: c2 :: r =>
      match hex_value c1, hex_value c2, hex_decode r with
      | Some h, Some l, Some t => Some (16 * h + l :: t)
      | _, _, _ => None
      end
  | _ => None
  end.

Lemma hex_value_digit (d : Z) : 0 <= d < 16 -> hex_value (hex_digit d) = Some d.
Proof.
  intros Hd. unfold hex_value, hex_digit.
  destruct (Z.ltb_spec d 10).
  - rewrite (proj2 (andb_true_iff _ _)) by lia. f_equal. lia.
  - destruct (Z.leb_spec 48 (87 + d)), (Z.leb_spec (87 + d) 57); simpl; try lia;
      rewrite (proj2 (andb_true_iff _ _)) by lia; f_equal; lia.
Qed.

Lemma hex_digit_ascii (d : Z) : 0 <= d < 16 -> 0 <= hex_digit d < 128 /\ hex_digit d <> 46.
Proof. unfold hex_digit. destruct (Z.ltb_spec d 10); lia. Qed.

Lemma hex_pair_ranges (x : Z) :
  0 <= x mod 256 / 16 < 16 /\ 0 <= x mod 256 mod 16 < 16.
Proof.
  pose proof (Z.mod_pos_bound x 256). pose proof (Z.mod_pos_bound (x mod 256) 16).
  split; [split; [apply Z.div_pos|apply Z.div_lt_upper_bound]|]; lia.
Qed.

Lemma hex_decode_encode (b : bytes) : octets b -> hex_decode (hex_encode b) = Some b.
Proof.
  induction 1 as [|x b Hx _ IH]; [done|]. simpl.
  destruct (hex_pair_ranges x) as [H1 H2].
  rewrite !hex_value_digit, IH by done.
  rewrite Z.mod_small by lia. f_equal. f_equal.
  pose proof (Z.div_mod x 16). lia.
Qed.

Lemma hex_encode_ascii (b : bytes) : Forall (fun c => 0 <= c < 128 /\ c <> 46) (hex_encode b).
Proof.
  induction b as [|x b IH]; simpl; [constructor|].
  destruct (hex_pair_ranges x) as [H1 H2].
  constructor; [by apply hex_digit_ascii|]. constructor; [by apply hex_digit_ascii|]. done.
Qed.

(** Integers: a value in [0, 253] is one octet; any other is a marker (254
    for positive, 255 for negative) followed by the base-256 digits of its
    absolute value, each behind a 1, ended by a 0. *)
Definition b256_fuel (z : Z) : nat :=
  match z with Zpos p | Zneg p => Pos.to_nat (Pos.size p) | Z0 => O end.

Fixpoint enc_digits (ds : bytes) : bytes :=
  match ds with [] => [0] | d :: r => 1 :: d :: enc_digits r end.

Definition enc_Z (z : Z) : bytes :=
  if (0 <=? z) && (z <? 254) then [z]
  else (if z <? 0 then 255 else 254) :: enc_digits (to_b256 (b256_fuel z) (Z.abs z)).

Fixpoint dec_digits (b : bytes) : option (bytes * bytes) :=
  match b with
  | [] => None
  | c :: r =>
      if c =? 0 then Some ([], r)
      else if c =? 1 then
        match r with
        | [] => None
        | d :: r' => match dec_digits r' with Some (ds, r'') => Some (d :: ds, r'') | None => None end
        end
      else None
  end.

Definition dec_Z (b : bytes) : option (Z * bytes) :=
  match b with
  | [] => None
  | c :: r =>
      if c <? 254 then Some (c, r)
      else match dec_digits r with
           | Some (ds, r') => Some (if c =? 255 then - of_b256 ds else of_b256 ds, r')
           | None => None
           end
  end.

(** [n] items, each read by [d]. *)
Fixpoint dec_list {A} (d : bytes -> option (A * bytes)) (n : nat) (b : bytes) :
  option (list A * bytes) :=
  match n with
  | O => Some ([], b)
  | S n' => match d b with
            | Some (x, b') => match dec_list d n' b' with
                              | Some (xs, b'') => Some (x :: xs, b'')
                              | None => None
                              end
            | None => None
            end
  end.

(** Strings: the length, then the code points. *)
Definition enc_str (s : pystr) : bytes := enc_Z (Z.of_nat (length s)) ++ flat_map enc_Z s.

Definition dec_str (b : bytes) : option (pystr * bytes) :=
  match dec_Z b with Some (n, r) => dec_list dec_Z (Z.to_nat n) r | None => None end.

Lemma dec_digits_enc (ds rest : bytes) : dec_digits (enc_digits ds ++ rest) = Some (ds, rest).
Proof. induction ds as [|d ds IH]; simpl; [done|]. by rewrite IH. Qed.

Lemma b256_fuel_enough (z : Z) : 0 <= Z.abs z < 2 ^ Z.of_nat (b256_fuel z).
Proof.
  destruct z as [|p|p]; simpl; [lia| |];
    (rewrite positive_nat_Z; split; [lia|];
     assert (Hp : Z.pos p < Z.pos (2 ^ Pos.size p)) by exact (Pos.size_gt p);
     by rewrite Pos2Z.inj_pow in Hp).
Qed.

Lemma dec_Z_enc (z : Z) (rest : bytes) : dec_Z (enc_Z z ++ rest) = Some (z, rest).
Proof.
  unfold enc_Z. destruct (Z.leb_spec 0 z), (Z.ltb_spec z 254); simpl;
    try (rewrite (proj2 (Z.ltb_lt z 254)) by lia; done);
    rewrite dec_digits_enc, of_to_b256 by apply b256_fuel_enough;
    destruct (Z.ltb_spec z 0); simpl; f_equal; f_equal; lia.
Qed.

Lemma dec_list_spec {A} (d : bytes -> option (A * bytes)) (e : A -> bytes) (l : list A) (rest : bytes) :
  Forall (fun x => forall rest, d (e x ++ rest) = Some (x, rest)) l ->
  dec_list d (length l) (flat_map e l ++ rest) = Some (l, rest).
Proof.
  induction 1 as [|x l Hx _ IH]; simpl; [done|].
  by rewrite <- app_assoc, Hx, IH.
Qed.

Lemma dec_str_enc (s rest : pystr) : dec_str (enc_str s ++ rest) = Some (s, rest).
Proof.
  unfold dec_str, enc_str. rewrite <- app_assoc, dec_Z_enc, Nat2Z.id.
  apply dec_list_spec, Forall_forall. intros. apply dec_Z_enc.
Qed.

Lemma enc_Z_octets (z : Z) : octets (enc_Z z).
Proof.
  unfold enc_Z. destruct (_ && _) eqn:Hs.
  - apply andb_true_iff in Hs as [?%Z.leb_le ?%Z.ltb_lt]. repeat constructor; lia.
  - constructor; [destruct (z <? 0); lia|].
    assert (Hd : octets (to_b256 (b256_fuel z) (Z.abs z))) by (apply to_b256_octets; lia).
    induction Hd; simpl; repeat constructor; done || lia.
Qed.

Lemma flat_map_octets {A} (e : A -> bytes) (l : list A) :
  (forall x, octets (e x)) -> octets (flat_map e l).
Proof. intros He. induction l; simpl; [constructor|]. apply Forall_app. split; [apply He|exact IHl]. Qed.

Lemma enc_str_octets (s : pystr) : octets (enc_str s).
Proof. apply Forall_app. split; [apply enc_Z_octets|apply flat_map_octets, enc_Z_octets]. Qed.

(** [json.loads] on a secret: the three JSON literals are recognised, and
    any other secret is taken as not JSON. *)
Definition sym_load_key (key : pystr) : option json :=
  if decide (key = py "true") then Some (JBool true)
  else if decide (key = py "false") then Some (JBool false)
  else if decide (key = py "null") then Some JNull
  else None.

(** JSON values: a tag octet, then the payload; arrays and objects carry
    their length. *)
Definition enc_float (f : spec_float) : bytes :=
  match f with
  | S754_zero b => [0; Z.b2z b]
  | S754_infinity b => [1; Z.b2z b]
  | S754_nan => [2]
  | S754_finite b m e => 3 :: Z.b2z b :: enc_Z (Zpos m) ++ enc_Z e
  end.

Definition dec_float (b : bytes) : option (spec_float * bytes) :=
  match b with
  | [2] => Some (S754_nan, [])
  | 2 :: r => Some (S754_nan, r)
  | t :: s :: r =>
      if t =? 0 then Some (S754_zero (s =? 1), r)
      else if t =? 1 then Some (S754_infinity (s =? 1), r)
      else if t =? 3 then
        match dec_Z r with
        | Some (Zpos m, r') => match dec_Z r' with
                               | Some (e, r'') => Some (S754_finite (s =? 1) m e, r'')
                               | None => None
                               end
        | _ => None
        end
      else None
  | _ => None
  end.

Fixpoint enc_json (j : json) : bytes :=
  match j with
  | JNull => [0]
  | JBool b => [1; Z.b2z b]
  | JInt z => 2 :: enc_Z z
  | JFloat f => 3 :: enc_float f
  | JStr s => 4 :: enc_str s
  | JArray l => 5 :: enc_Z (Z.of_nat (length l)) ++ flat_map enc_json l
  | JObject kv =>
      6 :: enc_Z (Z.of_nat (length kv)) ++ flat_map (fun '(k, v) => enc_str k ++ enc_json v) kv
  end.

Definition dec_field (d : bytes -> option (json * bytes)) (b : bytes) :
  option ((pystr * json) * bytes) :=
  match dec_str b with
  | Some (k, b') => match d b' with Some (v, b'') => Some ((k, v), b'') | None => None end
  | None => None
  end.

(** Every level of nesting reads at least one octet, so [length b] is
    enough fuel for [b]. *)
Fixpoint dec_json (fuel : nat) (b : bytes) : option (json * bytes) :=
  match fuel with
  | O => None
  | S f =>
      match b with
      | [] => None
      | t :: r =>
          if t =? 0 then Some (JNull, r)
          else if t =? 1 then match r with c :: r' => Some (JBool (c =? 1), r') | [] => None end
          else if t =? 2 then match dec_Z r with Some (z, r') => Some (JInt z, r') | None => None end
          else if t =? 3 then match dec_float r with Some (x, r') => Some (JFloat x, r') | None => None end
          else if t =? 4 then match dec_str r with Some (s, r') => Some (JStr s, r') | None => None end
          else if t =? 5 then
            match dec_Z r with
            | Some (n, r') => match dec_list (dec_json f) (Z.to_nat n) r' with
                              | Some (l, r'') => Some (JArray l, r'')
                              | None => None
                              end
            | None => None
            end
          else if t =? 6 then
            match dec_Z r with
            | Some (n, r') => match dec_list (dec_field (dec_json f)) (Z.to_nat n) r' with
                              | Some (kv, r'') => Some (JObject kv, r'')
                              | None => None
                              end
            | None => None
            end
          else None
      end
  end.

Definition json_of_bytes (b : bytes) : option json :=
  match dec_json (length b) b with Some (j, []) => Some j | _ => None end.

Lemma b2z_eqb (b : bool) : (Z.b2z b =? 1) = b.
Proof. by destruct b. Qed.

Lemma dec_float_enc (f : spec_float) (rest : bytes) :
  dec_float (enc_float f ++ rest) = Some (f, rest).
Proof.
  destruct f as [[]|[]| |[] m e]; simpl; try done; [by destruct rest| |];
    by rewrite <- app_assoc, !dec_Z_enc.
Qed.

Lemma flat_map_length_elem {A} (e : A -> bytes) (l : list A) (x : A) :
  In x l -> (length (e x) <= length (flat_map e l))%nat.
Proof.
  intros Hx. apply list_elem_of_In, list_elem_of_split in Hx as (l1 & l2 & ->).
  rewrite flat_map_app. simpl. rewrite !length_app. lia.
Qed.

Lemma dec_json_enc (j : json) :
  forall fuel rest, (length (enc_json j) <= fuel)%nat ->
  dec_json fuel (enc_json j ++ rest) = Some (j, rest).
Proof.
  induction j as [| b | z | f | s | l IH | kv IH] using json_ind_nested;
    intros [|fuel] rest Hlen; simpl in Hlen |- *; try lia.
  - done.
  - by rewrite b2z_eqb.
  - by rewrite dec_Z_enc.
  - by rewrite dec_float_enc.
  - by rewrite dec_str_enc.
  - rewrite <- app_assoc, dec_Z_enc, Nat2Z.id, dec_list_spec; [done|].
    apply Forall_forall. intros x Hx%list_elem_of_In rest'.
    apply (proj1 (Forall_forall _ _) IH); [by apply list_elem_of_In|].
    pose proof (flat_map_length_elem enc_json l x Hx). rewrite length_app in Hlen. lia.
  - rewrite <- app_assoc, dec_Z_enc, Nat2Z.id, dec_list_spec; [done|].
    apply Forall_forall. intros [k v] Hx%list_elem_of_In rest'.
    pose proof (flat_map_length_elem (fun '(k, v) => enc_str k ++ enc_json v) kv (k, v) Hx) as Hl.
    change (length (enc_str k ++ enc_json v) <= length (flat_map (fun '(k, v) => enc_str k ++ enc_json v) kv))%nat in Hl.
    rewrite length_app in Hl, Hlen.
    unfold dec_field. rewrite <- app_assoc, dec_str_enc.
    rewrite (proj1 (Forall_forall _ _) IH (k, v)); [done|by apply list_elem_of_In|simpl; lia].
Qed.

Lemma json_of_bytes_enc (j : json) : json_of_bytes (enc_json j) = Some j.
Proof.
  unfold json_of_bytes. rewrite <- (app_nil_r (enc_json j)) at 2.
  by rewrite dec_json_enc.
Qed.

Lemma b2z_octet (b : bool) : 0 <= Z.b2z b < 256.
Proof. destruct b; simpl; lia. Qed.

Ltac octets_step :=
  unfold octets;
  match goal with
  | |- Forall _ (_ :: _) => apply Forall_cons; split; [lia || apply b2z_octet|]
  | |- Forall _ (_ ++ _) => apply Forall_app; split
  | |- Forall _ [] => constructor
  | |- Forall _ (enc_Z _) => apply enc_Z_octets
  | |- Forall _ (enc_str _) => apply enc_str_octets
  end.

Lemma enc_float_octets (f : spec_float) : octets (enc_float f).
Proof. destruct f; simpl; repeat octets_step. Qed.

Lemma enc_json_octets (j : json) : octets (enc_json j).
Proof.
  induction j as [| b | z | f | s | l IH | kv IH] using json_ind_nested; simpl;
    repeat octets_step; try apply enc_float_octets.
  - induction IH as [|x l Hx _ IHl]; simpl; [constructor|]. apply Forall_app. split; [exact Hx|exact IHl].
  - induction IH as [|[k v] kv Hv _ IH']; simpl; [constructor|].
    repeat octets_step; done.
Qed.

(** [sys.getrecursionlimit()] by default. *)
Definition recursion_limit : nat := 1000.

(** [json.loads] over the serialisation: [ValueError] on bytes that do not
    decode, [RecursionError] on a value nested past the recursion limit. *)
Definition sym_load_bytes (b : bytes) : res json :=
  match json_of_bytes b with
  | Some j => if (json_depth j <=? recursion_limit)%nat then Ret j else Exc RecursionError
  | None => Exc ValueError
  end.

Lemma sym_load_bytes_enc (j : json) :
  (json_depth j <= recursion_limit)%nat -> sym_load_bytes (enc_json j) = Ret j.
Proof.
  intros Hd. unfold sym_load_bytes. rewrite json_of_bytes_enc.
  by rewrite (proj2 (Nat.leb_le _ _) Hd).
Qed.

Lemma sym_load_bytes_exc (b : bytes) (e : exc) :
  sym_load_bytes b = Exc e -> e = ValueError \/ e = RecursionError.
Proof. unfold sym_load_bytes. repeat case_match; intros [= <-]; auto. Qed.

#[export] Instance sym_codec : JoseCodec := {|
  b64url_encode := hex_encode;
  b64url_decode := hex_decode;
  json_dump_bytes := enc_json;
  json_load_bytes := sym_load_bytes;
  json_load_key := sym_load_key
|}.

Definition sha_index (h : sha) : Z :=
  match h with SHA256 => 0 | SHA384 => 1 | SHA512 => 2 end.

#[export] Instance sym_hmac : Hmac := {|
  hmac_digest h k m := enc_Z (sha_index h) ++ enc_str k ++ enc_str m
|}.

#[export] Instance sym_codec_laws : JoseCodecLaws.
Proof.
  split; intros; simpl.
  - by apply hex_decode_encode.
  - apply hex_encode_ascii.
  - apply sym_load_bytes_enc. unfold json_safe_depth, recursion_limit in *. lia.
  - by eapply sym_load_bytes_exc.
  - apply enc_json_octets.
Qed.

#[export] Instance sym_hmac_laws : HmacLaws.
Proof. split. intros. simpl. repeat octets_step. Qed.

(** The digest of a password with salt [r] is the salt followed by the
    plaintext: verification reads the plaintext back and compares. *)
#[export] Instance sym_hasher : PasswordHasher := {|
  hash_password p r := enc_Z r ++ enc_str p;
  verify_password p d :=
    match dec_Z d with
    | Some (_, r) => match dec_str r with
                     | Some (p', []) => bool_decide (p' = p)
                     | _ => false
                     end
    | None => false
    end
|}.

#[export] Instance sym_hasher_laws : PasswordHasherLaws.
Proof.
  split; intros; simpl.
  - rewrite dec_Z_enc, <- (app_nil_r (enc_str p)), dec_str_enc. by apply bool_decide_true.
  - intros Heq. apply (f_equal dec_Z) in Heq. rewrite !dec_Z_enc in Heq. congruence.
Qed.

End Symbolic.
