(* ===== verification/Jwt.v ===== *)
(** * Jwt: [src/backend/app/auth/jwt.py]

    [create_access_token(subject, expires_delta=None)] reads the clock,
    adds [expires_delta] when it is truthy and [JWT_EXPIRES_MINUTES] minutes
    otherwise, reads the clock again for [iat], and signs
    [{"sub": subject, "exp": expire, "iat": now}] with [jwt.encode].
    [verify_token(token)] calls [jwt.decode] with the configured secret and
    the one configured algorithm, returns the [sub] claim, and turns every
    [JWTError] into [None].

    Both run in [PyM S] for any clock [S]; [settings] is the module-level
    [settings = get_settings()].  [verify_token] returns the Python value of
    the [sub] claim ([option json]): [Optional[str]] in the annotation.

    The theorems characterise the round trip exactly: a token issued by
    [create_access_token] verifies to its subject until the end of the
    second that contains its expiry instant, and is refused afterwards; a
    token is accepted only if its signature is the configured key's HMAC of
    its signing input under the configured algorithm; [timedelta(0)] means
    "use the default". *)

From S2P Require Import Prelude Builtins Config Datetime Json Jose Symbolic.

Module Jwt.
Import Config Datetime Jose.

Section Jwt.
Context `{JoseCodec} `{Hmac} {S : Type} `{Clock S}.
Variable settings : Settings.

(** [datetime.now(timezone.utc) + timedelta(minutes=settings.JWT_EXPIRES_MINUTES)] *)
Definition default_expire : PyM S Z :=
  (let* now := datetime_now in
   let* td := py_lift (timedelta_minutes (JWT_EXPIRES_MINUTES settings)) in
   py_lift (dt_add now td))%py.

Definition create_access_token (subject : pystr) (expires_delta : option Z) : PyM S pystr :=
  (let* expire :=
     match expires_delta with
     | Some td =>
         if timedelta_truthy td then
           (let* now := datetime_now in py_lift (dt_add now td))
         else default_expire
     | None => default_expire
     end in
   let* iat := datetime_now in
   py_lift (jwt_encode [(py "sub", PJ (JStr subject)); (py "exp", PDatetime expire);
                        (py "iat", PDatetime iat)]
                       (JWT_SECRET settings) (JWT_ALGORITHM settings)))%py.

Definition verify_token (token : pystr) : PyM S (option json) :=
  py_try
    (let* payload := jwt_decode token (JWT_SECRET settings) [JWT_ALGORITHM settings] in
     match dict_get (py "sub") payload with
     | None | Some JNull => py_ret None
     | Some subject => py_ret (Some subject)
     end)%py
    is_JWTError (fun _ => py_ret None).

(** ** The shape of what is issued *)

(** The instant [create_access_token] puts in [exp], given the first
    clock reading. *)
Definition expire_at (expires_delta : option Z) (now : Z) : res Z :=
  let by_default := match timedelta_minutes (JWT_EXPIRES_MINUTES settings) with
                    | Exc e => Exc e
                    | Ret td => dt_add now td
                    end in
  match expires_delta with
  | Some td => if timedelta_truthy td then dt_add now td else by_default
  | None => by_default
  end.

Definition issued_claims (subject : pystr) (exp iat : Z) : dict :=
  [(py "sub", JStr subject); (py "exp", JInt exp); (py "iat", JInt iat)].

Definition header_dict (alg : pystr) : dict :=
  [(py "alg", JStr alg); (py "typ", JStr (py "JWT"))].

Definition signing_input_of (alg : pystr) (payload : dict) : bytes :=
  b64url_encode (json_dump_bytes (jws_header alg)) ++
  46 :: b64url_encode (json_dump_bytes (JObject payload)).

Definition compact (alg : pystr) (payload : dict) (sig : bytes) : pystr :=
  signing_input_of alg payload ++ 46 :: b64url_encode sig.

(** The secret is read as one HMAC key for the configured algorithm:
    [_get_keys] keeps it as it is, and [HMACKey] accepts it. *)
Definition secret_usable (h : sha) (kb : bytes) : Prop :=
  get_keys (JWT_SECRET settings) = Ret [KStr (JWT_SECRET settings)] /\
  jwk_construct (KStr (JWT_SECRET settings)) (JWT_ALGORITHM settings) = Ret (h, kb).

(** ** Lemmas *)

Lemma create_access_token_run (subject : pystr) (d : option Z) (s : S) :
  create_access_token subject d s =
  match expire_at d (clock_now s) with
  | Exc e => (Exc e, clock_step s)
  | Ret exp =>
      (jwt_encode [(py "sub", PJ (JStr subject)); (py "exp", PDatetime exp);
                   (py "iat", PDatetime (clock_now (clock_step s)))]
                  (JWT_SECRET settings) (JWT_ALGORITHM settings),
       clock_step (clock_step s))
  end.
Proof.
  unfold create_access_token, expire_at, default_expire, py_bind, datetime_now, py_lift.
  destruct d as [td|]; [destruct (timedelta_truthy td)|]; simpl;
    try destruct (timedelta_minutes _); try destruct (dt_add _ _); done.
Qed.

Lemma encode_claims_exc (claims : list (pystr * pyval)) (e : exc) :
  encode_claims claims = Exc e -> e = TypeError.
Proof.
  induction claims as [|[k v] r IH]; simpl; [done|].
  destruct v; [|case_bool_decide]; destruct (encode_claims r); naive_solver.
Qed.

(** The exceptions [create_access_token] can raise: [OverflowError] from
    the expiry arithmetic, [TypeError] from [json.dumps], [JWSError] from
    signing with an unusable key. *)
Lemma create_access_token_exc (subject : pystr) (d : option Z) (s s' : S) (e : exc) :
  create_access_token subject d s = (Exc e, s') ->
  e = OverflowError \/ e = TypeError \/ e = JWSError SigningFailed.
Proof.
  rewrite create_access_token_run.
  destruct (expire_at d (clock_now s)) as [exp|e0] eqn:He.
  - unfold jwt_encode. destruct (encode_claims _) as [dct|e1] eqn:Hc.
    + unfold jws_sign. destruct (jwk_construct _ _) as [[]|]; naive_solver.
    + intros [= -> _]. apply encode_claims_exc in Hc. auto.
  - intros [= -> _]. left. unfold expire_at, timedelta_minutes, mk_timedelta, dt_add in He.
    repeat case_match; congruence.
Qed.

Lemma encode_issued_claims (subject : pystr) (exp iat : Z) :
  encode_claims [(py "sub", PJ (JStr subject)); (py "exp", PDatetime exp);
                 (py "iat", PDatetime iat)] =
  Ret (issued_claims subject (to_timestamp exp) (to_timestamp iat)).
Proof. reflexivity. Qed.

Lemma jws_sign_ok (payload : dict) (key alg : pystr) (h : sha) (kb : bytes) :
  jwk_construct (KStr key) alg = Ret (h, kb) ->
  jws_sign payload key alg =
  Ret (compact alg payload (hmac_digest h kb (signing_input_of alg payload))).
Proof. intros Hk. unfold jws_sign. by rewrite Hk. Qed.


(** ** The exceptions of decoding *)

Lemma int_claim_exc (name : pystr) (bad : claims_failure) (c : dict) (e : exc) :
  int_claim name bad c = Exc e -> is_JWTError e = true \/ e = TypeError \/ e = OverflowError.
Proof.
  unfold int_claim. destruct (dict_get name c) as [v|]; [|done].
  destruct (int_of_json v) as [z|e0] eqn:Hv; [done|].
  destruct (int_of_json_exc v e0 Hv) as [->|[->| ->]]; intros [= <-]; auto.
Qed.

Lemma datetime_now_raises (P : exc -> Prop) : raises_only P (@datetime_now S _).
Proof. by intros s e s' [=]. Qed.

(** [_validate_claims] raises a [JWTError], or what [int()] raises
    besides [ValueError]. *)
Lemma validate_claims_raises (c : dict) :
  raises_only (fun e => is_JWTError e = true \/ e = TypeError \/ e = OverflowError)
              (validate_claims c).
Proof.
  unfold validate_claims, validate_iat, validate_nbf, validate_exp, validate_aud, str_claim,
    validate_at_hash.
  raises_run; try apply datetime_now_raises; try (left; reflexivity); simplify_eq;
    try match goal with H : int_claim _ _ _ = Exc _ |- _ => exact (int_claim_exc _ _ _ _ H) end;
    auto.
Qed.

Section WithLaws.
Context `{!JoseCodecLaws} `{!HmacLaws}.

(** [jws._load] raises [UnicodeEncodeError], a [JWSError], or the
    [RecursionError] of [json.loads] on the header, which its
    [except ValueError] does not catch. *)
Lemma jws_load_exc (tok : pystr) (e : exc) :
  jws_load tok = Exc e ->
  e = UnicodeEncodeError \/ e = RecursionError \/ exists w, e = JWSError w.
Proof.
  unfold jws_load. repeat case_match; intros Heq; simplify_eq; eauto.
  all: match goal with H : json_load_bytes _ = Exc _ |- _ =>
         destruct (json_load_exc _ _ H); discriminate end.
Qed.

Lemma b64_no_dot (b : bytes) : octets b -> 46 ∉ b64url_encode b.
Proof.
  intros Hb Hin. pose proof (b64url_encode_ascii b Hb) as Ha.
  rewrite Forall_forall in Ha. apply Ha in Hin. lia.
Qed.

Lemma b64_ascii (b : bytes) : octets b -> Forall (fun c => 0 <= c < 128) (b64url_encode b).
Proof. intros Hb. eapply Forall_impl; [by apply b64url_encode_ascii|]. simpl. lia. Qed.

Lemma signing_input_ascii (alg : pystr) (payload : dict) :
  Forall (fun c => 0 <= c < 128) (signing_input_of alg payload).
Proof.
  unfold signing_input_of. apply Forall_app; split;
    [| constructor; [lia|]]; apply b64_ascii, json_dump_octets.
Qed.

(** [json.loads] reads back the header [jws.sign] wrote. *)
Lemma json_load_header (alg : pystr) :
  json_load_bytes (json_dump_bytes (jws_header alg)) = Ret (jws_header alg).
Proof. apply json_load_dump; [reflexivity | cbn; unfold json_safe_depth; lia]. Qed.

(** [jws._load] takes a token made of an issued signing input and any
    crypto segment of ASCII characters other than ["."] apart; the
    signature is what [base64url_decode] makes of that segment. *)
Lemma jws_load_segments (alg : pystr) (payload : dict) (c sig : bytes) :
  Forall (fun x => 0 <= x < 128 /\ x <> 46) c -> b64url_decode c = Some sig ->
  jws_load (signing_input_of alg payload ++ 46 :: c) =
  Ret (header_dict alg, json_dump_bytes (JObject payload), signing_input_of alg payload, sig).
Proof.
  intros Hc Hdec. unfold jws_load.
  rewrite utf8_encode_ascii.
  2:{ apply Forall_app; split; [apply signing_input_ascii|].
      constructor; [lia|]. eapply Forall_impl; [exact Hc|]. simpl. lia. }
  rewrite split_last_app.
  2:{ intros Hin. rewrite Forall_forall in Hc. apply Hc in Hin. lia. }
  unfold signing_input_of at 1. rewrite split_first_app by (apply b64_no_dot, json_dump_octets).
  rewrite !b64url_decode_encode by apply json_dump_octets. rewrite Hdec.
  by rewrite json_load_header.
Qed.

(** [jws._load] takes an issued token apart into exactly its pieces. *)
Lemma jws_load_compact (alg : pystr) (payload : dict) (sig : bytes) :
  octets sig ->
  jws_load (compact alg payload sig) =
  Ret (header_dict alg, json_dump_bytes (JObject payload), signing_input_of alg payload, sig).
Proof.
  intros Hsig. apply jws_load_segments; [by apply b64url_encode_ascii|].
  by apply b64url_decode_encode.
Qed.

Lemma jwk_construct_hash (k : key_material) (alg : pystr) (h : sha) (kb : bytes) :
  jwk_construct k alg = Ret (h, kb) -> hmac_hash alg = Some h.
Proof.
  unfold jwk_construct. destruct (hmac_hash alg) as [h'|]; [|done].
  intros Hk. repeat (case_match; simplify_eq; try done).
Qed.

Lemma hmac_hash_nonempty (alg : pystr) (h : sha) : hmac_hash alg = Some h -> alg <> [].
Proof. intros Hh ->. discriminate Hh. Qed.

(** With a usable secret, [_verify_signature] either accepts, and then the
    header names the configured algorithm and the signature is the key's
    HMAC of the signing input, or it raises a [JWSError]. *)
Lemma verify_signature_cases (si : bytes) (hdr : dict) (sig : bytes) (key alg : pystr)
      (h : sha) (kb : bytes) :
  get_keys key = Ret [KStr key] -> jwk_construct (KStr key) alg = Ret (h, kb) ->
  (verify_signature si hdr sig key [alg] = Ret tt /\
   dict_get (py "alg") hdr = Some (JStr alg) /\ sig = hmac_digest h kb si) \/
  exists w, verify_signature si hdr sig key [alg] = Exc (JWSError w).
Proof.
  intros Hkeys Hk. unfold verify_signature.
  destruct (dict_get (py "alg") hdr) as [a|] eqn:Halg; [|by right; eexists].
  destruct (truthy a); simpl; [|by right; eexists].
  destruct (json_in_strs a [alg]) eqn:Hin; simpl; [|by right; eexists].
  apply json_in_strs_single in Hin as ->. rewrite Hkeys. simpl. rewrite Hk.
  rewrite compare_digest_correct.
  destruct (bool_decide_reflect (sig = hmac_digest h kb si)); simpl; [left|right; by eexists].
  done.
Qed.

Lemma verify_signature_accepts (si : bytes) (key alg : pystr) (h : sha) (kb : bytes) :
  get_keys key = Ret [KStr key] -> jwk_construct (KStr key) alg = Ret (h, kb) ->
  verify_signature si (header_dict alg) (hmac_digest h kb si) key [alg] = Ret tt.
Proof.
  intros Hkeys Hk. unfold verify_signature, header_dict. rewrite dict_get_cons_eq.
  pose proof (hmac_hash_nonempty _ _ (jwk_construct_hash _ _ _ _ Hk)) as Hne.
  assert (Ht : truthy (JStr alg) = true) by (simpl; by rewrite bool_decide_false).
  rewrite Ht. simpl. rewrite bool_decide_true by (apply list_elem_of_singleton; done).
  simpl. rewrite Hkeys. simpl. rewrite Hk, compare_digest_correct, bool_decide_true by done.
  done.
Qed.

Lemma issued_claims_lookup (subject : pystr) (exp iat : Z) :
  dict_get (py "iat") (issued_claims subject exp iat) = Some (JInt iat) /\
  dict_get (py "nbf") (issued_claims subject exp iat) = None /\
  dict_get (py "exp") (issued_claims subject exp iat) = Some (JInt exp) /\
  dict_get (py "aud") (issued_claims subject exp iat) = None /\
  dict_get (py "sub") (issued_claims subject exp iat) = Some (JStr subject) /\
  dict_get (py "jti") (issued_claims subject exp iat) = None /\
  dict_get (py "at_hash") (issued_claims subject exp iat) = None.
Proof. repeat split; reflexivity. Qed.

(** The claims of an issued token pass every check but the expiry one. *)
Lemma validate_issued_claims (subject : pystr) (exp iat : Z) (s : S) :
  validate_claims (issued_claims subject exp iat) s =
  (if exp <? to_timestamp (clock_now s) then Exc (JWTError (Claims Expired)) else Ret tt,
   clock_step s).
Proof.
  destruct (issued_claims_lookup subject exp iat) as (Hiat & Hnbf & Hexp & Haud & Hsub & Hjti & Hat).
  unfold validate_claims, validate_iat, validate_nbf, validate_exp, validate_aud,
    validate_at_hash, int_claim, str_claim, dict_mem.
  rewrite Hiat, Hnbf, Hexp, Haud, Hsub, Hjti, Hat. simpl.
  unfold py_bind, py_lift, py_ret, py_raise, datetime_now. simpl.
  by destruct (exp <? to_timestamp (clock_now s)).
Qed.

(** ... and the claims [create_access_token] issues. *)
Lemma json_load_issued (subject : pystr) (exp iat : Z) :
  json_load_bytes (json_dump_bytes (JObject (issued_claims subject exp iat))) =
  Ret (JObject (issued_claims subject exp iat)).
Proof. apply json_load_dump; [reflexivity | cbn; unfold json_safe_depth; lia]. Qed.

Lemma jwt_decode_issued (subject : pystr) (exp iat : Z) (key alg : pystr) (h : sha)
      (kb : bytes) (s : S) :
  get_keys key = Ret [KStr key] -> jwk_construct (KStr key) alg = Ret (h, kb) ->
  jwt_decode (compact alg (issued_claims subject exp iat)
                (hmac_digest h kb (signing_input_of alg (issued_claims subject exp iat))))
             key [alg] s =
  (if exp <? to_timestamp (clock_now s) then Exc (JWTError (Claims Expired))
   else Ret (issued_claims subject exp iat), clock_step s).
Proof.
  intros Hkeys Hk. unfold jwt_decode, jws_verify.
  rewrite jws_load_compact by apply hmac_octets.
  rewrite (verify_signature_accepts _ _ _ _ _ Hkeys Hk).
  unfold py_bind at 1 2, py_lift at 1 2. simpl.
  rewrite json_load_issued.
  unfold py_bind. rewrite validate_issued_claims.
  by destruct (exp <? to_timestamp (clock_now s)).
Qed.

(** The token [create_access_token] returns for an expiry instant [exp]
    and an issue instant [iat]. *)
Definition issued_token (subject : pystr) (exp iat : Z) (h : sha) (kb : bytes) : pystr :=
  let payload := issued_claims subject (to_timestamp exp) (to_timestamp iat) in
  compact (JWT_ALGORITHM settings) payload
          (hmac_digest h kb (signing_input_of (JWT_ALGORITHM settings) payload)).

(** With a usable secret, what escapes [verify_token]'s [except JWTError]. *)
Lemma verify_token_raises (tok : pystr) (h : sha) (kb : bytes) :
  secret_usable h kb ->
  raises_only (fun e => e = UnicodeEncodeError \/ e = TypeError \/ e = OverflowError \/
                        e = RecursionError)
              (verify_token tok).
Proof.
  intros [Hkeys Hk]. unfold verify_token. apply raises_only_try; [|intros; apply raises_only_ret].
  apply raises_only_bind; [|intros v; raises_run].
  unfold jwt_decode. apply raises_only_bind; [|intros p; apply raises_only_bind; [|intros c]].
  - apply raises_only_lift. intros e. unfold wrap_jws, jws_verify.
    destruct (jws_load tok) as [[[[hdr p] si] sig]|e0] eqn:Hl.
    + destruct (verify_signature_cases si hdr sig _ _ h kb Hkeys Hk) as [(-> & _)|[w ->]];
        [done|]. intros [= <-]. by left.
    + apply jws_load_exc in Hl as [->|[->|[w ->]]]; intros [= <-]; naive_solver.
  - apply raises_only_lift. intros e. repeat case_match; intros [= <-]; try by left.
    all: match goal with H : json_load_bytes _ = Exc _ |- _ =>
           destruct (json_load_exc _ _ H); simplify_eq; naive_solver end.
  - apply raises_only_bind; [|intros _; raises_run].
    eapply raises_only_impl; [|apply validate_claims_raises]. naive_solver.
Qed.

(** [verify_token] reads its token only through [jws._load]. *)
Lemma verify_token_load_eq (t1 t2 : pystr) (s : S) :
  jws_load t1 = jws_load t2 -> verify_token t1 s = verify_token t2 s.
Proof. intros Heq. unfold verify_token, jwt_decode, jws_verify. by rewrite Heq. Qed.

Lemma verify_token_issued (subject : pystr) (exp iat : Z) (h : sha) (kb : bytes) (s : S) :
  secret_usable h kb ->
  verify_token (issued_token subject exp iat h kb) s =
  (Ret (if to_timestamp exp <? to_timestamp (clock_now s) then None else Some (JStr subject)),
   clock_step s).
Proof.
  intros [Hkeys Hk]. unfold verify_token, issued_token, py_try, py_bind.
  rewrite (jwt_decode_issued _ _ _ _ _ _ _ _ Hkeys Hk).
  destruct (to_timestamp exp <? to_timestamp (clock_now s)); [done|].
  reflexivity.
Qed.

(** ** Properties *)

Lemma create_access_token_issued (subject : pystr) (d : option Z) (s : S) (h : sha) (kb : bytes) :
  secret_usable h kb ->
  create_access_token subject d s =
  match expire_at d (clock_now s) with
  | Exc e => (Exc e, clock_step s)
  | Ret exp =>
      (Ret (issued_token subject exp (clock_now (clock_step s)) h kb), clock_step (clock_step s))
  end.
Proof.
  intros [_ Hk]. rewrite create_access_token_run.
  destruct (expire_at d (clock_now s)); [|done].
  unfold jwt_encode. rewrite encode_issued_claims. by rewrite (jws_sign_ok _ _ _ _ _ Hk).
Qed.

(** C4: [create_access_token] on every branch: it raises exactly when the
    expiry instant cannot be computed ([OverflowError] from [timedelta] or
    from the [datetime] addition), reading the clock once; otherwise it
    reads the clock twice and returns the token signed over
    [{"sub", "exp", "iat"}] with the instants truncated to seconds. *)
Theorem create_access_token_spec (subject : pystr) (d : option Z) (s : S) (h : sha) (kb : bytes) :
  secret_usable h kb ->
  create_access_token subject d s =
  match expire_at d (clock_now s) with
  | Exc e => (Exc e, clock_step s)
  | Ret exp =>
      (Ret (issued_token subject exp (clock_now (clock_step s)) h kb), clock_step (clock_step s))
  end.
Proof. apply create_access_token_issued; assumption. Qed.

Lemma verify_token_of_create (subject : pystr) (d : option Z) (s s1 s' : S)
        (tok : pystr) (h : sha) (kb : bytes) :
  secret_usable h kb ->
  create_access_token subject d s = (Ret tok, s1) ->
  exists expire,
    expire_at d (clock_now s) = Ret expire /\
    verify_token tok s' =
    (Ret (if to_timestamp expire <? to_timestamp (clock_now s') then None
          else Some (JStr subject)), clock_step s').
Proof.
  intros Hu Hc. rewrite (create_access_token_issued _ _ _ _ _ Hu) in Hc.
  destruct (expire_at d (clock_now s)) as [expire|]; [|done].
  injection Hc as <- _. exists expire. split; [done|]. by apply verify_token_issued.
Qed.

(** C1: a token issued by [create_access_token] verifies to its subject
    exactly as long as the current second is not past the second of its
    expiry instant: [verify_token] returns the subject when
    [to_timestamp now <= to_timestamp expire] and [None] afterwards. *)
Theorem verify_token_create_access_token (subject : pystr) (d : option Z) (s s1 s' : S)
        (tok : pystr) (h : sha) (kb : bytes) :
  secret_usable h kb ->
  create_access_token subject d s = (Ret tok, s1) ->
  exists expire,
    expire_at d (clock_now s) = Ret expire /\
    verify_token tok s' =
    (Ret (if to_timestamp expire <? to_timestamp (clock_now s') then None
          else Some (JStr subject)), clock_step s').
Proof. apply verify_token_of_create; assumption. Qed.

Lemma py_try_JWT_Some {A} (m : PyM S (option A)) (s s' : S) (v : A) :
  py_try m is_JWTError (fun _ => py_ret None) s = (Ret (Some v), s') ->
  m s = (Ret (Some v), s').
Proof.
  unfold py_try, py_ret. destruct (m s) as [[r|e] s0]; [done|].
  by destruct (is_JWTError e).
Qed.

(** What [jwt.decode] must have seen to return claims. *)
Lemma jwt_decode_Ret (tok key : pystr) (algs : list pystr) (s s' : S) (c : dict) :
  jwt_decode tok key algs s = (Ret c, s') ->
  exists hdr p si sig,
    jws_load tok = Ret (hdr, p, si, sig) /\ verify_signature si hdr sig key algs = Ret tt /\
    json_load_bytes p = Ret (JObject c).
Proof.
  intros Hv. unfold jwt_decode, jws_verify, py_bind, py_lift in Hv.
  destruct (jws_load tok) as [[[[hdr p] si] sig]|e];
    [|destruct e; simpl in Hv; congruence].
  destruct (verify_signature si hdr sig key algs) as [[]|e] eqn:Hs;
    [|destruct e; simpl in Hv; congruence].
  simpl in Hv. destruct (json_load_bytes p) as [[]|[]] eqn:Hp; simpl in Hv; try congruence.
  destruct (validate_claims _ s) as [[] ?]; unfold py_ret in Hv; simplify_eq.
  do 4 eexists. split; [reflexivity|]. by split.
Qed.

(** C2: [verify_token] accepts a token only if its header names the
    configured algorithm and its signature is the HMAC, under the configured
    secret, of its signing input: whatever else an attacker changes (the
    [alg], a claim, a byte of the signature), the token is refused unless
    the MAC is forged. *)
Theorem verify_token_authentic (tok : pystr) (s s' : S) (v : json) (h : sha) (kb : bytes) :
  secret_usable h kb ->
  verify_token tok s = (Ret (Some v), s') ->
  exists hdr p si,
    jws_load tok = Ret (hdr, p, si, hmac_digest h kb si) /\
    dict_get (py "alg") hdr = Some (JStr (JWT_ALGORITHM settings)).
Proof.
  intros [Hkeys Hk] Hv. apply py_try_JWT_Some in Hv.
  unfold py_bind in Hv. destruct (jwt_decode _ _ _ s) as [[c|e] s0] eqn:Hd; [|done].
  apply jwt_decode_Ret in Hd as (hdr & p & si & sig & Hl & Hs & _).
  destruct (verify_signature_cases si hdr sig _ _ h kb Hkeys Hk)
    as [(_ & Halg & ->)|[w Hw]]; [by eauto|congruence].
Qed.

Lemma verify_token_forged (tok : pystr) (hdr : dict) (p si sig : bytes) (s : S)
        (h : sha) (kb : bytes) :
  secret_usable h kb ->
  jws_load tok = Ret (hdr, p, si, sig) -> sig <> hmac_digest h kb si ->
  verify_token tok s = (Ret None, s).
Proof.
  intros [Hkeys Hk] Hl Hsig.
  unfold verify_token, py_try, py_bind, jwt_decode, jws_verify, py_bind, py_lift.
  rewrite Hl.
  destruct (verify_signature_cases si hdr sig _ _ h kb Hkeys Hk) as [(_ & _ & ?)|[w ->]];
    [done|reflexivity].
Qed.

(** C6: a token whose signature is not the configured key's MAC of its
    signing input is refused with [None]; [verify_token] raises nothing
    and reads no clock. *)
Theorem verify_token_bad_signature (tok : pystr) (hdr : dict) (p si sig : bytes) (s : S)
        (h : sha) (kb : bytes) :
  secret_usable h kb ->
  jws_load tok = Ret (hdr, p, si, sig) -> sig <> hmac_digest h kb si ->
  verify_token tok s = (Ret None, s).
Proof. apply verify_token_forged; assumption. Qed.

Lemma verify_token_window_of (subject : pystr) (d : option Z) (s s1 s' : S) (tok : pystr)
        (expire : Z) (h : sha) (kb : bytes) :
  secret_usable h kb ->
  create_access_token subject d s = (Ret tok, s1) ->
  expire_at d (clock_now s) = Ret expire ->
  (fst (verify_token tok s') = Ret (Some (JStr subject)) <->
   clock_now s' < (to_timestamp expire + 1) * us_per_s).
Proof.
  intros Hu Hc He.
  destruct (verify_token_of_create _ _ _ _ s' _ _ _ Hu Hc) as (e & He' & ->).
  rewrite He in He'. injection He' as <-. simpl.
  pose proof (proj1 (to_timestamp_spec (clock_now s') _) eq_refl).
  pose proof (proj1 (to_timestamp_spec expire _) eq_refl).
  destruct (Z.ltb_spec (to_timestamp expire) (to_timestamp (clock_now s'))); split;
    intros Hv; try done; unfold us_per_s in *; nia.
Qed.

(** C27: [if expires_delta:] treats [timedelta(0)] as absent: a token
    requested with a zero lifetime gets the default expiry and is accepted
    for the whole default window, instead of being expired on issue. *)
Theorem create_access_token_zero_delta (subject : pystr) (s s1 s' : S) (tok : pystr)
        (expire : Z) (h : sha) (kb : bytes) :
  secret_usable h kb ->
  create_access_token subject (Some 0) s = (Ret tok, s1) ->
  expire_at None (clock_now s) = Ret expire ->
  (fst (verify_token tok s') = Ret (Some (JStr subject)) <->
   clock_now s' < (to_timestamp expire + 1) * us_per_s).
Proof. intros Hu Hc He. by apply (verify_token_window_of subject (Some 0) s s1 s' tok expire h kb). Qed.

(** C5: the acceptance window of an issued token, in microseconds: it is
    accepted up to, but excluding, the first instant of the second after
    the one containing its expiry instant.  In particular it is still
    accepted at exactly its expiry instant. *)
Theorem verify_token_window (subject : pystr) (d : option Z) (s s1 s' : S) (tok : pystr)
        (expire : Z) (h : sha) (kb : bytes) :
  secret_usable h kb ->
  create_access_token subject d s = (Ret tok, s1) ->
  expire_at d (clock_now s) = Ret expire ->
  (fst (verify_token tok s') = Ret (Some (JStr subject)) <->
   clock_now s' < (to_timestamp expire + 1) * us_per_s).
Proof. apply verify_token_window_of; assumption. Qed.

(** C30: a negative [JWT_EXPIRES_MINUTES] is accepted at import and makes
    every default-lifetime token expired on issue: on a clock that does not
    go back, [verify_token] refuses it at any later time. *)
Theorem verify_token_negative_ttl (subject : pystr) (s s1 s' : S) (tok : pystr)
        (h : sha) (kb : bytes) :
  secret_usable h kb -> JWT_EXPIRES_MINUTES settings < 0 ->
  clock_now s <= clock_now s' ->
  create_access_token subject None s = (Ret tok, s1) ->
  verify_token tok s' = (Ret None, clock_step s').
Proof.
  intros Hu Hneg Hmono Hc.
  destruct (verify_token_of_create _ _ _ _ s' _ _ _ Hu Hc) as (e & He & ->).
  unfold expire_at in He.
  destruct (timedelta_minutes _) as [td|] eqn:Htd; [|done].
  apply timedelta_minutes_Ret in Htd. apply dt_add_Ret in He. subst.
  assert (to_timestamp (clock_now s + JWT_EXPIRES_MINUTES settings * us_per_min) <
          to_timestamp (clock_now s')).
  { eapply Z.lt_le_trans; [|by apply to_timestamp_mono].
    unfold to_timestamp, us_per_min, us_per_s.
    apply Z.div_lt_upper_bound; [lia|].
    pose proof (Z.mod_pos_bound (clock_now s) 1000000).
    pose proof (Z.div_mod (clock_now s) 1000000). lia. }
  by rewrite (proj2 (Z.ltb_lt _ _) H4).
Qed.

(** [jws._load] on a token whose header segment decodes to bytes that
    [json.loads] rejects with [RecursionError]: the error leaves
    [_load] before the payload and the signature are looked at. *)
Lemma jws_load_deep_header (hseg c g hd : bytes) :
  Forall (fun x => 0 <= x < 128) (hseg ++ c ++ g) -> 46 ∉ hseg -> 46 ∉ g ->
  b64url_decode hseg = Some hd -> json_load_bytes hd = Exc RecursionError ->
  jws_load (hseg ++ 46 :: c ++ 46 :: g) = Exc RecursionError.
Proof.
  intros Hasc Hh Hg Hd Hj. unfold jws_load.
  rewrite utf8_encode_ascii.
  2:{ rewrite !Forall_app in Hasc. destruct Hasc as (? & ? & ?).
      apply Forall_app; split; [done|]. constructor; [lia|].
      apply Forall_app; split; [done|]. constructor; [lia|done]. }
  rewrite app_comm_cons, app_assoc, split_last_app by done.
  rewrite split_first_app by done.
  by rewrite Hd, Hj.
Qed.

(** C24: with a usable secret, the only exceptions that escape
    [verify_token] are [UnicodeEncodeError] (a token that is not valid
    UTF-8 text), the [RecursionError] of [json.loads] on a header or a
    payload nested past the recursion limit (python-jose catches only
    [ValueError] there), and the [TypeError] and [OverflowError] of
    [int()] on a validly signed time claim that is [null], a list, an
    object or an infinite float: every other failure is turned into
    [None]. *)
Theorem verify_token_escapes (tok : pystr) (s s' : S) (e : exc) (h : sha) (kb : bytes) :
  secret_usable h kb ->
  verify_token tok s = (Exc e, s') ->
  e = UnicodeEncodeError \/ e = TypeError \/ e = OverflowError \/ e = RecursionError.
Proof. intros Hu. apply (verify_token_raises tok h kb Hu s e s'). Qed.

(** C25: error: a token whose header segment decodes to JSON nested
    past the recursion limit makes [verify_token] raise [RecursionError]
    instead of returning [None], whatever its payload and signature
    segments and whatever the secret: [jws._load] parses the header under
    [except ValueError] only, before any signature check, and
    [verify_token] catches only [JWTError]. *)
Theorem verify_token_deep_header (hseg c g hd : bytes) (s : S) :
  Forall (fun x => 0 <= x < 128) (hseg ++ c ++ g) -> 46 ∉ hseg -> 46 ∉ g ->
  b64url_decode hseg = Some hd -> json_load_bytes hd = Exc RecursionError ->
  verify_token (hseg ++ 46 :: c ++ 46 :: g) s = (Exc RecursionError, s).
Proof.
  intros Hasc Hh Hg Hd Hj. unfold verify_token, py_try, py_bind, jwt_decode, jws_verify, py_lift.
  by rewrite (jws_load_deep_header hseg c g hd Hasc Hh Hg Hd Hj).
Qed.

(** C28: a validly signed token whose [exp] claim is [null] makes
    [verify_token] raise [TypeError] ([int(None)] inside
    [_validate_exp], which only catches [ValueError]) instead of returning
    [None]. *)
Theorem verify_token_exp_null (subject : pystr) (s : S) (h : sha) (kb : bytes) :
  secret_usable h kb ->
  let payload := [(py "sub", JStr subject); (py "exp", JNull)] in
  verify_token (compact (JWT_ALGORITHM settings) payload
                  (hmac_digest h kb (signing_input_of (JWT_ALGORITHM settings) payload))) s =
  (Exc TypeError, s).
Proof.
  intros [Hkeys Hk] payload.
  unfold verify_token, py_try, py_bind, jwt_decode, jws_verify, py_lift.
  rewrite jws_load_compact by apply hmac_octets.
  rewrite (verify_signature_accepts _ _ _ _ _ Hkeys Hk). unfold py_bind. simpl.
  rewrite json_load_dump by (cbn; unfold json_safe_depth; lia || reflexivity). reflexivity.
Qed.

(** C29: when [JWT_SECRET] reads as a JSON boolean ([true] or [false]),
    signing works but [_get_keys] turns the secret into a Python [bool],
    which [HMACKey] rejects with [JWKError] outside any handler:
    [verify_token] raises on every token [create_access_token] issued. *)
Theorem verify_token_literal_secret (subject : pystr) (exp iat : Z) (s : S) (h : sha)
        (kb : bytes) (b : bool) :
  json_load_key (JWT_SECRET settings) = Some (JBool b) ->
  jwk_construct (KStr (JWT_SECRET settings)) (JWT_ALGORITHM settings) = Ret (h, kb) ->
  verify_token (issued_token subject exp iat h kb) s = (Exc JWKError, s).
Proof.
  intros Hj Hk. pose proof (jwk_construct_hash _ _ _ _ Hk) as Hh.
  pose proof (hmac_hash_nonempty _ _ Hh) as Hne.
  unfold verify_token, issued_token, py_try, py_bind, jwt_decode, jws_verify, py_lift.
  rewrite jws_load_compact by apply hmac_octets.
  unfold verify_signature, header_dict. rewrite dict_get_cons_eq. simpl.
  rewrite bool_decide_false by done. simpl.
  rewrite bool_decide_true by (apply list_elem_of_singleton; done). simpl.
  unfold get_keys. rewrite Hj. simpl. unfold jwk_construct. by rewrite Hh.
Qed.

End WithLaws.

End Jwt.
Section Rotation.
Context `{JoseCodec} `{Hmac} `{!JoseCodecLaws} `{!HmacLaws} {S : Type} `{Clock S}.

(** C26: a token issued under one secret is refused, with [None], by a
    verifier configured with another secret for the same algorithm, as
    soon as the two keys' MACs of its signing input differ (rotating the
    secret invalidates the tokens in flight). *)
Theorem verify_token_other_secret (st1 st2 : Settings) (subject : pystr) (exp iat : Z)
        (h1 h2 : sha) (kb1 kb2 : bytes) (s : S) :
  secret_usable st1 h1 kb1 -> secret_usable st2 h2 kb2 ->
  JWT_ALGORITHM st2 = JWT_ALGORITHM st1 ->
  let si := signing_input_of (JWT_ALGORITHM st1)
              (issued_claims subject (to_timestamp exp) (to_timestamp iat)) in
  hmac_digest h2 kb2 si <> hmac_digest h1 kb1 si ->
  verify_token st2 (issued_token st1 subject exp iat h1 kb1) s = (Ret None, s).
Proof.
  intros _ Hu2 Halg si Hne.
  eapply verify_token_forged; [exact Hu2| |].
  - unfold issued_token. apply jws_load_compact, hmac_octets.
  - intros Heq. by apply Hne.
Qed.

End Rotation.

(** ** Concrete runs

    The symbolic codec and MAC ([Symbolic]), the settings of an empty
    environment, a clock frozen at 2023-11-14T22:13:20Z. *)

Import Symbolic.

Definition demo_subject : pystr := py "alice@example.com".
Definition T0 : Z := 1700000000 * us_per_s.
Definition at_time (t : Z) : frozen_clock := {| frozen_at := t |}.

Definition demo_token : pystr :=
  match create_access_token default_settings demo_subject None (at_time T0) with
  | (Ret t, _) => t
  | _ => []
  end.

Lemma default_secret_usable : secret_usable default_settings SHA256 default_JWT_SECRET.
Proof. split; reflexivity. Qed.

Lemma demo_token_issued :
  create_access_token default_settings demo_subject None (at_time T0) =
  (Ret demo_token, at_time T0).
Proof. vm_compute. reflexivity. Qed.

(** the scenario of the spec, section 8: a token for
    alice@example.com issued at T0 with a 30-minute lifetime verifies at
    T0 + 29 min and is refused at T0 + 31 min. *)
Theorem spec_scenario_alice :
  let tok := create_access_token default_settings demo_subject (Some (30 * us_per_min))
               (at_time T0) in
  match tok with
  | (Ret t, _) =>
      fst (verify_token default_settings t (at_time (T0 + 29 * us_per_min))) =
        Ret (Some (JStr demo_subject)) /\
      fst (verify_token default_settings t (at_time (T0 + 31 * us_per_min))) = Ret None
  | _ => False
  end.
Proof. vm_compute. split; reflexivity. Qed.

(** ** Witnesses *)

Lemma verify_token_create_access_token_witness :
  exists expire,
    expire_at default_settings None T0 = Ret expire /\
    verify_token default_settings demo_token (at_time (T0 + 10 * us_per_min)) =
    (Ret (if to_timestamp expire <? to_timestamp (T0 + 10 * us_per_min) then None
          else Some (JStr demo_subject)), at_time (T0 + 10 * us_per_min)).
Proof.
  exact (verify_token_create_access_token default_settings demo_subject None (at_time T0)
           (at_time T0) (at_time (T0 + 10 * us_per_min)) demo_token SHA256 default_JWT_SECRET
           default_secret_usable demo_token_issued).
Defined.

Lemma create_access_token_spec_witness :
  create_access_token default_settings demo_subject (Some 0) (at_time T0) =
  match expire_at default_settings (Some 0) T0 with
  | Exc e => (Exc e, at_time T0)
  | Ret exp => (Ret (issued_token default_settings demo_subject exp T0 SHA256 default_JWT_SECRET),
                at_time T0)
  end.
Proof.
  exact (create_access_token_spec default_settings demo_subject (Some 0) (at_time T0)
           SHA256 default_JWT_SECRET default_secret_usable).
Defined.

Lemma verify_token_authentic_witness :
  exists hdr p si,
    jws_load demo_token = Ret (hdr, p, si, hmac_digest SHA256 default_JWT_SECRET si) /\
    dict_get (py "alg") hdr = Some (JStr (JWT_ALGORITHM default_settings)).
Proof.
  refine (verify_token_authentic default_settings demo_token (at_time T0) (at_time T0)
            (JStr demo_subject) SHA256 default_JWT_SECRET default_secret_usable _).
  vm_compute. reflexivity.
Defined.


(** The demo token with its signature replaced by other bytes. *)
Definition tampered_token : pystr :=
  signing_input_of (JWT_ALGORITHM default_settings)
    (issued_claims demo_subject (to_timestamp (T0 + 30 * us_per_min)) (to_timestamp T0))
  ++ 46 :: b64url_encode [0; 1; 2; 3].

Lemma verify_token_bad_signature_witness :
  verify_token default_settings tampered_token (at_time T0) = (Ret None, at_time T0).
Proof.
  refine (verify_token_bad_signature default_settings tampered_token
            (header_dict (JWT_ALGORITHM default_settings))
            (json_dump_bytes (JObject (issued_claims demo_subject
                (to_timestamp (T0 + 30 * us_per_min)) (to_timestamp T0))))
            (signing_input_of (JWT_ALGORITHM default_settings)
               (issued_claims demo_subject (to_timestamp (T0 + 30 * us_per_min)) (to_timestamp T0)))
            [0; 1; 2; 3] (at_time T0) SHA256 default_JWT_SECRET default_secret_usable _ _).
  - vm_compute. reflexivity.
  - vm_compute. congruence.
Defined.

Lemma verify_token_window_witness :
  fst (verify_token default_settings demo_token (at_time (T0 + 30 * us_per_min))) =
    Ret (Some (JStr demo_subject)) <->
  clock_now (at_time (T0 + 30 * us_per_min)) < (to_timestamp (T0 + 30 * us_per_min) + 1) * us_per_s.
Proof.
  refine (verify_token_window default_settings demo_subject None (at_time T0) (at_time T0)
            (at_time (T0 + 30 * us_per_min)) demo_token (T0 + 30 * us_per_min) SHA256
            default_JWT_SECRET default_secret_usable demo_token_issued _).
  vm_compute. reflexivity.
Defined.

(** A configuration with [JWT_EXPIRES_MINUTES=-5]. *)
Definition negative_ttl_settings : Settings :=
  {| DATABASE_URL := default_DATABASE_URL; JWT_SECRET := default_JWT_SECRET;
     JWT_ALGORITHM := default_JWT_ALGORITHM; JWT_EXPIRES_MINUTES := -5;
     HOST := default_HOST; PORT := 8000 |}.

Definition negative_ttl_token : pystr :=
  match create_access_token negative_ttl_settings demo_subject None (at_time T0) with
  | (Ret t, _) => t
  | _ => []
  end.

Lemma verify_token_negative_ttl_witness :
  verify_token negative_ttl_settings negative_ttl_token (at_time T0) = (Ret None, at_time T0).
Proof.
  refine (verify_token_negative_ttl negative_ttl_settings demo_subject (at_time T0) (at_time T0)
            (at_time T0) negative_ttl_token SHA256 default_JWT_SECRET _ _ _ _).
  - split; reflexivity.
  - vm_compute. reflexivity.
  - simpl. lia.
  - vm_compute. reflexivity.
Defined.

Lemma verify_token_exp_null_witness :
  let payload := [(py "sub", JStr demo_subject); (py "exp", JNull)] in
  verify_token default_settings
    (compact (JWT_ALGORITHM default_settings) payload
       (hmac_digest SHA256 default_JWT_SECRET
          (signing_input_of (JWT_ALGORITHM default_settings) payload))) (at_time T0) =
  (Exc TypeError, at_time T0).
Proof.
  exact (verify_token_exp_null default_settings demo_subject (at_time T0) SHA256
           default_JWT_SECRET default_secret_usable).
Defined.

(** A token signed with the default secret whose [exp] is [Infinity],
    which [json.loads] accepts. *)
Definition infinite_exp_payload : dict :=
  [(py "sub", JStr demo_subject); (py "exp", JFloat (SpecFloat.S754_infinity false))].

Definition infinite_exp_token : pystr :=
  compact (JWT_ALGORITHM default_settings) infinite_exp_payload
    (hmac_digest SHA256 default_JWT_SECRET
       (signing_input_of (JWT_ALGORITHM default_settings) infinite_exp_payload)).

Lemma verify_token_escapes_witness :
  verify_token default_settings infinite_exp_token (at_time T0) = (Exc OverflowError, at_time T0) /\
  (OverflowError = UnicodeEncodeError \/ OverflowError = TypeError \/ OverflowError = OverflowError \/
   OverflowError = RecursionError).
Proof.
  assert (Hv : verify_token default_settings infinite_exp_token (at_time T0) =
               (Exc OverflowError, at_time T0)) by (vm_compute; reflexivity).
  split; [exact Hv|].
  exact (verify_token_escapes default_settings infinite_exp_token (at_time T0) (at_time T0)
           OverflowError SHA256 default_JWT_SECRET default_secret_usable Hv).
Defined.

(** A header nested 1001 levels deep, one past [Symbolic.recursion_limit]. *)
Fixpoint nested_array (n : nat) : json :=
  match n with O => JNull | S k => JArray [nested_array k] end.

Definition deep_header_segment : bytes := b64url_encode (json_dump_bytes (nested_array 1001)).

Lemma verify_token_deep_header_witness :
  verify_token default_settings (deep_header_segment ++ 46 :: py "e30" ++ 46 :: py "c2ln")
               (at_time T0) = (Exc RecursionError, at_time T0).
Proof.
  apply (verify_token_deep_header default_settings deep_header_segment (py "e30") (py "c2ln")
           (json_dump_bytes (nested_array 1001))).
  - apply (bool_decide_eq_true_1
             (Forall (fun x => 0 <= x < 128) (deep_header_segment ++ py "e30" ++ py "c2ln"))).
    vm_compute. reflexivity.
  - apply (bool_decide_eq_true_1 (46 ∉ deep_header_segment)). vm_compute. reflexivity.
  - apply (bool_decide_eq_true_1 (46 ∉ py "c2ln")). vm_compute. reflexivity.
  - vm_compute. reflexivity.
  - vm_compute. reflexivity.
Defined.

(** A configuration with [JWT_SECRET=true]. *)
Definition literal_secret_settings : Settings :=
  {| DATABASE_URL := default_DATABASE_URL; JWT_SECRET := py "true";
     JWT_ALGORITHM := default_JWT_ALGORITHM; JWT_EXPIRES_MINUTES := 30;
     HOST := default_HOST; PORT := 8000 |}.

Lemma verify_token_literal_secret_witness :
  verify_token literal_secret_settings
    (issued_token literal_secret_settings demo_subject (T0 + 30 * us_per_min) T0 SHA256 (py "true"))
    (at_time T0) = (Exc JWKError, at_time T0).
Proof.
  refine (verify_token_literal_secret literal_secret_settings demo_subject
            (T0 + 30 * us_per_min) T0 (at_time T0) SHA256 (py "true") true _ _);
    vm_compute; reflexivity.
Defined.

(** A configuration whose secret was rotated. *)
Definition rotated_settings : Settings :=
  {| DATABASE_URL := default_DATABASE_URL; JWT_SECRET := py "rotated-secret";
     JWT_ALGORITHM := default_JWT_ALGORITHM; JWT_EXPIRES_MINUTES := 30;
     HOST := default_HOST; PORT := 8000 |}.

Lemma verify_token_other_secret_witness :
  verify_token rotated_settings
    (issued_token default_settings demo_subject (T0 + 30 * us_per_min) T0 SHA256 default_JWT_SECRET)
    (at_time T0) = (Ret None, at_time T0).
Proof.
  refine (verify_token_other_secret default_settings rotated_settings demo_subject
            (T0 + 30 * us_per_min) T0 SHA256 SHA256 default_JWT_SECRET (py "rotated-secret")
            (at_time T0) default_secret_usable _ _ _).
  - split; reflexivity.
  - reflexivity.
  - vm_compute. congruence.
Defined.


Lemma create_access_token_zero_delta_witness :
  fst (verify_token default_settings demo_token (at_time (T0 + 30 * us_per_min))) =
    Ret (Some (JStr demo_subject)) <->
  clock_now (at_time (T0 + 30 * us_per_min)) < (to_timestamp (T0 + 30 * us_per_min) + 1) * us_per_s.
Proof.
  refine (create_access_token_zero_delta default_settings demo_subject (at_time T0) (at_time T0)
            (at_time (T0 + 30 * us_per_min)) demo_token (T0 + 30 * us_per_min) SHA256
            default_JWT_SECRET default_secret_usable _ _).
  - vm_compute. reflexivity.
  - vm_compute. reflexivity.
Defined.

End Jwt.
