(* ===== verification/Malleability.v ===== *)
(** * Malleability: issued tokens under python-jose's base64url

    [Jwt] proves its theorems for any codec with [JoseCodecLaws].  Here the
    codec is python-jose's own base64url ([Base64]), with the JSON of
    [Symbolic], and the MAC is any [Hmac] whose digests have [hashlib]'s
    sizes: 32 octets for HS256, 48 for HS384, 64 for HS512.

    A digest of 32 or 64 octets is not a multiple of 3, so the last
    character of the crypto segment carries bits the decoder drops.  The
    token [flip_last tok], with that character moved to the next one of the
    alphabet, is a different string that [verify_token] treats exactly as
    [tok] ([verify_token_flip_last]): a token is not the only string that
    verifies as it.  Every issued token is three segments of the URL-safe
    alphabet joined by two dots ([create_access_token_compact]). *)

From S2P Require Import Prelude Builtins Config Datetime Json Jose Base64 Symbolic Jwt.

Module Malleability.
Import Config Datetime Jose Jwt Base64.

(** python-jose's [base64url_encode] and [base64url_decode], with the JSON
    serialisation of [Symbolic]. *)
#[export] Instance b64_codec : JoseCodec := {|
  Jose.b64url_encode := Base64.b64url_encode;
  Jose.b64url_decode := Base64.b64url_decode;
  json_dump_bytes := Symbolic.enc_json;
  json_load_bytes := Symbolic.sym_load_bytes;
  json_load_key := Symbolic.sym_load_key
|}.

#[export] Instance b64_codec_laws : JoseCodecLaws.
Proof.
  split; intros; simpl.
  - by apply Base64.b64url_decode_encode.
  - by apply Base64.b64url_encode_ascii.
  - apply Symbolic.sym_load_bytes_enc. unfold json_safe_depth, Symbolic.recursion_limit in *. lia.
  - by eapply Symbolic.sym_load_bytes_exc.
  - apply Symbolic.enc_json_octets.
Qed.

(** [hashlib]'s [digest_size] of SHA-256, SHA-384 and SHA-512. *)
Definition digest_size (h : sha) : nat :=
  match h with SHA256 => 32 | SHA384 => 48 | SHA512 => 64 end.

(** The JWS compact serialisation: three segments over the URL-safe
    base64 alphabet, separated by two dots. *)
Definition jws_compact_form (tok : pystr) : Prop :=
  exists hd pl sg : bytes, tok = hd ++ [46] ++ pl ++ [46] ++ sg /\
                      Forall (fun c => url_safe c = true) (hd ++ pl ++ sg).

(** ** Lemmas *)

Lemma flip_last_sep (p e : bytes) :
  e <> [] -> flip_last (p ++ 46 :: e) = p ++ 46 :: flip_last e.
Proof.
  intros He. change (p ++ 46 :: e) with (p ++ [46] ++ e). rewrite app_assoc.
  rewrite flip_last_app by done. by rewrite <- app_assoc.
Qed.

Lemma digest_size_mod3 (h : sha) : h <> SHA384 -> (digest_size h mod 3 <> 0)%nat.
Proof. destruct h; simpl; done. Qed.

Section Flip.
Context `{Hmac} `{!HmacLaws} {S : Type} `{Clock S}.
Variable settings : Settings.

(** The crypto segment of [compact] with its last character flipped. *)
Lemma flip_last_compact (alg : pystr) (payload : dict) (sig : bytes) :
  octets sig -> (length sig mod 3 <> 0)%nat ->
  flip_last (compact alg payload sig) =
  signing_input_of alg payload ++ 46 :: b64_encode_d 1 sig.
Proof.
  intros Hsig Hm. unfold compact. rewrite flip_last_sep.
  - simpl. unfold Base64.b64url_encode. rewrite b64_encode_d0 by done.
    by rewrite flip_last_encode.
  - simpl. unfold Base64.b64url_encode. rewrite b64_encode_d0 by done.
    apply b64_encode_d_nil. intros ->. done.
Qed.

Lemma jws_load_flip_last (alg : pystr) (payload : dict) (sig : bytes) :
  octets sig -> (length sig mod 3 <> 0)%nat ->
  jws_load (flip_last (compact alg payload sig)) = jws_load (compact alg payload sig).
Proof.
  intros Hsig Hm. rewrite flip_last_compact, jws_load_compact by done.
  apply jws_load_segments.
  - apply b64_encode_d_ascii; [lia | done].
  - simpl. unfold Base64.b64url_decode. by rewrite a2b_encode_d by (lia || done).
Qed.

Lemma flip_last_compact_ne (alg : pystr) (payload : dict) (sig : bytes) :
  octets sig -> (length sig mod 3 <> 0)%nat ->
  flip_last (compact alg payload sig) <> compact alg payload sig.
Proof.
  intros Hsig Hm. rewrite flip_last_compact by done. unfold compact.
  intros Heq. apply app_inv_head in Heq. injection Heq as Heq.
  simpl in Heq. unfold Base64.b64url_encode in Heq. rewrite b64_encode_d0 in Heq by done.
  by apply (encode_d_flip_ne sig).
Qed.

(** C13: with python-jose's base64url and a MAC of [hashlib]'s digest
    size, every token [create_access_token] issues under HS256 or HS512 has
    a twin: the token with the last character of its signature segment
    changed is a different string, and [verify_token] returns the same
    result for it as for the original, at any instant. *)
Theorem verify_token_flip_last (subject : pystr) (d : option Z) (s s1 : S) (tok : pystr)
        (h : sha) (kb : bytes) :
  secret_usable settings h kb ->
  (forall k m, length (hmac_digest h k m) = digest_size h) -> h <> SHA384 ->
  create_access_token settings subject d s = (Ret tok, s1) ->
  flip_last tok <> tok /\
  forall s', verify_token settings (flip_last tok) s' = verify_token settings tok s'.
Proof.
  intros Hu Hlen Hh Hc. rewrite (create_access_token_issued _ _ _ _ _ _ Hu) in Hc.
  destruct (expire_at _ _ _) as [exp|e]; [|done]. injection Hc as <- _.
  unfold issued_token.
  assert (Hm : forall m, (length (hmac_digest h kb m) mod 3 <> 0)%nat)
    by (intros m; rewrite Hlen; by apply digest_size_mod3).
  split.
  - apply flip_last_compact_ne; [apply hmac_octets | apply Hm].
  - intros s'. apply verify_token_load_eq, jws_load_flip_last; [apply hmac_octets | apply Hm].
Qed.

(** C23: type: every token [create_access_token] issues is in JWS
    compact form, three segments over the URL-safe base64 alphabet
    separated by two dots, so it can be carried as it is in an
    [Authorization: Bearer] header or a URL. *)
Theorem create_access_token_compact (subject : pystr) (d : option Z) (s s1 : S) (tok : pystr)
        (h : sha) (kb : bytes) :
  secret_usable settings h kb ->
  create_access_token settings subject d s = (Ret tok, s1) ->
  jws_compact_form tok.
Proof.
  intros Hu Hc. rewrite (create_access_token_issued _ _ _ _ _ _ Hu) in Hc.
  destruct (expire_at _ _ _) as [exp|e]; [|done]. injection Hc as <- _.
  unfold jws_compact_form, issued_token, compact, signing_input_of. do 3 eexists. split.
  - by rewrite <- app_assoc.
  - repeat (apply Forall_app; split); apply b64url_encode_url_safe;
      [apply Symbolic.enc_json_octets | apply Symbolic.enc_json_octets | apply hmac_octets].
Qed.

End Flip.

(** ** A concrete run

    A MAC of [hashlib]'s digest size: the symbolic MAC of [Symbolic], padded
    with zeros and cut to [digest_size]. *)

Definition sized_digest (h : sha) (k m : bytes) : bytes :=
  take (digest_size h)
       (Symbolic.enc_Z (Symbolic.sha_index h) ++ Symbolic.enc_str k ++ Symbolic.enc_str m ++
        replicate (digest_size h) 0).

#[export] Instance sized_hmac : Hmac := {| hmac_digest := sized_digest |}.

Lemma sized_digest_length (h : sha) (k m : bytes) : length (sized_digest h k m) = digest_size h.
Proof. unfold sized_digest. rewrite length_take, !length_app, length_replicate. lia. Qed.

#[export] Instance sized_hmac_laws : HmacLaws.
Proof.
  split. intros h k m. change (octets (sized_digest h k m)).
  unfold sized_digest, octets. apply Forall_take.
  apply Forall_app; split; [apply Symbolic.enc_Z_octets|].
  apply Forall_app; split; [apply Symbolic.enc_str_octets|].
  apply Forall_app; split; [apply Symbolic.enc_str_octets|].
  apply Forall_replicate. lia.
Qed.

Definition flip_token : pystr :=
  match create_access_token default_settings demo_subject None (at_time T0) with
  | (Ret t, _) => t
  | _ => []
  end.

Lemma flip_token_issued :
  create_access_token default_settings demo_subject None (at_time T0) =
  (Ret flip_token, at_time T0).
Proof. vm_compute. reflexivity. Qed.

Lemma verify_token_flip_last_witness :
  flip_last flip_token <> flip_token /\
  forall s', verify_token default_settings (flip_last flip_token) s' =
             verify_token default_settings flip_token s'.
Proof.
  apply (verify_token_flip_last default_settings demo_subject None (at_time T0) (at_time T0)
           flip_token SHA256 default_JWT_SECRET).
  - split; reflexivity.
  - apply sized_digest_length.
  - discriminate.
  - exact flip_token_issued.
Defined.

Lemma create_access_token_compact_witness : jws_compact_form flip_token.
Proof.
  apply (create_access_token_compact default_settings demo_subject None (at_time T0) (at_time T0)
           flip_token SHA256 default_JWT_SECRET).
  - split; reflexivity.
  - exact flip_token_issued.
Defined.

End Malleability.
