(* ===== verification/Schemas.v ===== *)
(** * Schemas: [src/backend/app/schemas/auth.py]

    The request bodies of [/register] and [/login] are pydantic models.
    Pydantic validates every field in declaration order, collecting one
    error per failing field (a missing field, a value that is not a string,
    or the field validator's [ValueError]); the [mode="after"] model
    validator runs only when every field is valid.  Any error makes FastAPI
    answer 422 before the route runs.

    - [EmailStr] is validated by the email-validator library, which the
      code only calls: an interface, [EmailValidator], returning the
      normalised address or [None];
    - [validate_password] and [validate_password_not_empty] are the two
      field validators, [validate_passwords_match] the model validator;
    - [str_field] and [opt_str_field] read a [str] and an [Optional[str]]
      field of the parsed JSON body;
    - [UserCreate_of_json] and [UserLogin_of_json] build the models from
      the body or return the list of errors.

    The theorems state exactly which bodies each model accepts, that the
    model validator only runs on otherwise valid bodies, and that the
    length rule counts whitespace. *)

From S2P Require Import Prelude Builtins Json.

Module Schemas.

Class EmailValidator := {
  (** [validate_email(value)[1]]: the normalised address, [None] when the
      address is refused *)
  validate_email : pystr -> option pystr
}.

(** The [ValueError]s the validators raise, and pydantic's own email error. *)
Inductive field_error :=
| InvalidEmail
| PasswordEmptyOrWhitespace   (** "Password cannot be empty or whitespace only" *)
| PasswordTooShort            (** "Password must be at least 8 characters long" *)
| PasswordsDoNotMatch         (** "Passwords do not match" *)
| PasswordEmpty               (** "Password cannot be empty" *)
| Missing                     (** pydantic [missing]: a required field is absent *)
| StringType                  (** pydantic [string_type]: the value is not a [str] *)
| ModelType.                  (** pydantic [model_type]: the body is not an object *)

Record UserCreate := {
  uc_email : pystr;
  uc_password : pystr;
  uc_confirm_password : option pystr
}.

Record UserLogin := {
  ul_email : pystr;
  ul_password : pystr
}.

Record TokenResponse := {
  access_token : pystr;
  token_type : pystr
}.

(** [TokenResponse(access_token=...)]: [token_type] defaults to "bearer". *)
Definition mk_TokenResponse (tok : pystr) : TokenResponse :=
  {| access_token := tok; token_type := py "bearer" |}.

(** [MessageResponse]: declared, used by no route. *)
Record MessageResponse := {
  message : pystr;
  success : bool
}.

(** [MessageResponse(message=...)]: [success] defaults to [True]. *)
Definition mk_MessageResponse (msg : pystr) : MessageResponse :=
  {| message := msg; success := true |}.

(** [not v or not v.strip()]. *)
Definition blank (v : pystr) : bool := bool_decide (v = []) || bool_decide (py_strip v = []).

(** [UserCreate.validate_password]. *)
Definition validate_password (v : pystr) : field_error + pystr :=
  if blank v then inl PasswordEmptyOrWhitespace
  else if Nat.ltb (length v) 8 then inl PasswordTooShort
  else inr v.

(** [UserLogin.validate_password_not_empty]. *)
Definition validate_password_not_empty (v : pystr) : field_error + pystr :=
  if blank v then inl PasswordEmpty else inr v.

(** [UserCreate.validate_passwords_match]. *)
Definition validate_passwords_match (u : UserCreate) : field_error + UserCreate :=
  match uc_confirm_password u with
  | Some c => if bool_decide (uc_password u <> c) then inl PasswordsDoNotMatch else inr u
  | None => inr u
  end.

Section Validation.
Context `{EmailValidator}.

Definition email_field (v : pystr) : field_error + pystr :=
  match validate_email v with Some e => inr e | None => inl InvalidEmail end.

(** ** Request bodies

    FastAPI hands the parsed JSON body to pydantic.  Every field is checked
    in declaration order and each failing field contributes one error; the
    [mode="after"] validator runs only when no field failed.  Unknown keys
    are ignored. *)

(** A required [str] field. *)
Definition str_field (d : dict) (name : pystr) : field_error + pystr :=
  match dict_get name d with
  | None => inl Missing
  | Some (JStr s) => inr s
  | Some _ => inl StringType
  end.

(** [Optional[str] = None]: absent or [null] is [None]. *)
Definition opt_str_field (d : dict) (name : pystr) : field_error + option pystr :=
  match dict_get name d with
  | None | Some JNull => inr None
  | Some (JStr s) => inr (Some s)
  | Some _ => inl StringType
  end.

Definition and_then {A B} (a : field_error + A) (f : A -> field_error + B) : field_error + B :=
  match a with inl e => inl e | inr x => f x end.

Definition errors_of {A} (a : field_error + A) : list field_error :=
  match a with inl e => [e] | inr _ => [] end.

(** [UserCreate.model_validate(body)]. *)
Definition UserCreate_of_json (body : json) : list field_error + UserCreate :=
  match body with
  | JObject d =>
      let e := and_then (str_field d (py "email")) email_field in
      let p := and_then (str_field d (py "password")) validate_password in
      let c := opt_str_field d (py "confirm_password") in
      match e, p, c with
      | inr e, inr p, inr c =>
          match validate_passwords_match
                  {| uc_email := e; uc_password := p; uc_confirm_password := c |} with
          | inl err => inl [err]
          | inr u => inr u
          end
      | _, _, _ => inl (errors_of e ++ errors_of p ++ errors_of c)
      end
  | _ => inl [ModelType]
  end.

(** [UserLogin.model_validate(body)]. *)
Definition UserLogin_of_json (body : json) : list field_error + UserLogin :=
  match body with
  | JObject d =>
      let e := and_then (str_field d (py "email")) email_field in
      let p := and_then (str_field d (py "password")) validate_password_not_empty in
      match e, p with
      | inr e, inr p => inr {| ul_email := e; ul_password := p |}
      | _, _ => inl (errors_of e ++ errors_of p)
      end
  | _ => inl [ModelType]
  end.

End Validation.


(** ** Lemmas *)

Abbreviation all_space v := (Forall (fun c => py_isspace c = true) v).

Lemma blank_spec (v : pystr) : blank v = true <-> all_space v.
Proof.
  unfold blank. rewrite orb_true_iff, !bool_decide_eq_true, py_strip_nil_iff.
  split; [intros [->|?]; [constructor|done]|by right].
Qed.

Lemma blank_false (v : pystr) : blank v = false <-> ~ all_space v.
Proof. rewrite <- blank_spec. destruct (blank v); intuition congruence. Qed.

Lemma validate_password_ok (v p : pystr) :
  validate_password v = inr p <-> ~ all_space v /\ (8 <= length v)%nat /\ p = v.
Proof.
  unfold validate_password. destruct (blank v) eqn:Hb.
  - apply blank_spec in Hb. naive_solver.
  - apply blank_false in Hb. destruct (Nat.ltb_spec (length v) 8); naive_solver lia.
Qed.

Lemma validate_password_errors (v : pystr) (err : field_error) :
  validate_password v = inl err -> err = PasswordEmptyOrWhitespace \/ err = PasswordTooShort.
Proof. unfold validate_password. repeat case_match; naive_solver. Qed.

(** ** Properties *)

Section Properties.
Context `{EmailValidator}.

Lemma and_then_inr {A B} (a : field_error + A) (f : A -> field_error + B) (y : B) :
  and_then a f = inr y <-> exists x, a = inr x /\ f x = inr y.
Proof. destruct a; naive_solver. Qed.

Lemma email_ok (d : dict) (e : pystr) :
  and_then (str_field d (py "email")) email_field = inr e <->
  exists raw, str_field d (py "email") = inr raw /\ validate_email raw = Some e.
Proof.
  rewrite and_then_inr. unfold email_field.
  split; intros (raw & Hr & Hv); exists raw; split; try done; by case_match; simplify_eq.
Qed.

Lemma password_ok (d : dict) (p : pystr) :
  and_then (str_field d (py "password")) validate_password = inr p <->
  str_field d (py "password") = inr p /\ ~ all_space p /\ (8 <= length p)%nat.
Proof.
  rewrite and_then_inr. setoid_rewrite validate_password_ok. naive_solver.
Qed.

Lemma login_password_ok (d : dict) (p : pystr) :
  and_then (str_field d (py "password")) validate_password_not_empty = inr p <->
  str_field d (py "password") = inr p /\ ~ all_space p.
Proof.
  rewrite and_then_inr. unfold validate_password_not_empty.
  split; [intros (x & Hx & Hb)|intros (Hx & Hb)].
  - destruct (blank x) eqn:Hbl; simplify_eq. apply blank_false in Hbl. by simplify_eq.
  - exists p. split; [done|]. apply blank_false in Hb. by rewrite Hb.
Qed.

Lemma email_err (d : dict) (err : field_error) :
  and_then (str_field d (py "email")) email_field = inl err -> err <> PasswordsDoNotMatch.
Proof. unfold and_then, str_field, email_field. repeat case_match; naive_solver. Qed.

Lemma password_err (d : dict) (err : field_error) :
  and_then (str_field d (py "password")) validate_password = inl err -> err <> PasswordsDoNotMatch.
Proof.
  unfold and_then, str_field. repeat case_match; try naive_solver.
  intros Hv. apply validate_password_errors in Hv. naive_solver.
Qed.

Lemma confirm_err (d : dict) (err : field_error) :
  opt_str_field d (py "confirm_password") = inl err -> err <> PasswordsDoNotMatch.
Proof. unfold opt_str_field. repeat case_match; naive_solver. Qed.

(** C31: [UserCreate] accepts exactly the JSON objects whose [email] is a
    string the validator accepts (the model keeps the normalised address),
    whose [password] is a string that is not all whitespace and has at
    least 8 code points, and whose [confirm_password] is absent, [null] or
    equal to the password. *)
Theorem UserCreate_of_json_ok (body : json) (u : UserCreate) :
  UserCreate_of_json body = inr u <->
  exists d raw e p c,
    body = JObject d /\
    str_field d (py "email") = inr raw /\ validate_email raw = Some e /\
    str_field d (py "password") = inr p /\ ~ all_space p /\ (8 <= length p)%nat /\
    opt_str_field d (py "confirm_password") = inr c /\ (c = None \/ c = Some p) /\
    u = {| uc_email := e; uc_password := p; uc_confirm_password := c |}.
Proof.
  destruct body as [| | | | | | d]; try (split; [done|naive_solver]).
  unfold UserCreate_of_json.
  destruct (and_then _ email_field) as [e1|e] eqn:He;
    destruct (and_then _ validate_password) as [e2|p] eqn:Hp;
    destruct (opt_str_field _ _) as [e3|c] eqn:Hc;
    try (split; [done|]; intros (d' & raw & e' & p' & c' & [= <-] & Hr & Hv & Hp' & Hns & Hl & Hc' & _);
         first [ assert (and_then (str_field d (py "email")) email_field = inr e')
                   by (apply email_ok; eauto); congruence
               | assert (and_then (str_field d (py "password")) validate_password = inr p')
                   by (by apply password_ok); congruence
               | congruence ]).
  apply email_ok in He as (raw & Hr & Hv). apply password_ok in Hp as (Hp' & Hns & Hl).
  unfold validate_passwords_match. simpl.
  destruct c as [c|]; [case_bool_decide|]; (split; [intros; simplify_eq; naive_solver|]);
    intros (d' & raw' & e' & p' & c' & [= <-] & Hr' & Hv' & Hp'' & _ & _ & Hc' & Hcc & ->);
    rewrite Hr in Hr'; rewrite Hp' in Hp''; rewrite Hc in Hc'; simplify_eq;
    try rewrite Hv in Hv'; simplify_eq; naive_solver.
Qed.

(** C34: the length rule counts whitespace: one visible character followed
    by seven spaces is a valid registration password.  The spec's "at least
    8 characters" is met by padding. *)
Theorem validate_password_padding (c : Z) (pad : pystr) :
  py_isspace c = false -> all_space pad -> (7 <= length pad)%nat ->
  validate_password (c :: pad) = inr (c :: pad).
Proof.
  intros Hc _ Hlen. apply validate_password_ok. simpl. split_and!; [|lia|done].
  inversion 1. congruence.
Qed.

(** C32: [UserLogin] has no length rule: any JSON object whose [email] is
    accepted and whose [password] is a string that is not empty or all
    whitespace passes, a one-character password included. *)
Theorem UserLogin_of_json_ok (body : json) (l : UserLogin) :
  UserLogin_of_json body = inr l <->
  exists d raw e p,
    body = JObject d /\
    str_field d (py "email") = inr raw /\ validate_email raw = Some e /\
    str_field d (py "password") = inr p /\ ~ all_space p /\
    l = {| ul_email := e; ul_password := p |}.
Proof.
  destruct body as [| | | | | | d]; try (split; [done|naive_solver]).
  unfold UserLogin_of_json.
  destruct (and_then _ email_field) as [e1|e] eqn:He;
    destruct (and_then _ validate_password_not_empty) as [e2|p] eqn:Hp;
    try (split; [done|]; intros (d' & raw & e' & p' & [= <-] & Hr & Hv & Hp' & Hns & _);
         first [ assert (and_then (str_field d (py "email")) email_field = inr e')
                   by (apply email_ok; eauto); congruence
               | assert (and_then (str_field d (py "password")) validate_password_not_empty = inr p')
                   by (by apply login_password_ok); congruence ]).
  apply email_ok in He as (raw & Hr & Hv). apply login_password_ok in Hp as (Hp' & Hns).
  split; [intros [= <-]; naive_solver|].
  intros (d' & raw' & e' & p' & [= <-] & Hr' & Hv' & Hp'' & _ & ->).
  rewrite Hr in Hr'; rewrite Hp' in Hp''; simplify_eq. try rewrite Hv in Hv'. by simplify_eq.
Qed.

(** C33: the model validator runs only after every field passes: a body
    with a bad field and mismatched passwords reports the field alone, and
    [PasswordsDoNotMatch] is reported alone, for a body whose fields are
    all valid and whose confirmation differs from the password. *)
Theorem UserCreate_of_json_mismatch (body : json) (errs : list field_error) :
  UserCreate_of_json body = inl errs ->
  PasswordsDoNotMatch ∈ errs ->
  errs = [PasswordsDoNotMatch] /\
  exists d e p c, body = JObject d /\
    and_then (str_field d (py "email")) email_field = inr e /\
    and_then (str_field d (py "password")) validate_password = inr p /\
    opt_str_field d (py "confirm_password") = inr (Some c) /\ c <> p.
Proof.
  destruct body as [| | | | | | d]; try (intros [= <-]; by rewrite list_elem_of_singleton).
  unfold UserCreate_of_json.
  destruct (and_then _ email_field) as [e1|e] eqn:He;
    destruct (and_then _ validate_password) as [e2|p] eqn:Hp;
    destruct (opt_str_field _ _) as [e3|c] eqn:Hc;
    try (intros [= <-] Hin%list_elem_of_In; simpl in Hin;
         try pose proof (email_err _ _ He); try pose proof (password_err _ _ Hp);
         try pose proof (confirm_err _ _ Hc); naive_solver).
  unfold validate_passwords_match. simpl.
  destruct c as [c|]; [case_bool_decide|]; intros; simplify_eq.
  split; [done|]. exists d, e, p, c. split_and!; try done; congruence.
Qed.

End Properties.



(** ** Witnesses

    A stand-in validator that accepts an address when it has an [@] and
    at most 254 characters, email-validator's limit on a whole address. *)

#[export] Instance at_sign_validator : EmailValidator :=
  {| validate_email := fun v =>
       if bool_decide (64 ∈ v) && (length v <=? 254)%nat then Some v else None |}.

Definition demo_email : pystr := py "alice@example.com".

Definition register_body : json :=
  JObject [(py "email", JStr demo_email); (py "password", JStr (py "correct horse"));
           (py "confirm_password", JStr (py "correct horse"))].

Definition login_body : json :=
  JObject [(py "email", JStr demo_email); (py "password", JStr (py "x"))].

Definition mismatch_body : json :=
  JObject [(py "email", JStr demo_email); (py "password", JStr (py "correct horse"));
           (py "confirm_password", JStr (py "correct horses"))].

Lemma UserCreate_of_json_ok_witness :
  UserCreate_of_json register_body =
  inr {| uc_email := demo_email; uc_password := py "correct horse";
         uc_confirm_password := Some (py "correct horse") |}.
Proof.
  apply UserCreate_of_json_ok.
  do 5 eexists. split_and!; [reflexivity|reflexivity|reflexivity|reflexivity
                            |apply blank_false; reflexivity|apply Nat.leb_le; reflexivity
                            |reflexivity|right; reflexivity|reflexivity].
Defined.

Lemma validate_password_padding_witness :
  validate_password (py "a       ") = inr (py "a       ").
Proof.
  apply (validate_password_padding 97 (py "       ")); [reflexivity|repeat constructor|simpl; lia].
Defined.

Lemma UserLogin_of_json_ok_witness :
  UserLogin_of_json login_body = inr {| ul_email := demo_email; ul_password := py "x" |}.
Proof.
  apply UserLogin_of_json_ok.
  do 4 eexists. split_and!; [reflexivity|reflexivity|reflexivity|reflexivity
                            |apply blank_false; reflexivity|reflexivity].
Defined.

Lemma UserCreate_of_json_mismatch_witness :
  [PasswordsDoNotMatch] = [PasswordsDoNotMatch] /\
  exists d e p c, mismatch_body = JObject d /\
    and_then (str_field d (py "email")) email_field = inr e /\
    and_then (str_field d (py "password")) validate_password = inr p /\
    opt_str_field d (py "confirm_password") = inr (Some c) /\ c <> p.
Proof.
  apply (UserCreate_of_json_mismatch mismatch_body).
  - reflexivity.
  - by apply list_elem_of_singleton.
Defined.

End Schemas.
