(* ===== verification/Routes.v ===== *)
(** * Routes: [src/backend/app/routes/auth.py] over
    [src/backend/app/models/user.py]

    The [users] table ([User]: [id] from a sequence, [email] unique and at
    most 255 characters, [hashed_password] at most 255, [created_at] set by
    the server to [now()]) is a [gmap] from email to row: the unique index
    on [email] is the map's key, and [SELECT ... WHERE email = ?] is a
    lookup.  The [world] holds the table, the next value of [users_id_seq],
    the wall clock and the random source from which [hash_password] draws
    its salt.

    - [register]: [SELECT] by email, 400 if taken; hash the password;
      [INSERT] and [COMMIT] ([insert_user]: a unique violation raises
      [IntegrityError], an overlong value [DataError]; the sequence value is
      consumed either way); then [create_access_token] for the new email.
    - [login]: [SELECT] by email; 401 "Invalid credentials" with
      [WWW-Authenticate: Bearer] when there is no such user or the
      password does not verify; else [create_access_token].

    The session of [get_db] commits only in [register]; every other change
    is discarded at [db.close()], so the world changes only by the
    committed insert, the sequence, and the salt drawn. *)

From S2P Require Import Prelude Builtins Config Datetime Json Jose Hasher Symbolic Jwt Schemas.

Module Routes.
Import Config Datetime Jose Hasher Jwt Schemas.

(** [app.models.user.User]. *)
Record User := {
  id : Z;
  email : pystr;
  hashed_password : pystr;
  created_at : Z
}.

Record world := {
  users : gmap pystr User;
  next_id : Z;
  now_us : Z;
  salt_seed : Z
}.

(** Every reading of the clock during one request sees the same instant;
    time passes between requests ([tick]). *)
#[export] Instance world_Clock : Clock world :=
  {| clock_now := now_us; clock_step := fun w => w |}.

(** [String(255)]. *)
Definition varchar_max : nat := 255.

Section Routes.
Context `{JoseCodec} `{Hmac} `{PasswordHasher}.
Variable settings : Settings.

(** [select(User).where(User.email == e)] then [scalar_one_or_none()]. *)
Definition select_user (e : pystr) : PyM world (option User) :=
  fun w => (Ret (users w !! e), w).

(** The salt [hash_password] draws ([os.urandom] inside the hasher). *)
Definition draw_salt : PyM world Z :=
  fun w => (Ret (salt_seed w),
            {| users := users w; next_id := next_id w; now_us := now_us w;
               salt_seed := salt_seed w + 1 |}).

(** [db.add(new_user); db.commit(); db.refresh(new_user)]. *)
Definition insert_user (e hashed : pystr) : PyM world User :=
  fun w =>
    let row := {| id := next_id w; email := e; hashed_password := hashed;
                  created_at := now_us w |} in
    let w_seq := {| users := users w; next_id := next_id w + 1; now_us := now_us w;
                    salt_seed := salt_seed w |} in
    if Nat.ltb varchar_max (length e) || Nat.ltb varchar_max (length hashed) then
      (Exc DataError, w_seq)
    else match users w !! e with
         | Some _ => (Exc IntegrityError, w_seq)
         | None => (Ret row, {| users := <[e := row]> (users w); next_id := next_id w + 1;
                                now_us := now_us w; salt_seed := salt_seed w |})
         end.

Definition email_taken : exc := HTTPException 400 (py "Email already registered") [].

Definition invalid_credentials : exc :=
  HTTPException 401 (py "Invalid credentials") [(py "WWW-Authenticate", py "Bearer")].

Definition register (user_data : UserCreate) : PyM world TokenResponse :=
  (let* existing_user := select_user (uc_email user_data) in
   match existing_user with
   | Some _ => py_raise email_taken
   | None =>
       let* salt := draw_salt in
       let hashed_pwd := hash_password (uc_password user_data) salt in
       let* new_user := insert_user (uc_email user_data) hashed_pwd in
       let* access_token := create_access_token settings (email new_user) None in
       py_ret (mk_TokenResponse access_token)
   end)%py.

Definition login (credentials : UserLogin) : PyM world TokenResponse :=
  (let* user := select_user (ul_email credentials) in
   match user with
   | None => py_raise invalid_credentials
   | Some u =>
       if verify_password (ul_password credentials) (hashed_password u) then
         let* access_token := create_access_token settings (email u) None in
         py_ret (mk_TokenResponse access_token)
       else py_raise invalid_credentials
   end)%py.

End Routes.


(** ** Lemmas *)

Section Lemmas.
Context `{JoseCodec} `{Hmac} `{PasswordHasher}.
Context `{!JoseCodecLaws} `{!HmacLaws}.
Variable settings : Settings.

(** What [create_access_token] returns for [subject] in world [w]. *)
Definition issue (subject : pystr) (w : world) (h : sha) (kb : bytes) : res pystr :=
  match expire_at settings None (now_us w) with
  | Exc e => Exc e
  | Ret exp => Ret (issued_token settings subject exp (now_us w) h kb)
  end.

Definition respond (r : res pystr) : res TokenResponse :=
  match r with Exc e => Exc e | Ret t => Ret (mk_TokenResponse t) end.

Lemma create_access_token_world (subject : pystr) (w : world) (h : sha) (kb : bytes) :
  secret_usable settings h kb ->
  create_access_token settings subject None w = (issue subject w h kb, w).
Proof.
  intros Hu. rewrite (create_access_token_issued settings subject None w h kb Hu).
  unfold issue. change (clock_now w) with (now_us w). change (clock_step w) with w.
  by destruct (expire_at settings None (now_us w)).
Qed.

Lemma issue_not_http (subject : pystr) (w : world) (h : sha) (kb : bytes) (st : Z)
      (d : pystr) (hs : list (pystr * pystr)) :
  issue subject w h kb <> Exc (HTTPException st d hs).
Proof.
  unfold issue, expire_at, timedelta_minutes, mk_timedelta, dt_add.
  repeat case_match; congruence.
Qed.

(** The row [register] inserts. *)
Definition new_row (u : UserCreate) (w : world) : User :=
  {| id := next_id w; email := uc_email u;
     hashed_password := hash_password (uc_password u) (salt_seed w); created_at := now_us w |}.

Definition after_insert (u : UserCreate) (w : world) : world :=
  {| users := <[uc_email u := new_row u w]> (users w); next_id := next_id w + 1;
     now_us := now_us w; salt_seed := salt_seed w + 1 |}.

(** ** Properties *)

(** C18: [register] for a free email that fits its column commits the new
    row (id from the sequence, digest with a fresh salt) before it asks
    for a token: when token issuance raises, the request fails with the
    user already stored. *)
Theorem register_fresh (u : UserCreate) (w : world) (h : sha) (kb : bytes) :
  secret_usable settings h kb ->
  users w !! uc_email u = None ->
  (length (uc_email u) <= varchar_max)%nat ->
  (length (hash_password (uc_password u) (salt_seed w)) <= varchar_max)%nat ->
  register settings u w = (respond (issue (uc_email u) w h kb), after_insert u w).
Proof.
  intros Hu Hfree Hl1 Hl2. unfold register, py_bind, select_user. rewrite Hfree.
  unfold draw_salt, insert_user. simpl.
  rewrite (proj2 (Nat.ltb_ge _ _) Hl1), (proj2 (Nat.ltb_ge _ _) Hl2), Hfree. simpl.
  fold (new_row u w). fold (after_insert u w).
  rewrite (create_access_token_world (uc_email u) (after_insert u w) h kb Hu).
  change (issue (uc_email u) (after_insert u w) h kb) with (issue (uc_email u) w h kb).
  by destruct (issue (uc_email u) w h kb).
Qed.

(** C19: [register] for an email already in the table answers 400
    "Email already registered" and changes nothing: no salt drawn, no
    sequence value consumed. *)
Theorem register_taken (u : UserCreate) (w : world) (row : User) :
  users w !! uc_email u = Some row ->
  register settings u w = (Exc email_taken, w).
Proof. intros Hrow. unfold register, py_bind, select_user. by rewrite Hrow. Qed.

Lemma login_eq (c : UserLogin) (w : world) (h : sha) (kb : bytes) :
  secret_usable settings h kb ->
  login settings c w =
  (match users w !! ul_email c with
   | None => Exc invalid_credentials
   | Some u => if verify_password (ul_password c) (hashed_password u)
               then respond (issue (email u) w h kb) else Exc invalid_credentials
   end, w).
Proof.
  intros Hu. unfold login, py_bind, select_user.
  destruct (users w !! ul_email c) as [u|]; [|done].
  destruct (verify_password _ _); [|done].
  rewrite (create_access_token_world (email u) w h kb Hu).
  by destruct (issue (email u) w h kb).
Qed.

(** C20: [login] on every branch: no such email, or a password that does
    not verify, gives 401 "Invalid credentials"; otherwise the token for
    the stored email; the world never changes. *)
Theorem login_spec (c : UserLogin) (w : world) (h : sha) (kb : bytes) :
  secret_usable settings h kb ->
  login settings c w =
  (match users w !! ul_email c with
   | None => Exc invalid_credentials
   | Some u => if verify_password (ul_password c) (hashed_password u)
               then respond (issue (email u) w h kb) else Exc invalid_credentials
   end, w).
Proof. apply login_eq; assumption. Qed.

(** C7: the two ways a login fails cannot be told apart: [login] answers
    exactly [invalid_credentials] (same status, detail and headers), with
    the world unchanged, if and only if the email is unknown or the
    password does not verify against its digest. *)
Theorem login_failure_uniform (c : UserLogin) (w : world) (h : sha) (kb : bytes) :
  secret_usable settings h kb ->
  login settings c w = (Exc invalid_credentials, w) <->
  users w !! ul_email c = None \/
  exists u, users w !! ul_email c = Some u /\
            verify_password (ul_password c) (hashed_password u) = false.
Proof.
  intros Hu. rewrite (login_eq c w h kb Hu).
  destruct (users w !! ul_email c) as [u|]; [|naive_solver].
  destruct (verify_password _ _) eqn:Hv; [|naive_solver].
  split; [|intros [?|(u0 & [= <-] & Hf)]; congruence]. intros Heq.
  destruct (issue (email u) w h kb) eqn:Hi; simpl in Heq; [done|].
  simplify_eq. exfalso. by apply (issue_not_http (email u) w h kb 401 _ _ Hi).
Qed.


Lemma create_access_token_keeps_world (subject : pystr) (d : option Z) (w : world) :
  snd (create_access_token settings subject d w) = w.
Proof.
  rewrite create_access_token_run. by destruct (expire_at settings d (clock_now w)).
Qed.

(** The three ways [register] can change the world. *)
Lemma register_effect (u : UserCreate) (w w' : world) (r : res TokenResponse) :
  register settings u w = (r, w') ->
  w' = w \/
  w' = {| users := users w; next_id := next_id w + 1; now_us := now_us w;
          salt_seed := salt_seed w + 1 |} \/
  (users w !! uc_email u = None /\ w' = after_insert u w).
Proof.
  unfold register, py_bind, select_user.
  destruct (users w !! uc_email u) as [row|] eqn:Hfree; [intros [= _ <-]; by left|].
  unfold draw_salt, insert_user. simpl.
  destruct (_ || _); [intros [= _ <-]; by right; left|].
  rewrite Hfree. fold (new_row u w). fold (after_insert u w).
  pose proof (create_access_token_keeps_world (uc_email u) None (after_insert u w)) as Hk.
  destruct (create_access_token _ _ _ _) as [[t|e] w0]; simpl in Hk; subst;
    intros [= _ <-]; by right; right.
Qed.

Lemma login_keeps_world (c : UserLogin) (w w' : world) (r : res TokenResponse) :
  login settings c w = (r, w') -> w' = w.
Proof.
  unfold login, py_bind, select_user.
  destruct (users w !! ul_email c) as [u|]; [|by intros [= _ <-]].
  destruct (verify_password _ _); [|by intros [= _ <-]].
  pose proof (create_access_token_keeps_world (email u) None w) as Hk.
  destruct (create_access_token _ _ _ _) as [[t|e] w0]; simpl in Hk; subst; by intros [= _ <-].
Qed.

(** The exceptions [register] and [login] can raise: their own
    [HTTPException], the database's, and those of [create_access_token]. *)
Lemma register_exc (u : UserCreate) (w w' : world) (e : exc) :
  register settings u w = (Exc e, w') ->
  e = email_taken \/ e = DataError \/ e = IntegrityError \/
  e = OverflowError \/ e = TypeError \/ e = JWSError SigningFailed.
Proof.
  unfold register, py_bind, select_user.
  destruct (users w !! uc_email u) as [row|] eqn:Hfree; [intros [= <- _]; by left|].
  unfold draw_salt, insert_user. simpl.
  destruct (_ || _); [intros [= <- _]; naive_solver|]. rewrite Hfree.
  destruct (create_access_token _ _ _ _) as [[t|e0] w0] eqn:Hc; [done|].
  intros [= <- _]. apply create_access_token_exc in Hc. naive_solver.
Qed.

(** A 400 comes only from the [SELECT]: nothing was changed. *)
Lemma register_taken_inv (u : UserCreate) (w w' : world) :
  register settings u w = (Exc email_taken, w') -> w' = w /\ is_Some (users w !! uc_email u).
Proof.
  unfold register, py_bind, select_user.
  destruct (users w !! uc_email u) as [row|] eqn:Hfree; [intros [= <-]; by eauto|].
  unfold draw_salt, insert_user. simpl.
  destruct (_ || _); [done|]. rewrite Hfree.
  destruct (create_access_token _ _ _ _) as [[t|e0] w0] eqn:Hc; [done|].
  intros [= -> _]. apply create_access_token_exc in Hc. naive_solver.
Qed.

Lemma login_exc (c : UserLogin) (w w' : world) (e : exc) :
  login settings c w = (Exc e, w') ->
  e = invalid_credentials \/ e = OverflowError \/ e = TypeError \/ e = JWSError SigningFailed.
Proof.
  unfold login, py_bind, select_user.
  destruct (users w !! ul_email c) as [u|]; [|intros [= <- _]; by left].
  destruct (verify_password _ _); [|intros [= <- _]; by left].
  destruct (create_access_token _ _ _ _) as [[t|e0] w0] eqn:Hc; [done|].
  intros [= <- _]. apply create_access_token_exc in Hc. naive_solver.
Qed.

(** Well-formed tables: every row is filed under its own email, its id was
    handed out by the sequence, ids are unique, and its digest came from
    [hash_password] with a salt already drawn. *)
Definition db_wf (w : world) : Prop :=
  map_Forall (fun e u => email u = e /\ id u < next_id w /\
                         exists p r, hashed_password u = hash_password p r /\ r < salt_seed w)
             (users w) /\
  (forall e1 e2 u1 u2, users w !! e1 = Some u1 -> users w !! e2 = Some u2 ->
                       id u1 = id u2 -> e1 = e2).

(** One request, or time passing between requests. *)
Inductive step : world -> world -> Prop :=
| step_register u r w w' : register settings u w = (r, w') -> step w w'
| step_login c r w w' : login settings c w = (r, w') -> step w w'
| step_tick w dt : 0 <= dt ->
    step w {| users := users w; next_id := next_id w; now_us := now_us w + dt;
              salt_seed := salt_seed w |}.

(** An empty database just created by [init_db]. *)
Definition initial_world (t : Z) : world :=
  {| users := ∅; next_id := 1; now_us := t; salt_seed := 0 |}.

Inductive reachable : world -> Prop :=
| reachable_init t : reachable (initial_world t)
| reachable_step w w' : reachable w -> step w w' -> reachable w'.

Lemma db_wf_bump (w : world) :
  db_wf w ->
  db_wf {| users := users w; next_id := next_id w + 1; now_us := now_us w;
           salt_seed := salt_seed w + 1 |}.
Proof.
  intros [Hf Hid]. split; [|done]. simpl.
  eapply map_Forall_impl; [exact Hf|]. intros e u (? & ? & p & r & ? & ?).
  repeat split; [done|lia|]. exists p, r. split; [done|lia].
Qed.

Lemma db_wf_insert (u : UserCreate) (w : world) :
  db_wf w -> users w !! uc_email u = None -> db_wf (after_insert u w).
Proof.
  intros [Hf Hid] Hfree. split; simpl.
  - apply map_Forall_insert_2.
    + simpl. repeat split; [lia|]. exists (uc_password u), (salt_seed w). split; [done|lia].
    + eapply map_Forall_impl; [exact Hf|]. intros e v (? & ? & p & r & ? & ?).
      repeat split; [done|lia|]. exists p, r. split; [done|lia].
  - intros e1 e2 u1 u2 Hu1 Hu2 Hsame.
    rewrite lookup_insert in Hu1, Hu2.
    destruct (decide (uc_email u = e1)) as [<-|Hne1], (decide (uc_email u = e2)) as [<-|Hne2];
      simplify_eq; try done.
    + apply Hf in Hu2 as (_ & Hlt & _). simpl in Hsame. lia.
    + apply Hf in Hu1 as (_ & Hlt & _). simpl in Hsame. lia.
    + by apply (Hid e1 e2 u1 u2).
Qed.

(** C8: every world the application can reach from an empty database,
    through any interleaving of registrations, logins and the passing of
    time, has a well-formed [users] table. *)
Theorem reachable_db_wf (w : world) : reachable w -> db_wf w.
Proof.
  induction 1 as [t|w w' _ IH Hstep].
  - split; [apply map_Forall_empty|]. intros e1 e2 u1 u2 Hu1. simpl in Hu1. by rewrite lookup_empty in Hu1.
  - destruct Hstep as [u r w w' Hr|c r w w' Hl|w dt Hdt].
    + apply register_effect in Hr as [->|[->|[Hfree ->]]];
        [done|by apply db_wf_bump|by apply db_wf_insert].
    + by apply login_keeps_world in Hl as ->.
    + destruct IH as [Hf Hid]. by split.
Qed.


Context `{!PasswordHasherLaws}.

(** What a successful [register] did: the email was free, the row is
    inserted, and the token is the one [create_access_token] issues in the
    new world. *)
Lemma register_Ret (u : UserCreate) (w w' : world) (r : TokenResponse) :
  register settings u w = (Ret r, w') ->
  users w !! uc_email u = None /\ w' = after_insert u w /\
  exists t, create_access_token settings (uc_email u) None (after_insert u w) =
            (Ret t, after_insert u w) /\ r = mk_TokenResponse t.
Proof.
  unfold register, py_bind, select_user.
  destruct (users w !! uc_email u) as [row|] eqn:Hfree; [by intros [=]|].
  unfold draw_salt, insert_user. simpl.
  destruct (_ || _); [by intros [=]|].
  rewrite Hfree. fold (new_row u w). fold (after_insert u w).
  pose proof (create_access_token_keeps_world (uc_email u) None (after_insert u w)) as Hk.
  destruct (create_access_token _ _ _ _) as [[t|e] w0] eqn:Hc; simpl in Hk; subst;
    [|by intros [=]].
  intros [= <- <-]. eauto.
Qed.

Lemma register_login_same_token (u : UserCreate) (w w' : world) (r : TokenResponse) :
  register settings u w = (Ret r, w') ->
  login settings {| ul_email := uc_email u; ul_password := uc_password u |} w' = (Ret r, w').
Proof.
  intros (Hfree & -> & t & Hc & ->) % register_Ret.
  unfold login, py_bind, select_user. simpl. rewrite lookup_insert_eq. simpl.
  rewrite verify_hash_password, Hc. done.
Qed.

(** C3: registering and then logging in with the same email and password,
    at the same instant, succeeds and returns the very token [register]
    returned, leaving the world as [register] left it. *)
Theorem register_then_login (u : UserCreate) (w w' : world) (r : TokenResponse) :
  register settings u w = (Ret r, w') ->
  login settings {| ul_email := uc_email u; ul_password := uc_password u |} w' = (Ret r, w').
Proof. apply register_login_same_token; assumption. Qed.

End Lemmas.


(** ** Witnesses

    The symbolic instances of [Symbolic], the default configuration, an
    empty database created at [T0], and alice's registration. *)

Import Symbolic.

Definition demo_world : world := initial_world T0.

Definition demo_user : UserCreate :=
  {| uc_email := demo_subject; uc_password := py "correct horse";
     uc_confirm_password := Some (py "correct horse") |}.

(** The world after alice has registered. *)
Definition alice_world : world := after_insert demo_user demo_world.

Definition wrong_password : UserLogin :=
  {| ul_email := demo_subject; ul_password := py "battery staple" |}.

Lemma register_fresh_witness :
  register default_settings demo_user demo_world =
  (respond (issue default_settings demo_subject demo_world SHA256 default_JWT_SECRET),
   alice_world).
Proof.
  refine (register_fresh default_settings demo_user demo_world SHA256 default_JWT_SECRET
            default_secret_usable _ _ _).
  - vm_compute. reflexivity.
  - apply Nat.leb_le. vm_compute. reflexivity.
  - apply Nat.leb_le. vm_compute. reflexivity.
Defined.

Lemma register_taken_witness :
  register default_settings demo_user alice_world = (Exc email_taken, alice_world).
Proof.
  refine (register_taken default_settings demo_user alice_world (new_row demo_user demo_world) _).
  vm_compute. reflexivity.
Defined.

Lemma login_spec_witness :
  login default_settings wrong_password alice_world = (Exc invalid_credentials, alice_world).
Proof.
  refine (eq_trans (login_spec default_settings wrong_password alice_world SHA256
                      default_JWT_SECRET default_secret_usable) _).
  vm_compute. reflexivity.
Defined.

Lemma login_failure_uniform_witness :
  login default_settings wrong_password alice_world = (Exc invalid_credentials, alice_world).
Proof.
  refine (proj2 (login_failure_uniform default_settings wrong_password alice_world SHA256
                   default_JWT_SECRET default_secret_usable) _).
  right. exists (new_row demo_user demo_world). split; vm_compute; reflexivity.
Defined.

Lemma reachable_db_wf_witness : db_wf alice_world.
Proof.
  apply (reachable_db_wf default_settings).
  apply (reachable_step default_settings demo_world); [apply reachable_init|].
  apply (step_register default_settings demo_user
           (fst (register default_settings demo_user demo_world))).
  vm_compute. reflexivity.
Defined.

Lemma register_then_login_witness :
  login default_settings {| ul_email := demo_subject; ul_password := py "correct horse" |}
        alice_world =
  (fst (register default_settings demo_user demo_world), alice_world).
Proof.
  destruct (register default_settings demo_user demo_world) as [[r|e] w'] eqn:Hr;
    [|vm_compute in Hr; discriminate].
  assert (w' = alice_world) as ->.
  { pose proof Hr as Hr'. vm_compute in Hr'. injection Hr' as _ <-. vm_compute. reflexivity. }
  exact (register_then_login default_settings demo_user demo_world alice_world r Hr).
Defined.

End Routes.
