(* ===== verification/Session.v ===== *)
(** * Session: [src/backend/app/database.py] and the handlers as written

    [Routes] runs each handler directly on the [world], with
    [db.add(new_user); db.commit(); db.refresh(new_user)] as one step
    ([insert_user]).  This file models the code between: the session that
    [get_db] opens with [SessionLocal()] and closes in its [finally], the
    session operations the handlers call, and [register] and [login]
    written against them line by line ([register_db], [login_db]).

    - A [session] ([sessionmaker(autocommit=False, autoflush=False)])
      holds the objects added since the last commit.  With
      [autoflush=False] a [SELECT] does not flush them, so
      [db_execute_select] reads the committed table.
    - [db_commit] flushes the pending objects in order, each by the
      [INSERT] of [insert_row], in one transaction: when one fails, the
      transaction is rolled back and the table is as before, but the
      sequence values the [INSERT]s drew stay consumed.
    - [db_refresh] reloads an object's row ([InvalidRequestError] when it
      is gone); [db_close] discards whatever was not committed.
    - [init_db] is [Base.metadata.create_all]: it creates the [users]
      table only when it does not exist; [lifespan] runs it at start-up.

    [get_db_routes] shows that [get_db] around [register_db] and
    [login_db] computes exactly [Routes.register] and [Routes.login], on
    every input and in every world: the atomic model the other files use
    is this code.  [init_db_spec] shows that [create_all] leaves an
    existing table, rows and sequence, as it is, so a restart never loses
    an account; [lifespan_world] that a first start serves from the empty
    table.  [user_repr] is [User.__repr__], and [user_repr_inj] shows that
    it prints exactly the [id] and the [email]. *)

From S2P Require Import Prelude Builtins Config Datetime Json Jose Hasher Jwt Schemas Routes.

Module Session.
Import Config Datetime Jose Hasher Jwt Schemas Routes.

(** [create_engine(settings.DATABASE_URL, echo=False, pool_pre_ping=True)]. *)
Record engine := { engine_url : pystr; engine_echo : bool; engine_pool_pre_ping : bool }.

Definition create_engine (settings : Settings) : engine :=
  {| engine_url := DATABASE_URL settings; engine_echo := false; engine_pool_pre_ping := true |}.

(** [User(email=..., hashed_password=...)] before its flush: no [id], no
    [created_at] yet. *)
Record transient := { t_email : pystr; t_hashed : pystr }.

Record session := { pending : list transient; closed : bool }.

(** [SessionLocal()]. *)
Definition SessionLocal : session := {| pending := []; closed := false |}.

Notation dbstate := (world * session)%type.

(** A step on the database and the clock, which the session does not see. *)
Definition on_world {A} (m : PyM world A) : PyM dbstate A :=
  fun st => let '(r, w') := m st.1 in (r, (w', st.2)).

(** [db.execute(select(User).where(User.email == e)).scalar_one_or_none()]:
    at most one row, since [email] is unique. *)
Definition db_execute_select (e : pystr) : PyM dbstate (option User) :=
  on_world (select_user e).

(** [db.add(obj)]. *)
Definition db_add (t : transient) : PyM dbstate unit :=
  fun st => (Ret tt, (st.1, {| pending := pending st.2 ++ [t]; closed := closed st.2 |})).

(** The [INSERT] a flush emits for one object: [id] from [users_id_seq],
    [created_at] from [now()], the length and unique checks of the
    columns, as [insert_user] computes them. *)
Definition insert_row (t : transient) : PyM world User := insert_user (t_email t) (t_hashed t).

(** The [INSERT]s of the pending objects, in order, up to the first that
    fails. *)
Fixpoint flush (ts : list transient) : PyM world (list User) :=
  match ts with
  | [] => py_ret []
  | t :: ts' => (let* u := insert_row t in let* us := flush ts' in py_ret (u :: us))%py
  end.

(** [db.commit()]: one transaction; on failure the rows are rolled back
    and the sequence keeps the values drawn. *)
Definition db_commit : PyM dbstate unit :=
  fun st =>
    let '(w, s) := st in
    match flush (pending s) w with
    | (Ret _, w') => (Ret tt, (w', {| pending := []; closed := closed s |}))
    | (Exc e, w') =>
        (Exc e, ({| users := users w; next_id := next_id w'; now_us := now_us w;
                    salt_seed := salt_seed w |}, s))
    end.

(** [db.refresh(obj)]: the object's row as the database now has it. *)
Definition db_refresh (t : transient) : PyM dbstate User :=
  fun st => match users st.1 !! t_email t with
            | Some row => (Ret row, st)
            | None => (Exc InvalidRequestError, st)
            end.

(** [db.close()]: what was not committed is discarded. *)
Definition db_close (st : dbstate) : dbstate := (st.1, {| pending := []; closed := true |}).

(** [get_db]: [db = SessionLocal()]; the handler runs while the generator
    waits at [yield db]; [db.close()] runs in [finally], whatever the
    handler raised. *)
Definition get_db {A} (handler : PyM dbstate A) : PyM world A :=
  fun w => let '(r, st) := handler (w, SessionLocal) in (r, (db_close st).1).

Section Handlers.
Context `{JoseCodec} `{Hmac} `{PasswordHasher}.
Variable settings : Settings.

(** [register], lines 30-53, against the session. *)
Definition register_db (user_data : UserCreate) : PyM dbstate TokenResponse :=
  (let* existing_user := db_execute_select (uc_email user_data) in
   match existing_user with
   | Some _ => py_raise email_taken
   | None =>
       let* salt := on_world draw_salt in
       let hashed_pwd := hash_password (uc_password user_data) salt in
       let new_user := {| t_email := uc_email user_data; t_hashed := hashed_pwd |} in
       do* db_add new_user;
       do* db_commit;
       let* row := db_refresh new_user in
       let* access_token := on_world (create_access_token settings (email row) None) in
       py_ret (mk_TokenResponse access_token)
   end)%py.

(** [login], lines 71-92, against the session. *)
Definition login_db (credentials : UserLogin) : PyM dbstate TokenResponse :=
  (let* user := db_execute_select (ul_email credentials) in
   match user with
   | None => py_raise invalid_credentials
   | Some u =>
       if verify_password (ul_password credentials) (hashed_password u) then
         let* access_token := on_world (create_access_token settings (email u) None) in
         py_ret (mk_TokenResponse access_token)
       else py_raise invalid_credentials
   end)%py.

End Handlers.

(** ** Start-up *)

(** The database server: the [users] table with [users_id_seq], once
    created. *)
Record database := { users_table : option (gmap pystr User * Z) }.

(** [init_db]: [Base.metadata.create_all(bind=engine)], which checks for
    the table first. *)
Definition init_db (d : database) : database :=
  match users_table d with
  | None => {| users_table := Some (∅, 1) |}
  | Some _ => d
  end.

(** The start-up half of [lifespan]; its shutdown half does nothing. *)
Definition lifespan (d : database) : database := init_db d.

(** The world the routes see once the table exists. *)
Definition world_of (d : database) (t seed : Z) : option world :=
  match users_table d with
  | Some (tbl, n) => Some {| users := tbl; next_id := n; now_us := t; salt_seed := seed |}
  | None => None
  end.

(** [User.__repr__]. *)
Definition user_repr (u : User) : pystr :=
  py "<User(id=" ++ str_of_Z (id u) ++ py ", email=" ++ email u ++ py ")>".

(** ** Lemmas *)

Lemma on_world_run {A} (m : PyM world A) (w : world) (s : session) :
  on_world m (w, s) = ((m w).1, ((m w).2, s)).
Proof. unfold on_world. simpl. by destruct (m w). Qed.

(** A failed [insert_user] has only drawn a sequence value. *)
Lemma insert_user_exc_world (e hashed : pystr) (w w' : world) (x : exc) :
  insert_user e hashed w = (Exc x, w') ->
  w' = {| users := users w; next_id := next_id w + 1; now_us := now_us w; salt_seed := salt_seed w |}.
Proof. unfold insert_user. repeat case_match; by intros [= _ <-]. Qed.

(** After a successful [insert_user], the row is found under its email. *)
Lemma insert_user_refresh (e hashed : pystr) (w w' : world) (u : User) :
  insert_user e hashed w = (Ret u, w') -> users w' !! e = Some u.
Proof.
  unfold insert_user. repeat case_match; intros [= <- <-]. simpl. by rewrite lookup_insert_eq.
Qed.

Section Equivalence.
Context `{JoseCodec} `{Hmac} `{PasswordHasher}.
Variable settings : Settings.

Ltac db_unfold :=
  unfold get_db, db_execute_select, on_world, py_bind, py_raise, py_ret, select_user,
    draw_salt, db_add, db_refresh, db_commit, flush, insert_row;
  cbn -[insert_user create_access_token hash_password];
  unfold py_bind, py_ret; cbn -[insert_user create_access_token hash_password].

Lemma get_db_register (u : UserCreate) (w : world) :
  get_db (register_db settings u) w = register settings u w.
Proof.
  unfold register_db, register. db_unfold.
  destruct (users w !! uc_email u) as [row|]; [done|].
  destruct (insert_user _ _ _) as [[row|e] w1] eqn:Hi; cbn -[create_access_token].
  - rewrite Hi. cbn -[create_access_token]. rewrite (insert_user_refresh _ _ _ _ _ Hi). cbn -[create_access_token].
    by destruct (create_access_token settings (email row) None w1) as [[t|e] w2].
  - rewrite Hi. cbn. by rewrite (insert_user_exc_world _ _ _ _ _ Hi).
Qed.

Lemma get_db_login (c : UserLogin) (w : world) :
  get_db (login_db settings c) w = login settings c w.
Proof.
  unfold login_db, login. db_unfold.
  destruct (users w !! ul_email c) as [u|]; [|done].
  destruct (verify_password _ _); [|done].
  simpl. by destruct (create_access_token settings (email u) None w) as [[t|e] w2].
Qed.

(** [get_db] around the handlers as written against
    the session ([SELECT], [add], [commit], [refresh], [close]) computes
    exactly the atomic models [register] and [login] of [Routes], for every
    request and in every world. *)
Theorem get_db_routes (u : UserCreate) (c : UserLogin) (w : world) :
  get_db (register_db settings u) w = register settings u w /\
  get_db (login_db settings c) w = login settings c w.
Proof. split; [apply get_db_register | apply get_db_login]. Qed.

End Equivalence.

Lemma comma_not_in_str_of_Z (z : Z) : 44 ∉ str_of_Z z.
Proof.
  intros Hin. pose proof (str_of_Z_chars z) as Hc. rewrite Forall_forall in Hc.
  apply Hc in Hin. lia.
Qed.

(** [User.__repr__] determines exactly the [id] and the [email] of a
    row: two rows print alike if and only if they agree on both, so the
    printed form never depends on the password digest or the creation
    time. *)
Theorem user_repr_inj (u1 u2 : User) :
  user_repr u1 = user_repr u2 <-> id u1 = id u2 /\ email u1 = email u2.
Proof.
  split; [|unfold user_repr; by intros [-> ->]].
  unfold user_repr. intros Heq. apply app_inv_head in Heq.
  change (py ", email=") with (44 :: py " email=") in Heq.
  apply (f_equal (split_first 44)) in Heq.
  rewrite <- !app_comm_cons, !split_first_app in Heq by apply comma_not_in_str_of_Z.
  injection Heq as Hs He. apply str_of_Z_inj in Hs. split; [done|].
  by apply app_inv_tail in He.
Qed.

(** [create_all] creates the table on a new database and leaves an
    existing one, rows and sequence, as it is. *)
Lemma init_db_spec (d : database) :
  (users_table d = None -> users_table (init_db d) = Some (∅, 1)) /\
  (forall tbl n, users_table d = Some (tbl, n) -> init_db d = d).
Proof. unfold init_db. split; [by intros ->|by intros tbl n ->]. Qed.

Lemma lifespan_world (d : database) (t : Z) :
  users_table d = None -> world_of (lifespan d) t 0 = Some (initial_world t).
Proof. intros Hd. unfold lifespan, world_of. by rewrite (proj1 (init_db_spec d) Hd). Qed.

End Session.
