(* ===== verification/App.v ===== *)
(** * App: the HTTP layer of [src/backend/app/main.py] and
    [src/backend/app/routes/auth.py]

    [app = FastAPI(...)] with [app.include_router(auth_router)] serves
    three endpoints:

    - [POST /register] ([status_code=201]): FastAPI validates the JSON body
      against [UserCreate] and answers 422 with the errors when it fails;
      otherwise it opens a session ([get_db]) and runs [register] on it
      ([Session.register_db]);
    - [POST /login] (status 200): the same with [UserLogin] and [login];
    - [GET /health]: [{"status": "healthy"}].

    An [HTTPException] becomes its status, a [{"detail": ...}] body and its
    headers; any other exception reaches Starlette's
    [ServerErrorMiddleware], which answers 500.  [handle] is the
    application as a function from a request and the world to the response
    and the new world.

    The middleware, the router and the rest of the application object are
    in [Cors] and [Asgi], where the whole stack is shown to answer as
    [handle] does for requests without an [Origin] header. *)

From S2P Require Import Prelude Builtins Config Datetime Json Jose Hasher Symbolic Jwt Schemas Routes Session.

Module App.
Import Config Datetime Jose Hasher Jwt Schemas Routes Session.

Record response := {
  status : Z;
  resp_body : json;
  resp_headers : list (pystr * pystr)
}.

#[export] Instance response_EqDecision : EqDecision response.
Proof.
  intros [s1 b1 h1] [s2 b2 h2].
  destruct (decide (s1 = s2)), (decide (b1 = b2)), (decide (h1 = h2));
    [left; congruence|right; congruence..].
Defined.

(** pydantic's error type of each validation failure. *)
Definition error_type (e : field_error) : pystr :=
  match e with
  | Missing => py "missing"
  | StringType => py "string_type"
  | ModelType => py "model_attributes_type"
  | _ => py "value_error"
  end.

(** FastAPI's [request_validation_exception_handler]. *)
Definition unprocessable (errs : list field_error) : response :=
  {| status := 422;
     resp_body := JObject [(py "detail",
                            JArray (map (fun e => JObject [(py "type", JStr (error_type e))]) errs))];
     resp_headers := [] |}.

(** [http_exception_handler] for an [HTTPException]; the
    [ServerErrorMiddleware] for anything else. *)
Definition exc_response (e : exc) : response :=
  match e with
  | HTTPException st d hs =>
      {| status := st; resp_body := JObject [(py "detail", JStr d)]; resp_headers := hs |}
  | _ => {| status := 500; resp_body := JStr (py "Internal Server Error"); resp_headers := [] |}
  end.

(** The [TokenResponse] serialised as the route's [response_model]. *)
Definition token_json (t : TokenResponse) : json :=
  JObject [(py "access_token", JStr (access_token t)); (py "token_type", JStr (token_type t))].

Definition respond_with (code : Z) (r : res TokenResponse) : response :=
  match r with
  | Ret t => {| status := code; resp_body := token_json t; resp_headers := [] |}
  | Exc e => exc_response e
  end.

(** [health_check]. *)
Definition health_check : response :=
  {| status := 200; resp_body := JObject [(py "status", JStr (py "healthy"))]; resp_headers := [] |}.

Inductive request :=
| PostRegister (body : json)
| PostLogin (body : json)
| GetHealth.

Section App.
Context `{JoseCodec} `{Hmac} `{PasswordHasher} `{EmailValidator}.
Variable settings : Settings.

(** [@router.post("/register", response_model=TokenResponse, status_code=201)]. *)
Definition post_register (body : json) : PyM world response :=
  fun w =>
    match UserCreate_of_json body with
    | inl errs => (Ret (unprocessable errs), w)
    | inr u => let '(r, w') := get_db (register_db settings u) w in (Ret (respond_with 201 r), w')
    end.

(** [@router.post("/login", response_model=TokenResponse)]. *)
Definition post_login (body : json) : PyM world response :=
  fun w =>
    match UserLogin_of_json body with
    | inl errs => (Ret (unprocessable errs), w)
    | inr c => let '(r, w') := get_db (login_db settings c) w in (Ret (respond_with 200 r), w')
    end.

Definition handle (rq : request) : PyM world response :=
  match rq with
  | PostRegister b => post_register b
  | PostLogin b => post_login b
  | GetHealth => py_ret health_check
  end.

End App.


(** ** Lemmas *)

Section Lemmas.
Context `{JoseCodec} `{Hmac} `{PasswordHasher} `{EmailValidator}.
Variable settings : Settings.

Lemma UserLogin_of_UserCreate (b : json) (u : UserCreate) :
  UserCreate_of_json b = inr u ->
  UserLogin_of_json b = inr {| ul_email := uc_email u; ul_password := uc_password u |}.
Proof.
  destruct b as [| | | | | | d]; try discriminate.
  unfold UserCreate_of_json, UserLogin_of_json.
  destruct (and_then _ email_field) as [?|e] eqn:He; [by destruct (and_then _ _), (opt_str_field _ _)|].
  destruct (and_then _ validate_password) as [?|p] eqn:Hp; [by destruct (opt_str_field _ _)|].
  destruct (opt_str_field _ _) as [?|c]; [done|].
  apply password_ok in Hp as (Hp & Hns & _).
  rewrite (proj2 (login_password_ok d p) (conj Hp Hns)).
  unfold validate_passwords_match. simpl.
  destruct c; [case_bool_decide|]; by intros [= <-].
Qed.

Lemma respond_with_exc_status (code : Z) (e : exc) :
  e ∈ [DataError; IntegrityError; OverflowError; TypeError; JWSError SigningFailed] ->
  status (respond_with code (Exc e)) = 500.
Proof. rewrite !elem_of_cons, elem_of_nil. by intros [->|[->|[->|[->|[->|[]]]]]]. Qed.

(** Every outcome of [POST /register]. *)
Lemma post_register_cases (b : json) (w w' : world) (r : response) :
  post_register settings b w = (Ret r, w') ->
  (exists errs, UserCreate_of_json b = inl errs /\ r = unprocessable errs /\ w' = w) \/
  exists u, UserCreate_of_json b = inr u /\
    ((exists t, register settings u w = (Ret t, w') /\ status r = 201 /\ resp_body r = token_json t) \/
     (register settings u w = (Exc email_taken, w') /\ status r = 400) \/
     (exists e, register settings u w = (Exc e, w') /\ status r = 500 /\
        e ∈ [DataError; IntegrityError; OverflowError; TypeError; JWSError SigningFailed])).
Proof.
  unfold post_register. destruct (UserCreate_of_json b) as [errs|u]; [intros [= <- <-]; left; by eexists|].
  rewrite get_db_register.
  destruct (register settings u w) as [[t|e] w0] eqn:Hr; intros [= <- <-]; right; exists u;
    (split; [done|]); [left; by exists t|right].
  destruct (register_exc settings u w w0 e Hr) as [->|He]; [by left|right].
  exists e. split; [done|]. assert (Hin : e ∈ [DataError; IntegrityError; OverflowError; TypeError;
                                              JWSError SigningFailed]).
  { rewrite !elem_of_cons, elem_of_nil. naive_solver. }
  split; [by apply (respond_with_exc_status 201)|done].
Qed.

Lemma post_login_cases (b : json) (w w' : world) (r : response) :
  post_login settings b w = (Ret r, w') ->
  w' = w /\
  ((exists errs, UserLogin_of_json b = inl errs /\ r = unprocessable errs) \/
   exists c, UserLogin_of_json b = inr c /\
     ((exists t, login settings c w = (Ret t, w) /\ status r = 200 /\ resp_body r = token_json t) \/
      (login settings c w = (Exc invalid_credentials, w) /\ r = exc_response invalid_credentials) \/
      (exists e, login settings c w = (Exc e, w) /\ status r = 500 /\
         e ∈ [DataError; IntegrityError; OverflowError; TypeError; JWSError SigningFailed]))).
Proof.
  unfold post_login. destruct (UserLogin_of_json b) as [errs|c]; [intros [= <- <-]; split; [done|left]; eauto|].
  rewrite get_db_login.
  destruct (login settings c w) as [rl w0] eqn:Hl.
  pose proof (login_keeps_world settings c w w0 rl Hl) as ->.
  intros [= <- <-]. split; [done|]. right. exists c. split; [done|].
  destruct rl as [t|e]; [left; by exists t|right].
  destruct (login_exc settings c w w e Hl) as [->|He]; [by left|right].
  exists e. split; [done|]. assert (Hin : e ∈ [DataError; IntegrityError; OverflowError; TypeError;
                                              JWSError SigningFailed]).
  { rewrite !elem_of_cons, elem_of_nil. naive_solver. }
  split; [by apply (respond_with_exc_status 200)|done].
Qed.

End Lemmas.


(** ** Properties *)

Section Properties.
Context `{JoseCodec} `{Hmac} `{PasswordHasher} `{!PasswordHasherLaws} `{EmailValidator}.
Variable settings : Settings.

(** C14: over HTTP, a [POST /register] answered with 201, followed by a
    [POST /login] of the same JSON body at the same instant, is answered
    with 200 and the same token body; the extra [confirm_password] field is
    ignored by [UserLogin]. *)
Theorem post_register_then_login (b : json) (w w' : world) (r : response) :
  post_register settings b w = (Ret r, w') -> status r = 201 ->
  post_login settings b w' = (Ret {| status := 200; resp_body := resp_body r; resp_headers := [] |}, w').
Proof.
  intros Hr H201.
  destruct (post_register_cases settings b w w' r Hr)
    as [(errs & _ & -> & _)|(u & Hu & [(t & Hreg & _ & Hbody)|[(_ & H400)|(e & _ & H500 & _)]])];
    [done| |lia|lia].
  unfold post_login. rewrite (UserLogin_of_UserCreate b u Hu), get_db_login.
  rewrite (register_login_same_token settings u w w' t Hreg). simpl. by rewrite Hbody.
Qed.

(** C21: [POST /register] answers 201, 400, 422 or 500, and a 422 or a 400
    leaves the database as it was. *)
Theorem post_register_status (b : json) (w w' : world) (r : response) :
  post_register settings b w = (Ret r, w') ->
  status r ∈ [201; 400; 422; 500] /\ (status r = 422 \/ status r = 400 -> w' = w).
Proof.
  intros Hr.
  destruct (post_register_cases settings b w w' r Hr)
    as [(errs & _ & -> & ->)|(u & Hu & [(t & Hreg & Hs & _)|[(Hreg & Hs)|(e & Hreg & Hs & _)]])];
    rewrite ?Hs; simpl.
  - split; [set_solver|done].
  - split; [set_solver|lia].
  - split; [set_solver|]. intros _. by apply register_taken_inv in Hreg as [-> _].
  - split; [set_solver|lia].
Qed.

(** C22: [POST /login] never changes the database, and answers 200, 401,
    422 or 500; both kinds of bad credentials give the same 401 response,
    with [WWW-Authenticate: Bearer]. *)
Theorem post_login_status (b : json) (w w' : world) (r : response) :
  post_login settings b w = (Ret r, w') ->
  w' = w /\ status r ∈ [200; 401; 422; 500] /\
  (status r = 401 -> r = {| status := 401; resp_body := JObject [(py "detail", JStr (py "Invalid credentials"))];
                            resp_headers := [(py "WWW-Authenticate", py "Bearer")] |}).
Proof.
  intros Hl.
  destruct (post_login_cases settings b w w' r Hl)
    as [-> [(errs & _ & ->)|(c & Hc & [(t & _ & Hs & _)|[(_ & ->)|(e & _ & Hs & _)]])]];
    rewrite ?Hs; simpl; (split; [done|]); (split; [set_solver|]); by try lia.
Qed.

End Properties.


(** ** Witnesses: the symbolic instances, the default configuration,
    alice's registration body on an empty database, and a login with a
    wrong password once she is registered. *)

Import Symbolic.

Definition register_reply : res response * world :=
  post_register default_settings register_body demo_world.

Definition wrong_login_body : json :=
  JObject [(py "email", JStr demo_email); (py "password", JStr (py "battery staple"))].

Lemma post_register_then_login_witness :
  match register_reply with
  | (Ret r, w') => post_login default_settings register_body w' =
                   (Ret {| status := 200; resp_body := resp_body r; resp_headers := [] |}, w')
  | (Exc _, _) => False
  end.
Proof.
  unfold register_reply. destruct (post_register _ _ _) as [[r|e] w'] eqn:Hr.
  - refine (post_register_then_login default_settings register_body demo_world w' r Hr _).
    pose proof Hr as Hr'. vm_compute in Hr'. injection Hr' as <- _. reflexivity.
  - vm_compute in Hr. discriminate.
Defined.

Lemma post_register_status_witness :
  match register_reply with
  | (Ret r, w') => status r ∈ [201; 400; 422; 500] /\ (status r = 422 \/ status r = 400 -> w' = demo_world)
  | (Exc _, _) => False
  end.
Proof.
  unfold register_reply. destruct (post_register _ _ _) as [[r|e] w'] eqn:Hr.
  - exact (post_register_status default_settings register_body demo_world w' r Hr).
  - vm_compute in Hr. discriminate.
Defined.

Lemma post_login_status_witness :
  match post_login default_settings wrong_login_body alice_world with
  | (Ret r, w') =>
      w' = alice_world /\ status r ∈ [200; 401; 422; 500] /\
      (status r = 401 -> r = {| status := 401;
                                resp_body := JObject [(py "detail", JStr (py "Invalid credentials"))];
                                resp_headers := [(py "WWW-Authenticate", py "Bearer")] |})
  | (Exc _, _) => False
  end.
Proof.
  destruct (post_login _ _ _) as [[r|e] w'] eqn:Hl.
  - exact (post_login_status default_settings wrong_login_body alice_world w' r Hl).
  - vm_compute in Hl. discriminate.
Defined.

End App.
