(* ===== verification/Cors.v ===== *)
(** * Cors: [app.add_middleware(CORSMiddleware, ...)] of
    [src/backend/app/main.py]

    [app_cors] is the configuration of lines 29-35: every origin ([*]),
    credentials allowed, every method, every header.  What the middleware
    does with it is Starlette's [CORSMiddleware], modelled after its source:

    - the configuration is normalised at construction ([cors_init], the
      attributes [__init__] stores, as the record [cors_mw]: the methods,
      the wildcard flags, [preflight_explicit_allow_origin], and the
      simple and preflight headers);
    - a request without an [Origin] header goes to the application
      untouched;
    - a preflight ([OPTIONS] with [Access-Control-Request-Method]) is
      answered by the middleware itself ([preflight_response]): 200 ["OK"]
      or 400 ["Disallowed CORS ..."], and never reaches the routes;
    - any other request goes to the application, and the middleware adds
      its headers to the response ([simple_response]).

    The body of a [PlainTextResponse] is carried as [JStr] of its text.
    Header names are kept in lower case, as Starlette's [Headers] and
    [MutableHeaders] store them; [hdr_set] is [MutableHeaders.__setitem__].

    [cors_any_origin] shows what [allow_origins=["*"]] together with
    [allow_credentials=True] gives: every origin, whatever it is, is
    granted credentialed access, by the preflight and on any request that
    carries a cookie, since Starlette then echoes the requesting origin
    instead of ["*"]. *)

From S2P Require Import Prelude Builtins Json Routes App.

Module Cors.
Import Routes App.

Abbreviation headers := (list (pystr * pystr)).

Record cors_config := {
  allow_origins : list pystr;
  allow_credentials : bool;
  allow_methods : list pystr;
  allow_headers : list pystr
}.

(** Lines 29-35 of [main.py]. *)
Definition app_cors : cors_config :=
  {| allow_origins := [py "*"]; allow_credentials := true;
     allow_methods := [py "*"]; allow_headers := [py "*"] |}.

Definition ALL_METHODS : list pystr :=
  [py "DELETE"; py "GET"; py "HEAD"; py "OPTIONS"; py "PATCH"; py "POST"; py "PUT"].

Definition SAFELISTED_HEADERS : list pystr :=
  [py "Accept"; py "Accept-Language"; py "Content-Language"; py "Content-Type"].

(** ** Strings *)

(** [str.lower] on the ASCII letters of header names. *)
Definition ascii_lower (s : pystr) : pystr :=
  map (fun c => if (65 <=? c) && (c <=? 90) then c + 32 else c) s.

(** [", ".join(l)]. *)
Fixpoint join_comma (l : list pystr) : pystr :=
  match l with
  | [] => []
  | [x] => x
  | x :: r => x ++ py ", " ++ join_comma r
  end.

(** [s.split(",")]. *)
Fixpoint split_comma (s : pystr) : list pystr :=
  match s with
  | [] => [[]]
  | c :: r =>
      if c =? 44 then [] :: split_comma r
      else match split_comma r with
           | x :: xs => (c :: x) :: xs
           | [] => [[c]]
           end
  end.

(** Python's [<] on strings: code points compared left to right. *)
Fixpoint str_ltb (a b : pystr) : bool :=
  match a, b with
  | [], [] => false
  | [], _ :: _ => true
  | _ :: _, [] => false
  | x :: a', y :: b' => (x <? y) || ((x =? y) && str_ltb a' b')
  end.

Fixpoint insert_sorted (x : pystr) (l : list pystr) : list pystr :=
  match l with
  | [] => [x]
  | y :: r => if str_ltb y x then y :: insert_sorted x r else x :: y :: r
  end.

(** [sorted(set(l))]. *)
Definition sorted_set (l : list pystr) : list pystr :=
  fold_right insert_sorted [] (remove_dups l).

(** ** Headers *)

(** [headers.get(k)]. *)
Fixpoint hget (k : pystr) (hs : headers) : option pystr :=
  match hs with
  | [] => None
  | (k', v) :: r => if bool_decide (k' = k) then Some v else hget k r
  end.

(** [headers[k] = v]: the first entry of [k] is replaced, or one is added. *)
Fixpoint hdr_set (k v : pystr) (hs : headers) : headers :=
  match hs with
  | [] => [(k, v)]
  | (k', v') :: r => if bool_decide (k' = k) then (k, v) :: r else (k', v') :: hdr_set k v r
  end.

(** [headers.update(d)]. *)
Definition hdr_update (d hs : headers) : headers :=
  fold_left (fun acc kv => hdr_set kv.1 kv.2 acc) d hs.

(** [MutableHeaders.add_vary_header]. *)
Definition add_vary_header (v : pystr) (hs : headers) : headers :=
  match hget (py "vary") hs with
  | Some old => hdr_set (py "vary") (old ++ py ", " ++ v) hs
  | None => hdr_set (py "vary") v hs
  end.

(** ** [CORSMiddleware.__init__] *)

(** The attributes [__init__] stores on the middleware. *)
Record cors_mw := {
  mw_allow_origins : list pystr;
  mw_allow_methods : list pystr;
  mw_allow_headers : list pystr;
  mw_allow_all_origins : bool;
  mw_allow_all_headers : bool;
  mw_preflight_explicit_allow_origin : bool;
  mw_simple_headers : headers;
  mw_preflight_headers : headers
}.

Definition cors_init (c : cors_config) : cors_mw :=
  let allow_methods := if bool_decide (py "*" ∈ allow_methods c) then ALL_METHODS else allow_methods c in
  let allow_all_origins := bool_decide (py "*" ∈ allow_origins c) in
  let allow_all_headers := bool_decide (py "*" ∈ allow_headers c) in
  let preflight_explicit := negb allow_all_origins || allow_credentials c in
  let simple :=
    (if allow_all_origins then [(py "access-control-allow-origin", py "*")] else []) ++
    (if allow_credentials c then [(py "access-control-allow-credentials", py "true")] else []) in
  let sorted_headers := sorted_set (SAFELISTED_HEADERS ++ allow_headers c) in
  let preflight :=
    (if preflight_explicit then [(py "vary", py "Origin")]
     else [(py "access-control-allow-origin", py "*")]) ++
    [(py "access-control-allow-methods", join_comma allow_methods);
     (py "access-control-max-age", py "600")] ++
    (if bool_decide (sorted_headers <> []) && negb allow_all_headers
     then [(py "access-control-allow-headers", join_comma sorted_headers)] else []) ++
    (if allow_credentials c then [(py "access-control-allow-credentials", py "true")] else []) in
  {| mw_allow_origins := allow_origins c; mw_allow_methods := allow_methods;
     mw_allow_headers := map ascii_lower sorted_headers;
     mw_allow_all_origins := allow_all_origins; mw_allow_all_headers := allow_all_headers;
     mw_preflight_explicit_allow_origin := preflight_explicit;
     mw_simple_headers := simple; mw_preflight_headers := preflight |}.

(** ** [CORSMiddleware.__call__] *)

Section Call.
Variable mw : cors_mw.

Definition is_allowed_origin (origin : pystr) : bool :=
  mw_allow_all_origins mw || bool_decide (origin ∈ mw_allow_origins mw).

(** [allow_explicit_origin]. *)
Definition allow_explicit_origin (origin : pystr) (hs : headers) : headers :=
  add_vary_header (py "Origin") (hdr_set (py "access-control-allow-origin") origin hs).

Definition preflight_response (rq_headers : headers) (origin : pystr) : response :=
  let requested_method := match hget (py "access-control-request-method") rq_headers with
                          | Some m => m | None => [] end in
  let requested_headers := hget (py "access-control-request-headers") rq_headers in
  let '(h1, f_origin) :=
    if is_allowed_origin origin then
      (if mw_preflight_explicit_allow_origin mw
       then hdr_set (py "access-control-allow-origin") origin (mw_preflight_headers mw)
       else mw_preflight_headers mw, [])
    else (mw_preflight_headers mw, [py "origin"]) in
  let f_method := if bool_decide (requested_method ∈ mw_allow_methods mw) then [] else [py "method"] in
  let '(h2, f_headers) :=
    match requested_headers with
    | Some rh =>
        if mw_allow_all_headers mw then (hdr_set (py "access-control-allow-headers") rh h1, [])
        else if forallb (fun h => bool_decide (py_strip (ascii_lower h) ∈ mw_allow_headers mw))
                        (split_comma rh)
        then (h1, []) else (h1, [py "headers"])
    | None => (h1, [])
    end in
  let failures := f_origin ++ f_method ++ f_headers in
  if bool_decide (failures = []) then
    {| status := 200; resp_body := JStr (py "OK"); resp_headers := h2 |}
  else
    {| status := 400; resp_body := JStr (py "Disallowed CORS " ++ join_comma failures);
       resp_headers := h2 |}.

(** [send]: the headers added to the application's response. *)
Definition simple_response (rq_headers : headers) (origin : pystr) (inner : response) : response :=
  let hs := hdr_update (mw_simple_headers mw) (resp_headers inner) in
  let has_cookie := is_Some (hget (py "cookie") rq_headers) in
  let hs' := if mw_allow_all_origins mw && bool_decide has_cookie then allow_explicit_origin origin hs
             else if negb (mw_allow_all_origins mw) && is_allowed_origin origin
             then allow_explicit_origin origin hs else hs in
  {| status := status inner; resp_body := resp_body inner; resp_headers := hs' |}.

(** The middleware around the application's handler for one request. *)
Definition cors_app (method : pystr) (rq_headers : headers) (app : PyM world response)
  : PyM world response :=
  match hget (py "origin") rq_headers with
  | None => app
  | Some origin =>
      if bool_decide (method = py "OPTIONS") &&
         bool_decide (is_Some (hget (py "access-control-request-method") rq_headers))
      then py_ret (preflight_response rq_headers origin)
      else fun w => match app w with
                    | (Ret r, w') => (Ret (simple_response rq_headers origin r), w')
                    | (Exc e, w') => (Exc e, w')
                    end
  end.

End Call.

(** ** Lemmas *)

Lemma hget_hdr_set_eq (k v : pystr) (hs : headers) : hget k (hdr_set k v hs) = Some v.
Proof.
  induction hs as [|[k' v'] hs IH]; simpl; [by rewrite bool_decide_true|].
  case_bool_decide; simpl; [by rewrite bool_decide_true|].
  rewrite bool_decide_false by done. exact IH.
Qed.

Lemma hget_hdr_set_ne (k k' v : pystr) (hs : headers) :
  k <> k' -> hget k' (hdr_set k v hs) = hget k' hs.
Proof.
  intros Hne. induction hs as [|[k0 v0] hs IH]; simpl.
  - by rewrite bool_decide_false.
  - case_bool_decide as H0; simpl.
    + subst k0. rewrite !bool_decide_false by done. done.
    + by case_bool_decide.
Qed.

Lemma hget_add_vary (k v : pystr) (hs : headers) :
  k <> py "vary" -> hget k (add_vary_header v hs) = hget k hs.
Proof.
  intros Hk. unfold add_vary_header. destruct (hget _ hs); apply hget_hdr_set_ne; congruence.
Qed.

Lemma app_cors_flags :
  mw_allow_all_origins (cors_init app_cors) = true /\
  mw_preflight_explicit_allow_origin (cors_init app_cors) = true /\
  mw_allow_methods (cors_init app_cors) = ALL_METHODS /\
  mw_allow_all_headers (cors_init app_cors) = true.
Proof. split_and!; reflexivity. Qed.

Ltac hget_simpl :=
  repeat first [ rewrite hget_hdr_set_eq
               | rewrite hget_add_vary by discriminate
               | rewrite hget_hdr_set_ne by discriminate ].

(** What the preflight answers under [app_cors] to an allowed method. *)
Lemma preflight_response_app_cors (hs : headers) (o m : pystr) :
  hget (py "access-control-request-method") hs = Some m -> m ∈ ALL_METHODS ->
  preflight_response (cors_init app_cors) hs o =
  let h1 := hdr_set (py "access-control-allow-origin") o (mw_preflight_headers (cors_init app_cors)) in
  {| status := 200; resp_body := JStr (py "OK");
     resp_headers := match hget (py "access-control-request-headers") hs with
                     | Some rh => hdr_set (py "access-control-allow-headers") rh h1
                     | None => h1
                     end |}.
Proof.
  intros Hm Hin. destruct app_cors_flags as (Ha & He & Hms & Hh).
  unfold preflight_response, is_allowed_origin. rewrite Hm, Ha, He, Hms, Hh. simpl.
  rewrite (bool_decide_true (m ∈ ALL_METHODS)) by done.
  by destruct (hget (py "access-control-request-headers") hs).
Qed.

(** What a non-preflight request with a cookie gets under [app_cors]. *)
Lemma simple_response_app_cors_cookie (hs : headers) (o : pystr) (r : response) :
  is_Some (hget (py "cookie") hs) ->
  resp_headers (simple_response (cors_init app_cors) hs o r) =
  allow_explicit_origin o (hdr_update (mw_simple_headers (cors_init app_cors)) (resp_headers r)).
Proof.
  intros Hc. unfold simple_response. destruct app_cors_flags as (Ha & _).
  rewrite Ha. simpl. by rewrite bool_decide_true.
Qed.

Abbreviation ACAO := (py "access-control-allow-origin").
Abbreviation ACAC := (py "access-control-allow-credentials").

(** A request that is not a CORS preflight: no [Origin], or not
    [OPTIONS], or no [Access-Control-Request-Method]. *)
Definition not_preflight (method : pystr) (hs : headers) : Prop :=
  hget (py "origin") hs = None \/ method <> py "OPTIONS" \/
  hget (py "access-control-request-method") hs = None.

(** Such a request reaches the application; its exceptions pass through,
    and a response gets the CORS headers when an [Origin] was sent. *)
Lemma cors_app_not_preflight (method : pystr) (hs : headers) (m : PyM world response) (w : world) :
  not_preflight method hs ->
  cors_app (cors_init app_cors) method hs m w =
  match m w with
  | (Ret r, w') =>
      (Ret (match hget (py "origin") hs with
            | Some o => simple_response (cors_init app_cors) hs o r
            | None => r
            end), w')
  | (Exc e, w') => (Exc e, w')
  end.
Proof.
  intros Hnp. unfold cors_app. destruct (hget (py "origin") hs) as [o|] eqn:Ho;
    [|by destruct (m w) as [[] ?]].
  destruct Hnp as [Hn|[Hn|Hn]]; [congruence| |].
  - rewrite (bool_decide_false (method = _)) by done. simpl. by destruct (m w) as [[] ?].
  - rewrite (bool_decide_false (is_Some _)) by (rewrite Hn; by intros [? ?]).
    rewrite andb_false_r. by destruct (m w) as [[] ?].
Qed.

(** The middleware leaves the status, the body and every header but its
    own three of a response as they are. *)
Lemma simple_response_keeps (hs : headers) (o k : pystr) (r : response) :
  k <> ACAO -> k <> ACAC -> k <> py "vary" ->
  status (simple_response (cors_init app_cors) hs o r) = status r /\
  resp_body (simple_response (cors_init app_cors) hs o r) = resp_body r /\
  hget k (resp_headers (simple_response (cors_init app_cors) hs o r)) = hget k (resp_headers r).
Proof.
  intros Ho Hc Hv. unfold simple_response. destruct app_cors_flags as (Ha & _). rewrite Ha.
  split_and!; [done|done|]. simpl.
  destruct (bool_decide (is_Some _)); simpl; unfold allow_explicit_origin;
    rewrite ?hget_add_vary by done; rewrite ?hget_hdr_set_ne by done; unfold hdr_update; simpl;
    rewrite ?hget_hdr_set_ne by done; reflexivity.
Qed.

(** C15: safety: with the configuration of [main.py] ([allow_origins=["*"]]
    and [allow_credentials=True]), any origin [o] whatsoever is granted
    credentialed cross-origin access. A preflight for any of the seven
    methods [allow_methods=["*"]] stands for ([ALL_METHODS]: a preflight
    for another method gets 400) is answered 200 by the middleware itself, without reaching the routes or changing
    the database, and it echoes [o] in [Access-Control-Allow-Origin] with
    [Access-Control-Allow-Credentials: true]. Any other request that carries a
    cookie gets the application's own response with those same two headers. *)
Theorem cors_any_origin (hs : headers) (o : pystr) (app : PyM world response) (w : world) :
  hget (py "origin") hs = Some o ->
  (forall m, hget (py "access-control-request-method") hs = Some m -> m ∈ ALL_METHODS ->
     exists r, cors_app (cors_init app_cors) (py "OPTIONS") hs app w = (Ret r, w) /\ status r = 200 /\
       hget ACAO (resp_headers r) = Some o /\ hget ACAC (resp_headers r) = Some (py "true")) /\
  (forall method r w', is_Some (hget (py "cookie") hs) ->
     method <> py "OPTIONS" \/ hget (py "access-control-request-method") hs = None ->
     app w = (Ret r, w') ->
     exists r', cors_app (cors_init app_cors) method hs app w = (Ret r', w') /\ status r' = status r /\
       resp_body r' = resp_body r /\
       hget ACAO (resp_headers r') = Some o /\ hget ACAC (resp_headers r') = Some (py "true")).
Proof.
  intros Ho. unfold cors_app. rewrite Ho. split.
  - intros m Hm Hin. rewrite !bool_decide_true by (rewrite ?Hm; done).
    rewrite (preflight_response_app_cors hs o m Hm Hin). eexists. split; [reflexivity|].
    split; [done|]. simpl.
    destruct (hget (py "access-control-request-headers") hs); hget_simpl; split; reflexivity.
  - intros method r w' Hc Hnp Happ.
    assert (Hb : bool_decide (method = py "OPTIONS") &&
                 bool_decide (is_Some (hget (py "access-control-request-method") hs)) = false).
    { destruct Hnp as [Hn|Hn]; [by rewrite bool_decide_false|].
      rewrite (bool_decide_false (is_Some _)); [apply andb_false_r|]. rewrite Hn. by intros [? ?]. }
    rewrite Hb, Happ. eexists. split; [reflexivity|]. split_and!; [done|done| |];
      rewrite simple_response_app_cors_cookie by done; unfold allow_explicit_origin; simpl;
      hget_simpl; reflexivity.
Qed.

Definition evil_preflight : headers :=
  [(py "origin", py "https://evil.example"); (py "access-control-request-method", py "POST");
   (py "access-control-request-headers", py "authorization")].

Definition evil_request : headers :=
  [(py "origin", py "https://evil.example"); (py "cookie", py "session=1")].

Lemma cors_any_origin_witness :
  (exists r, cors_app (cors_init app_cors) (py "OPTIONS") evil_preflight (py_ret health_check) (initial_world 0)
             = (Ret r, initial_world 0) /\ status r = 200 /\
     hget ACAO (resp_headers r) = Some (py "https://evil.example") /\
     hget ACAC (resp_headers r) = Some (py "true")) /\
  (exists r', cors_app (cors_init app_cors) (py "GET") evil_request (py_ret health_check) (initial_world 0)
              = (Ret r', initial_world 0) /\ status r' = 200 /\
     resp_body r' = resp_body health_check /\
     hget ACAO (resp_headers r') = Some (py "https://evil.example") /\
     hget ACAC (resp_headers r') = Some (py "true")).
Proof.
  split.
  - eapply (proj1 (cors_any_origin evil_preflight (py "https://evil.example")
                     (py_ret health_check) (initial_world 0) eq_refl) (py "POST")).
    + reflexivity.
    + apply (bool_decide_eq_true_1 (py "POST" ∈ ALL_METHODS)). vm_compute. reflexivity.
  - eapply (proj2 (cors_any_origin evil_request (py "https://evil.example")
                     (py_ret health_check) (initial_world 0) eq_refl) (py "GET") health_check).
    + eexists. reflexivity.
    + left. discriminate.
    + reflexivity.
Defined.

End Cors.
