(* ===== verification/Asgi.v ===== *)
(** * Asgi: the application object of [src/backend/app/main.py]

    [app = FastAPI(...)] (lines 21-26) with its middleware (29-35), its
    routes (38, 41-43, 46-49) and its start-up under uvicorn (52-62), put
    together the way FastAPI and Starlette put them together:

    - the route table [app_routes]: the documentation routes FastAPI adds
      in its constructor, the two routes of [auth_router], the [/static]
      mount when the directory exists, and [/health], in that order;
    - Starlette's [Router] ([dispatch]): the first route that matches path
      and method runs; else the first that matches the path only answers
      405 with its [Allow] header; else, when the path with its trailing
      slash toggled matches a route, a 307 redirect; else 404;
    - the middleware stack [asgi]: [ServerErrorMiddleware] outermost, then
      the [CORSMiddleware] of [Cors], then [ExceptionMiddleware] around the
      router.  An [HTTPException] becomes a response inside the CORS layer;
      any other exception crosses it and is turned into a 500 by
      [ServerErrorMiddleware].

    The pages of the documentation routes and the files [StaticFiles]
    serves are parameters ([docs_page], [static_files]): they are
    FastAPI's and Starlette's, and read nothing of the [world].

    [asgi_handle] relates the stack to [App.handle] for requests without
    an [Origin] header.  [asgi_routing_errors] gives the router's answers
    to a wrong method and to a stray trailing slash, for every request
    that is not a CORS preflight ([not_preflight]), with or without an
    [Origin]; [asgi_500_no_cors] shows that a 500 carries no CORS header,
    whatever the [Origin]. *)

From S2P Require Import Prelude Builtins Config Json Jose Hasher Symbolic Jwt Schemas Routes Session App Cors.

Module Asgi.
Import Config Jose Hasher Jwt Schemas Routes Session App Cors.

(** [FastAPI(title=..., description=..., version=..., lifespan=lifespan)]. *)
Record fastapi_meta := {
  title : pystr;
  description : pystr;
  version : pystr;
  openapi_url : pystr;
  docs_url : pystr;
  redoc_url : pystr
}.

Definition app_meta : fastapi_meta :=
  {| title := py "JWT Auth API";
     description := py "FastAPI application with JWT authentication";
     version := py "1.0.0";
     openapi_url := py "/openapi.json"; docs_url := py "/docs"; redoc_url := py "/redoc" |}.

Inductive endpoint :=
| EpRegister
| EpLogin
| EpHealth
| EpDocs (page : pystr)
| EpStatic (path : pystr).

(** A route of the table: a path with its methods, or a mount. *)
Inductive route :=
| Route (path : pystr) (methods : list pystr) (ep : endpoint)
| Mount (path : pystr).

(** What [FastAPI.setup] adds: Starlette [Route]s whose methods default to
    [GET], to which Starlette adds [HEAD]. *)
Definition docs_routes (m : fastapi_meta) : list route :=
  [Route (openapi_url m) [py "GET"; py "HEAD"] (EpDocs (openapi_url m));
   Route (docs_url m) [py "GET"; py "HEAD"] (EpDocs (docs_url m));
   Route (docs_url m ++ py "/oauth2-redirect") [py "GET"; py "HEAD"]
         (EpDocs (docs_url m ++ py "/oauth2-redirect"));
   Route (redoc_url m) [py "GET"; py "HEAD"] (EpDocs (redoc_url m))].

(** Lines 38-46: [include_router(auth_router)], the mount when
    [static_path.exists()], and [@app.get("/health")]; FastAPI's [APIRoute]
    adds no [HEAD]. *)
Definition app_routes (static_exists : bool) : list route :=
  docs_routes app_meta ++
  [Route (py "/register") [py "POST"] EpRegister;
   Route (py "/login") [py "POST"] EpLogin] ++
  (if static_exists then [Mount (py "/static")] else []) ++
  [Route (py "/health") [py "GET"] EpHealth].

(** ** Starlette's [Router] *)

Inductive matched := MFull (ep : endpoint) | MPartial (allow : list pystr) | MNone.

(** [s] without the prefix [p], when [s] starts with it. *)
Fixpoint strip_prefix (p s : pystr) : option pystr :=
  match p, s with
  | [], _ => Some s
  | x :: p', y :: s' => if bool_decide (x = y) then strip_prefix p' s' else None
  | _ :: _, [] => None
  end.

(** [Route.matches] and [Mount.matches]: the mount's regex matches
    ["/static/"] followed by any path. *)
Definition route_matches (method path : pystr) (r : route) : matched :=
  match r with
  | Route p ms ep =>
      if bool_decide (path = p) then
        if bool_decide (method ∈ ms) then MFull ep else MPartial ms
      else MNone
  | Mount p =>
      match strip_prefix (p ++ py "/") path with
      | Some rest => MFull (EpStatic rest)
      | None => MNone
      end
  end.

Definition is_none (m : matched) : bool := match m with MNone => true | _ => false end.

Fixpoint drop_slashes (s : pystr) : pystr :=
  match s with
  | c :: r => if bool_decide (c = 47) then drop_slashes r else s
  | [] => []
  end.

(** [route_path.rstrip("/")] when it ends with a slash, else
    [route_path + "/"]. *)
Definition toggle_slash (path : pystr) : pystr :=
  if bool_decide (last path = Some 47) then rev (drop_slashes (rev path)) else path ++ py "/".

Inductive dispatch_result :=
| DEndpoint (ep : endpoint)
| DMethodNotAllowed (allow : list pystr)
| DRedirect (path : pystr)
| DNotFound.

(** The loop of [Router.app] over the routes, remembering the first
    partial match. *)
Fixpoint scan (method path : pystr) (rs : list route) (partial : option (list pystr))
  : option dispatch_result :=
  match rs with
  | [] => option_map DMethodNotAllowed partial
  | r :: rs' =>
      match route_matches method path r with
      | MFull ep => Some (DEndpoint ep)
      | MPartial a => scan method path rs' (match partial with None => Some a | _ => partial end)
      | MNone => scan method path rs' partial
      end
  end.

(** [Router.app]: the scan, then [redirect_slashes], then [not_found]. *)
Definition dispatch (rs : list route) (method path : pystr) : dispatch_result :=
  match scan method path rs None with
  | Some d => d
  | None =>
      if bool_decide (path <> py "/") &&
         existsb (fun r => negb (is_none (route_matches method (toggle_slash path) r))) rs
      then DRedirect (toggle_slash path) else DNotFound
  end.

(** [ExceptionMiddleware]: the handlers of [HTTPException]. *)
Definition is_http (e : exc) : bool := match e with HTTPException _ _ _ => true | _ => false end.

Definition exception_middleware (m : PyM world response) : PyM world response :=
  fun w => match m w with
           | (Exc e, w') => if is_http e then (Ret (exc_response e), w') else (Exc e, w')
           | x => x
           end.

(** [ServerErrorMiddleware]: any exception left becomes a 500. *)
Definition server_error (m : PyM world response) : PyM world response :=
  fun w => match m w with
           | (Exc e, w') => (Ret (exc_response e), w')
           | x => x
           end.

Section Stack.
Context `{JoseCodec} `{Hmac} `{PasswordHasher} `{EmailValidator}.
Variable settings : Settings.
Variable static_exists : bool.
Variable docs_page : pystr -> response.
Variable static_files : pystr -> pystr -> response.

(** [APIRoute]'s request handler: a validation error is raised as
    [RequestValidationError], whose handler answers 422; the endpoint's
    [HTTPException]s and other exceptions propagate. *)
Definition run_endpoint (method : pystr) (ep : endpoint) (body : json) : PyM world response :=
  match ep with
  | EpRegister => fun w =>
      match UserCreate_of_json body with
      | inl errs => (Ret (unprocessable errs), w)
      | inr u => (let* t := get_db (register_db settings u) in py_ret (respond_with 201 (Ret t)))%py w
      end
  | EpLogin => fun w =>
      match UserLogin_of_json body with
      | inl errs => (Ret (unprocessable errs), w)
      | inr c => (let* t := get_db (login_db settings c) in py_ret (respond_with 200 (Ret t)))%py w
      end
  | EpHealth => py_ret health_check
  | EpDocs p => py_ret (docs_page p)
  | EpStatic p => py_ret (static_files method p)
  end.

Definition router (method path : pystr) (body : json) : PyM world response :=
  match dispatch (app_routes static_exists) method path with
  | DEndpoint ep => run_endpoint method ep body
  | DMethodNotAllowed allow =>
      py_raise (HTTPException 405 (py "Method Not Allowed") [(py "Allow", join_comma allow)])
  | DRedirect p =>
      py_ret {| status := 307; resp_body := JStr []; resp_headers := [(py "location", p)] |}
  | DNotFound => py_raise (HTTPException 404 (py "Not Found") [])
  end.

(** The application uvicorn serves. *)
Definition asgi (method path : pystr) (hs : headers) (body : json) : PyM world response :=
  server_error (cors_app (cors_init app_cors) method hs (exception_middleware (router method path body))).

End Stack.

(** The request of [App] as method, path and body. *)
Definition method_of (rq : request) : pystr :=
  match rq with PostRegister _ | PostLogin _ => py "POST" | GetHealth => py "GET" end.

Definition path_of (rq : request) : pystr :=
  match rq with PostRegister _ => py "/register" | PostLogin _ => py "/login" | GetHealth => py "/health" end.

Definition body_of (rq : request) : json :=
  match rq with PostRegister b | PostLogin b => b | GetHealth => JNull end.

(** ** Lemmas *)

Lemma server_error_exception_middleware (m : PyM world response) (w : world) :
  server_error (exception_middleware m) w =
  match m w with
  | (Ret r, w') => (Ret r, w')
  | (Exc e, w') => (Ret (exc_response e), w')
  end.
Proof.
  unfold server_error, exception_middleware.
  destruct (m w) as [[r|e] w']; [done|]. by destruct (is_http e).
Qed.

Lemma cors_app_no_origin (mw : cors_mw) (method : pystr) (hs : headers) (m : PyM world response) :
  hget (py "origin") hs = None -> cors_app mw method hs m = m.
Proof. intros Ho. unfold cors_app. by rewrite Ho. Qed.

Lemma exc_response_non_http (e : exc) :
  is_http e = false ->
  exc_response e = {| status := 500; resp_body := JStr (py "Internal Server Error"); resp_headers := [] |}.
Proof. by destruct e. Qed.

Definition endpoint_of (rq : request) : endpoint :=
  match rq with PostRegister _ => EpRegister | PostLogin _ => EpLogin | GetHealth => EpHealth end.

Lemma dispatch_request (st : bool) (rq : request) :
  dispatch (app_routes st) (method_of rq) (path_of rq) = DEndpoint (endpoint_of rq).
Proof. by destruct st, rq. Qed.

(** The two [POST] routes, under any other method. *)
Lemma dispatch_post_only (st : bool) (method p : pystr) :
  p ∈ [py "/register"; py "/login"] -> method <> py "POST" ->
  dispatch (app_routes st) method p = DMethodNotAllowed [py "POST"].
Proof.
  intros Hp Hm. assert (Hn : bool_decide (method ∈ [py "POST"]) = false)
    by (apply bool_decide_false; set_solver).
  unfold dispatch.
  repeat (apply elem_of_cons in Hp as [->|Hp];
    [destruct st; unfold app_routes, docs_routes, app_meta; simpl scan; by rewrite Hn|]).
  by apply elem_of_nil in Hp.
Qed.

(** A known path with a trailing slash, under any method. *)
Lemma dispatch_trailing_slash (st : bool) (method p : pystr) :
  p ∈ [py "/register"; py "/login"; py "/health"] ->
  dispatch (app_routes st) method (p ++ py "/") = DRedirect p.
Proof.
  intros Hp. unfold dispatch.
  repeat (apply elem_of_cons in Hp as [->|Hp];
    [destruct st; unfold app_routes, docs_routes, app_meta; simpl scan; simpl;
     destruct (bool_decide _); vm_compute; reflexivity|]).
  by apply elem_of_nil in Hp.
Qed.

Section Theorems.
Context `{JoseCodec} `{Hmac} `{PasswordHasher} `{EmailValidator}.
Variable settings : Settings.
Variable static_exists : bool.
Variable docs_page : pystr -> response.
Variable static_files : pystr -> pystr -> response.

(** For every request of [App] sent without an [Origin] header, the
    stack of [main.py] answers what [App.handle] answers. *)
Theorem asgi_handle (rq : request) (hs : headers) (w : world) :
  hget (py "origin") hs = None ->
  asgi settings static_exists docs_page static_files (method_of rq) (path_of rq) hs (body_of rq) w = handle settings rq w.
Proof.
  intros Ho. unfold asgi. rewrite cors_app_no_origin by done.
  rewrite server_error_exception_middleware. unfold router. rewrite dispatch_request.
  destruct rq as [b|b|]; simpl; [unfold post_register | unfold post_login | done].
  - destruct (UserCreate_of_json b); [done|]. unfold py_bind, py_ret.
    by destruct (get_db _ w) as [[t|e] w'].
  - destruct (UserLogin_of_json b); [done|]. unfold py_bind, py_ret.
    by destruct (get_db _ w) as [[t|e] w'].
Qed.

(** A request that is not a preflight and that the router answers
    without raising: the stack gives the router's response with the same
    status, body and headers other than the three CORS ones. *)
Lemma asgi_router_response (method path : pystr) (hs : headers) (body : json) (w w' : world)
      (r : response) :
  not_preflight method hs ->
  exception_middleware (router settings static_exists docs_page static_files method path body) w =
  (Ret r, w') ->
  exists r', asgi settings static_exists docs_page static_files method path hs body w = (Ret r', w') /\
    status r' = status r /\ resp_body r' = resp_body r /\
    forall k, k <> ACAO -> k <> ACAC -> k <> py "vary" ->
              hget k (resp_headers r') = hget k (resp_headers r).
Proof.
  intros Hnp Hr. unfold asgi, server_error. rewrite cors_app_not_preflight, Hr by done.
  destruct (hget (py "origin") hs) as [o|]; eexists; (split; [reflexivity|]); [|done].
  split_and!; try apply simple_response_keeps; try done.
  intros k ? ? ?. by apply simple_response_keeps.
Qed.

(** C16: error: the router's own answers, for every request that is not
    a CORS preflight (no [Origin] header, or a method other than
    [OPTIONS], or no [Access-Control-Request-Method]; a preflight is
    answered by the CORS middleware, see [Cors.cors_any_origin]). Any
    method other than [POST] on [/register] or [/login] is answered 405
    with [Allow: POST] and the detail ["Method Not Allowed"], without
    running the handler or touching the world. Any method on
    [/register/], [/login/] or [/health/] is answered with a 307 redirect
    to the path without the slash, again without touching the world. *)
Theorem asgi_routing_errors (method p : pystr) (hs : headers) (body : json) (w : world) :
  not_preflight method hs ->
  (p ∈ [py "/register"; py "/login"] -> method <> py "POST" ->
   exists r, asgi settings static_exists docs_page static_files method p hs body w = (Ret r, w) /\
     status r = 405 /\ resp_body r = JObject [(py "detail", JStr (py "Method Not Allowed"))] /\
     hget (py "Allow") (resp_headers r) = Some (py "POST")) /\
  (p ∈ [py "/register"; py "/login"; py "/health"] ->
   exists r, asgi settings static_exists docs_page static_files method (p ++ py "/") hs body w =
     (Ret r, w) /\ status r = 307 /\ hget (py "location") (resp_headers r) = Some p).
Proof.
  intros Hnp. split.
  - intros Hp Hm. edestruct (asgi_router_response method p hs body w w) as (r' & Ha & Hs & Hb & Hk);
      [done | unfold exception_middleware, router; by rewrite (dispatch_post_only _ _ _ Hp Hm) |].
    exists r'. split_and!; [done | by rewrite Hs | by rewrite Hb | by rewrite Hk].
  - intros Hp. edestruct (asgi_router_response method (p ++ py "/") hs body w w) as (r' & Ha & Hs & _ & Hk);
      [done | unfold exception_middleware, router; by rewrite (dispatch_trailing_slash _ _ _ Hp) |].
    exists r'. split_and!; [done | by rewrite Hs | by rewrite Hk].
Qed.

(** C17: error: a request whose route raises anything but an
    [HTTPException] (the [IntegrityError] of a lost registration race, the
    [OverflowError] of a token lifetime past [datetime]'s range, ...) is
    answered 500
    with no header at all, whatever its [Origin]: the exception crosses
    the CORS middleware, and [ServerErrorMiddleware], outside it, answers
    without CORS headers, so a browser on another origin sees no response. *)
Theorem asgi_500_no_cors (method path : pystr) (hs : headers) (body : json) (w w' : world) (e : exc) :
  method <> py "OPTIONS" ->
  router settings static_exists docs_page static_files method path body w = (Exc e, w') ->
  is_http e = false ->
  asgi settings static_exists docs_page static_files method path hs body w =
  (Ret {| status := 500; resp_body := JStr (py "Internal Server Error"); resp_headers := [] |}, w').
Proof.
  intros Hm Hr He. unfold asgi, server_error, cors_app.
  rewrite <- (exc_response_non_http e He).
  destruct (hget (py "origin") hs); unfold exception_middleware; rewrite ?Hr, ?He; [|done].
  rewrite bool_decide_false by done. simpl. by rewrite Hr, He.
Qed.

End Theorems.

(** ** Witnesses: the symbolic instances of [Symbolic], the default
    configuration, no static directory (as in the repository), and
    placeholder documentation and file pages. *)

Import Symbolic.

Definition docs_stub (p : pystr) : response := {| status := 200; resp_body := JStr p; resp_headers := [] |}.

Definition files_stub (m p : pystr) : response := {| status := 200; resp_body := JStr p; resp_headers := [] |}.

(** A cross-origin [GET] of [/login] with a cookie, and a [POST] of
    [/register/] from the same origin. *)
Definition site_headers : headers :=
  [(py "origin", py "https://app.example"); (py "cookie", py "session=1")].

Lemma asgi_routing_errors_witness :
  (exists r, asgi default_settings false docs_stub files_stub (py "GET") (py "/login") site_headers JNull
               demo_world = (Ret r, demo_world) /\
     status r = 405 /\ resp_body r = JObject [(py "detail", JStr (py "Method Not Allowed"))] /\
     hget (py "Allow") (resp_headers r) = Some (py "POST")) /\
  (exists r, asgi default_settings false docs_stub files_stub (py "POST") (py "/register" ++ py "/")
               site_headers register_body demo_world = (Ret r, demo_world) /\
     status r = 307 /\ hget (py "location") (resp_headers r) = Some (py "/register")).
Proof.
  assert (Hg : not_preflight (py "GET") site_headers) by (right; left; discriminate).
  assert (Hp : not_preflight (py "POST") site_headers) by (right; left; discriminate).
  split.
  - apply (proj1 (asgi_routing_errors default_settings false docs_stub files_stub (py "GET") (py "/login")
                    site_headers JNull demo_world Hg)); [set_solver | discriminate].
  - apply (proj2 (asgi_routing_errors default_settings false docs_stub files_stub (py "POST") (py "/register")
                    site_headers register_body demo_world Hp)).
    set_solver.
Defined.

(** A deployment with [JWT_EXPIRES_MINUTES] of ten billion minutes: the
    expiry of every token is past the year 9999. *)
Definition overflow_settings : Settings :=
  {| DATABASE_URL := default_DATABASE_URL; JWT_SECRET := default_JWT_SECRET;
     JWT_ALGORITHM := default_JWT_ALGORITHM; JWT_EXPIRES_MINUTES := 10000000000;
     HOST := default_HOST; PORT := 8000 |}.

(** The world after that deployment's [register] of alice: her row is
    committed before the token fails. *)
Definition overflow_world : world :=
  (router overflow_settings false docs_stub files_stub (py "POST") (py "/register") register_body demo_world).2.

Lemma asgi_500_no_cors_witness :
  asgi overflow_settings false docs_stub files_stub (py "POST") (py "/register")
       [(py "origin", py "https://app.example")] register_body demo_world =
  (Ret {| status := 500; resp_body := JStr (py "Internal Server Error"); resp_headers := [] |}, overflow_world).
Proof.
  apply (asgi_500_no_cors overflow_settings false docs_stub files_stub _ _ _ _ demo_world overflow_world
           OverflowError).
  - discriminate.
  - vm_compute. reflexivity.
  - reflexivity.
Defined.

(** ** [if __name__ == "__main__"]: [uvicorn.run(...)] *)

Record uvicorn_config := { uv_app : pystr; uv_host : pystr; uv_port : Z; uv_reload : bool }.

(** [uvicorn.run("app.main:app", host=..., port=..., reload=True)]. *)
Definition uvicorn_run (settings : Settings) : uvicorn_config :=
  {| uv_app := py "app.main:app"; uv_host := HOST settings; uv_port := PORT settings;
     uv_reload := true |}.

(** The block: [settings = get_settings()], then [uvicorn.run]. *)
Definition run_main : PyM config_state uvicorn_config :=
  (let* settings := get_settings in py_ret (uvicorn_run settings))%py.

End Asgi.
