(* ===== verification/Service.v ===== *)
(** * Service: the routes against an abstract specification

    The spec (sections 2, 4 and 7) describes the service as an account
    registry: [register] of a free email stores the account and hands out a
    token for it, [register] of a taken email is refused, [login] hands out
    a token exactly when the password matches the stored one and otherwise
    fails with one generic rejection.  [spec_op] is that contract, over a
    map from emails to passwords ([accounts]); [spec_run] runs it over a
    sequence of requests.

    [serve] runs the same requests through [Routes.register] and
    [Routes.login] one after the other, and [observe] is what a client
    learns from each response: the subject [verify_token] finds in a
    returned token at that instant, or the status of an [HTTPException].

    [serve_refines] is the refinement theorem: from related states, every
    sequence of requests gives the observations the specification
    predicts, and ends in related states.  [abs_rel] relates the [users]
    table to the accounts (same emails; each row filed under its own email;
    its digest accepts exactly the passwords that match).  The theorem
    assumes what the code needs to meet the contract: a usable secret, a
    hasher whose verdict depends on the plaintexts only and whose digests
    fit [String(255)], emails that fit their column, and a clock and
    lifetime under which [create_access_token] issues a token that is
    valid when issued ([fresh_tokens]).  Each of these, when it fails, is
    a way the code leaves the contract (see [Routes], [Jwt]).

    [handle_refines] lifts the result to the whole application: HTTP
    requests with arbitrary JSON bodies go through the schema, [get_db]
    and the handlers written against the session ([Session]), and the
    status mapping of [App]; [spec_request] adds the 422 of a refused body
    and the health check to the specification.  Both theorems are
    instances of [run_obs_refines], which lifts a one-step simulation to
    runs. *)

From S2P Require Import Prelude Config Datetime Json Jose Hasher Symbolic Jwt Schemas Routes Session App.

Module Service.
Import Config Datetime Jose Hasher Jwt Schemas Routes Session App.

(** The registered accounts, each with its password. *)
Notation accounts := (gmap pystr pystr).

(** What a client learns from a response: a token for [subject], a 400
    for a taken email, a 401, a 422 for a body that fails validation, the
    health answer. *)
Inductive outcome := OToken (subject : pystr) | OTaken | OInvalid | OUnprocessable | OHealthy.

Inductive op := ORegister (u : UserCreate) | OLogin (c : UserLogin).

(** ** Runs of requests *)

Section Runs.
Context {Rq : Type}.

(** Requests handled one after the other, each observed in the world it
    leaves. *)
Fixpoint run_obs (stepf : Rq -> world -> option outcome * world) (rs : list Rq) (w : world)
  : list (option outcome) * world :=
  match rs with
  | [] => ([], w)
  | r :: rs' =>
      let '(x, w1) := stepf r w in
      let '(xs, w2) := run_obs stepf rs' w1 in
      (x :: xs, w2)
  end.

Fixpoint run_spec (specf : Rq -> accounts -> outcome * accounts) (rs : list Rq) (A : accounts)
  : list outcome * accounts :=
  match rs with
  | [] => ([], A)
  | r :: rs' =>
      let '(x, A1) := specf r A in
      let '(xs, A2) := run_spec specf rs' A1 in
      (x :: xs, A2)
  end.

End Runs.

(** ** The specification *)

Section Spec.
(** When a candidate password is accepted for a stored one. *)
Variable pw_match : pystr -> pystr -> bool.

Definition spec_op (o : op) (A : accounts) : outcome * accounts :=
  match o with
  | ORegister u =>
      match A !! uc_email u with
      | Some _ => (OTaken, A)
      | None => (OToken (uc_email u), <[uc_email u := uc_password u]> A)
      end
  | OLogin c =>
      match A !! ul_email c with
      | Some p => if pw_match (ul_password c) p then (OToken (ul_email c), A) else (OInvalid, A)
      | None => (OInvalid, A)
      end
  end.

Definition spec_run (os : list op) (A : accounts) : list outcome * accounts :=
  run_spec spec_op os A.

End Spec.

(** ** The implementation, as a client sees it *)

Section Impl.
Context `{JoseCodec} `{Hmac} `{PasswordHasher}.
Variable settings : Settings.

Definition run_op (o : op) : PyM world TokenResponse :=
  match o with ORegister u => register settings u | OLogin c => login settings c end.

Definition observe (r : res TokenResponse) (w : world) : option outcome :=
  match r with
  | Ret t =>
      match fst (verify_token settings (access_token t) w) with
      | Ret (Some (JStr s)) => Some (OToken s)
      | _ => None
      end
  | Exc (HTTPException 400 _ _) => Some OTaken
  | Exc (HTTPException 401 _ _) => Some OInvalid
  | Exc _ => None
  end.

Definition serve (os : list op) (w : world) : list (option outcome) * world :=
  run_obs (fun o w => let '(r, w1) := run_op o w in (observe r w1, w1)) os w.

(** A token issued now is valid now: [expire_at] does not overflow and
    does not lie in an earlier second. *)
Definition fresh_tokens (w : world) : bool :=
  match expire_at settings None (now_us w) with
  | Ret exp => negb (to_timestamp exp <? to_timestamp (now_us w))
  | Exc _ => false
  end.

Definition op_fits (o : op) : Prop :=
  match o with ORegister u => (length (uc_email u) <= varchar_max)%nat | OLogin _ => True end.

Definition abs_rel (pw_match : pystr -> pystr -> bool) (w : world) (A : accounts) : Prop :=
  (forall e, is_Some (users w !! e) <-> is_Some (A !! e)) /\
  (forall e u p, users w !! e = Some u -> A !! e = Some p ->
     email u = e /\ forall q, verify_password q (hashed_password u) = pw_match q p).

End Impl.

(** ** The HTTP application *)

Section Http.
Context `{JoseCodec} `{Hmac} `{PasswordHasher} `{EmailValidator}.
Variable settings : Settings.
Variable pw_match : pystr -> pystr -> bool.

(** The specification of a request: a body the schema refuses is a 422,
    [GET /health] answers, and the rest is [spec_op]. *)
Definition spec_request (rq : request) (A : accounts) : outcome * accounts :=
  match rq with
  | PostRegister b =>
      match UserCreate_of_json b with
      | inl _ => (OUnprocessable, A)
      | inr u => spec_op pw_match (ORegister u) A
      end
  | PostLogin b =>
      match UserLogin_of_json b with
      | inl _ => (OUnprocessable, A)
      | inr c => spec_op pw_match (OLogin c) A
      end
  | GetHealth => (OHealthy, A)
  end.

(** What a client learns from an HTTP response. *)
Definition observe_http (r : response) (w : world) : option outcome :=
  if bool_decide (status r = 422) then Some OUnprocessable
  else if bool_decide (status r = 400) then Some OTaken
  else if bool_decide (status r = 401) then Some OInvalid
  else if bool_decide (r = health_check) then Some OHealthy
  else match resp_body r with
       | JObject kv =>
           match dict_get (py "access_token") kv with
           | Some (JStr tok) =>
               match fst (verify_token settings tok w) with
               | Ret (Some (JStr s)) => Some (OToken s)
               | _ => None
               end
           | _ => None
           end
       | _ => None
       end.

Definition serve_http (rqs : list request) (w : world) : list (option outcome) * world :=
  run_obs (fun rq w => let '(r, w1) := handle settings rq w in
                       (match r with Ret resp => observe_http resp w1 | Exc _ => None end, w1)) rqs w.

Definition request_fits (rq : request) : Prop :=
  match rq with
  | PostRegister b => match UserCreate_of_json b with inr u => op_fits (ORegister u) | inl _ => True end
  | _ => True
  end.

End Http.

(** ** Refinement *)

Section Refinement.
Context `{JoseCodec} `{Hmac} `{PasswordHasher} `{!JoseCodecLaws} `{!HmacLaws}.
Variable settings : Settings.
Variable pw_match : pystr -> pystr -> bool.
Hypothesis verify_match : forall q p r, verify_password q (hash_password p r) = pw_match q p.
Hypothesis hash_fits : forall p r, (length (hash_password p r) <= varchar_max)%nat.
Variables (h : sha) (kb : bytes).
Hypothesis usable : secret_usable settings h kb.

Lemma observe_issue (subject : pystr) (w w' : world) :
  fresh_tokens settings w = true -> now_us w' = now_us w ->
  observe settings (respond (issue settings subject w h kb)) w' = Some (OToken subject).
Proof.
  unfold fresh_tokens, issue. intros Hf Hnow.
  destruct (expire_at settings None (now_us w)) as [exp|]; [|done]. simpl.
  rewrite (verify_token_issued settings) by done. simpl. change (clock_now w') with (now_us w').
  rewrite Hnow. by destruct (_ <? _).
Qed.

Lemma abs_rel_insert (u : UserCreate) (w : world) (A : accounts) :
  abs_rel pw_match w A -> users w !! uc_email u = None ->
  abs_rel pw_match (after_insert u w) (<[uc_email u := uc_password u]> A).
Proof.
  intros [Hdom Hrow] Hfree. split; simpl.
  - intros e. destruct (decide (uc_email u = e)) as [<-|Hne].
    + rewrite !lookup_insert_eq. split; intros; by eexists.
    + rewrite !lookup_insert_ne by done. apply Hdom.
  - intros e v p. destruct (decide (uc_email u = e)) as [<-|Hne].
    + rewrite !lookup_insert_eq. intros [= <-] [= <-]. split; [done|]. intros q. apply verify_match.
    + rewrite !lookup_insert_ne by done. apply Hrow.
Qed.

Lemma run_op_refines (o : op) (w w' : world) (A : accounts) (r : res TokenResponse) :
  abs_rel pw_match w A -> fresh_tokens settings w = true -> op_fits o ->
  run_op settings o w = (r, w') ->
  observe settings r w' = Some (fst (spec_op pw_match o A)) /\
  abs_rel pw_match w' (snd (spec_op pw_match o A)) /\ now_us w' = now_us w.
Proof.
  intros Hrel Hf Hfit. pose proof Hrel as [Hdom Hrow]. destruct o as [u|c]; simpl.
  - destruct (users w !! uc_email u) as [row|] eqn:He.
    + rewrite (register_taken settings u w row He). intros [= <- <-].
      destruct (A !! uc_email u) eqn:Ha; [done|].
      exfalso. apply (is_Some_None (A := pystr)). rewrite <- Ha. apply Hdom. by eexists.
    + rewrite (register_fresh settings u w h kb usable He Hfit (hash_fits _ _)). intros [= <- <-].
      destruct (A !! uc_email u) eqn:Ha.
      { exfalso. apply (is_Some_None (A := User)). rewrite <- He. apply Hdom. by eexists. }
      split; [by apply observe_issue|]. split; [by apply abs_rel_insert|done].
  - rewrite (login_eq settings c w h kb usable). intros [= <- <-].
    destruct (users w !! ul_email c) as [u|] eqn:He.
    + destruct (A !! ul_email c) as [p|] eqn:Ha.
      2:{ exfalso. apply (is_Some_None (A := pystr)). rewrite <- Ha. apply Hdom. by eexists. }
      destruct (Hrow _ _ _ He Ha) as [Hem Hv]. rewrite Hv.
      destruct (pw_match (ul_password c) p); [|done]. rewrite Hem. by rewrite observe_issue.
    + destruct (A !! ul_email c) eqn:Ha; [|done].
      exfalso. apply (is_Some_None (A := User)). rewrite <- He. apply Hdom. by eexists.
Qed.

(** A step that simulates the specification's step, lifted to runs. *)
Lemma run_obs_refines {Rq : Type} (stepf : Rq -> world -> option outcome * world)
      (specf : Rq -> accounts -> outcome * accounts) (fits : Rq -> Prop) :
  (forall x w A, abs_rel pw_match w A -> fresh_tokens settings w = true -> fits x ->
     (stepf x w).1 = Some (specf x A).1 /\ abs_rel pw_match (stepf x w).2 (specf x A).2 /\
     now_us (stepf x w).2 = now_us w) ->
  forall xs w A, abs_rel pw_match w A -> fresh_tokens settings w = true -> Forall fits xs ->
  (run_obs stepf xs w).1 = map Some (run_spec specf xs A).1 /\
  abs_rel pw_match (run_obs stepf xs w).2 (run_spec specf xs A).2.
Proof.
  intros Hstep xs. induction xs as [|x xs IH]; intros w A Hrel Hf Hfits; [done|].
  inversion_clear Hfits as [|? ? Hfit Hfits'].
  destruct (Hstep x w A Hrel Hf Hfit) as (Hobs & Hrel1 & Hnow). simpl.
  destruct (stepf x w) as [o w1], (specf x A) as [y A1]. simpl in *.
  assert (Hf1 : fresh_tokens settings w1 = true) by (unfold fresh_tokens; by rewrite Hnow).
  destruct (IH w1 A1 Hrel1 Hf1 Hfits') as [Hxs Hrel2].
  destruct (run_obs stepf xs w1) as [xs' w2], (run_spec specf xs A1) as [ys A2].
  simpl in *. by rewrite Hobs, Hxs.
Qed.

(** C9: refinement.  From a database related to an account map, any
    sequence of [register] and [login] requests gives, response by
    response, what the abstract specification [spec_run] predicts: a token
    that verifies to the registered or logged-in email, a 400 for a taken
    email, a 401 for a failed login; and the database stays related to the
    accounts the specification computes. *)
Theorem serve_refines (os : list op) (w : world) (A : accounts) :
  abs_rel pw_match w A -> fresh_tokens settings w = true -> Forall op_fits os ->
  fst (serve settings os w) = map Some (fst (spec_run pw_match os A)) /\
  abs_rel pw_match (snd (serve settings os w)) (snd (spec_run pw_match os A)).
Proof.
  apply run_obs_refines. intros o w0 A0 Hrel Hf Hfit.
  destruct (run_op settings o w0) as [r w1] eqn:Hrun. simpl.
  by apply (run_op_refines o w0 w1 A0 r).
Qed.

End Refinement.

Section HttpRefinement.
Context `{JoseCodec} `{Hmac} `{PasswordHasher} `{EmailValidator} `{!JoseCodecLaws} `{!HmacLaws}.
Variable settings : Settings.
Variable pw_match : pystr -> pystr -> bool.
Hypothesis verify_match : forall q p r, verify_password q (hash_password p r) = pw_match q p.
Hypothesis hash_fits : forall p r, (length (hash_password p r) <= varchar_max)%nat.
Variables (h : sha) (kb : bytes).
Hypothesis usable : secret_usable settings h kb.

(** A route's answer, observed through its HTTP response. *)
Lemma observe_respond (code : Z) (r : res TokenResponse) (w : world) (o : outcome) :
  code = 200 \/ code = 201 -> observe settings r w = Some o ->
  observe_http settings (respond_with code r) w = Some o.
Proof.
  intros Hcode Hobs. unfold observe_http.
  destruct r as [t|e]; simpl.
  - rewrite !bool_decide_false by (unfold health_check; intros [=]; lia || congruence).
    exact Hobs.
  - unfold observe in Hobs. repeat case_match; simplify_eq; done.
Qed.

Lemma handle_step_refines (rq : request) (w : world) (A : accounts) :
  abs_rel pw_match w A -> fresh_tokens settings w = true -> request_fits rq ->
  let '(r, w1) := handle settings rq w in
  (match r with Ret resp => observe_http settings resp w1 | Exc _ => None end) =
    Some (spec_request pw_match rq A).1 /\
  abs_rel pw_match w1 (spec_request pw_match rq A).2 /\ now_us w1 = now_us w.
Proof.
  intros Hrel Hf Hfit. destruct rq as [b|b|]; simpl in *.
  - unfold post_register. destruct (UserCreate_of_json b) as [errs|u]; [done|].
    rewrite get_db_register. destruct (register settings u w) as [r w1] eqn:Hr.
    destruct (run_op_refines settings pw_match verify_match hash_fits h kb usable
                (ORegister u) w w1 A r Hrel Hf Hfit Hr) as (Hobs & ? & ?).
    split_and!; [|done|done]. apply observe_respond; [by right|done].
  - unfold post_login. destruct (UserLogin_of_json b) as [errs|c]; [done|].
    rewrite get_db_login. destruct (login settings c w) as [r w1] eqn:Hr.
    destruct (run_op_refines settings pw_match verify_match hash_fits h kb usable
                (OLogin c) w w1 A r Hrel Hf I Hr) as (Hobs & ? & ?).
    split_and!; [|done|done]. apply observe_respond; [by left|done].
  - unfold py_ret, observe_http. rewrite !bool_decide_false by (simpl; lia). by rewrite bool_decide_true.
Qed.

(** C10: refinement of the whole application.  From a database related
    to an account map, any sequence of HTTP requests ([POST /register],
    [POST /login] with any JSON body, [GET /health]) is answered, response
    by response, as the specification predicts: 422 for a body the schema
    refuses, then the account registry of [spec_op] (a token verifying to
    the email, 400, 401) through [get_db] and the routes; the database
    stays related to the specified accounts.  A refused registration body
    is answered 422 by FastAPI before [register] runs, although
    [register]'s docstring says validation failures raise 400. *)
Theorem handle_refines (rqs : list request) (w : world) (A : accounts) :
  abs_rel pw_match w A -> fresh_tokens settings w = true -> Forall request_fits rqs ->
  fst (serve_http settings rqs w) = map Some (fst (run_spec (spec_request pw_match) rqs A)) /\
  abs_rel pw_match (snd (serve_http settings rqs w)) (snd (run_spec (spec_request pw_match) rqs A)).
Proof.
  apply (run_obs_refines settings pw_match). intros rq w0 A0 Hrel Hf Hfit.
  pose proof (handle_step_refines rq w0 A0 Hrel Hf Hfit) as Hs.
  destruct (handle settings rq w0) as [r w1]. exact Hs.
Qed.

End HttpRefinement.

Lemma abs_rel_init (pw_match : pystr -> pystr -> bool) `{PasswordHasher} (t : Z) :
  abs_rel pw_match (initial_world t) ∅.
Proof.
  split; [intros e; simpl; rewrite !lookup_empty; split; intros [? ?]; done|].
  intros e u p. simpl. by rewrite lookup_empty.
Qed.

(** ** A concrete run

    The codec and MAC of [Symbolic], and a hasher with bcrypt's shape: a
    60-character digest, one character of salt, and the password cut to
    what fits (bcrypt cuts at 72 octets). *)

#[local] Existing Instances Symbolic.sym_codec Symbolic.sym_hmac
  Symbolic.sym_codec_laws Symbolic.sym_hmac_laws.

Definition pw_body (p : pystr) : bytes := take 59 (Symbolic.enc_str p ++ replicate 59 0).

#[local] Instance sized_hasher : PasswordHasher := {|
  hash_password p r := r mod 256 :: pw_body p;
  verify_password q d :=
    match d with x :: _ => bool_decide (d = x mod 256 :: pw_body q) | [] => false end
|}.

Definition sized_match (q p : pystr) : bool := bool_decide (pw_body p = pw_body q).

Lemma sized_verify_match (q p : pystr) (r : Z) :
  verify_password q (hash_password p r) = sized_match q p.
Proof.
  simpl. rewrite Z.mod_mod by lia. unfold sized_match.
  apply bool_decide_ext. split; [by intros [=]|by intros ->].
Qed.

Lemma sized_hash_fits (p : pystr) (r : Z) : (length (hash_password p r) <= varchar_max)%nat.
Proof.
  simpl. unfold pw_body. rewrite length_take, length_app, length_replicate.
  unfold varchar_max. lia.
Qed.

Definition alice : UserCreate :=
  {| uc_email := demo_subject; uc_password := py "correct-password123";
     uc_confirm_password := None |}.

Definition demo_ops : list op :=
  [ORegister alice;
   OLogin {| ul_email := demo_subject; ul_password := py "wrong-password456" |};
   OLogin {| ul_email := demo_subject; ul_password := py "correct-password123" |};
   ORegister alice].

Lemma demo_spec_run :
  fst (spec_run sized_match demo_ops ∅) =
  [OToken demo_subject; OInvalid; OToken demo_subject; OTaken].
Proof. vm_compute. reflexivity. Qed.

Lemma serve_refines_witness :
  fst (serve default_settings demo_ops (initial_world T0)) =
    map Some (fst (spec_run sized_match demo_ops ∅)) /\
  abs_rel sized_match (snd (serve default_settings demo_ops (initial_world T0)))
          (snd (spec_run sized_match demo_ops ∅)).
Proof.
  apply (serve_refines default_settings sized_match sized_verify_match sized_hash_fits
           SHA256 default_JWT_SECRET).
  - split; reflexivity.
  - apply abs_rel_init.
  - vm_compute. reflexivity.
  - repeat constructor; simpl; unfold varchar_max; lia.
Defined.

(** Over HTTP: alice registers, logs in with a wrong and then the right
    password, sends a body whose passwords differ, asks for the health
    check, and registers again. *)
Definition demo_requests : list request :=
  [PostRegister register_body; PostLogin wrong_login_body; PostLogin register_body;
   PostRegister mismatch_body; GetHealth; PostRegister register_body].

Lemma demo_spec_requests :
  fst (run_spec (spec_request sized_match) demo_requests ∅) =
  [OToken demo_email; OInvalid; OToken demo_email; OUnprocessable; OHealthy; OTaken].
Proof. vm_compute. reflexivity. Qed.

Lemma handle_refines_witness :
  fst (serve_http default_settings demo_requests (initial_world T0)) =
    map Some (fst (run_spec (spec_request sized_match) demo_requests ∅)) /\
  abs_rel sized_match (snd (serve_http default_settings demo_requests (initial_world T0)))
          (snd (run_spec (spec_request sized_match) demo_requests ∅)).
Proof.
  apply (handle_refines default_settings sized_match sized_verify_match sized_hash_fits
           SHA256 default_JWT_SECRET).
  - split; reflexivity.
  - apply abs_rel_init.
  - vm_compute. reflexivity.
  - repeat constructor; vm_compute; lia.
Defined.

End Service.
