(* ===== verification/Concurrency.v ===== *)
(** * Concurrency: interleaved [register] requests

    Uvicorn serves requests concurrently; each one has its own database
    session ([get_db]), and the database runs each statement atomically.
    [register] ([src/backend/app/routes/auth.py]) makes two visits to the
    database: the [SELECT] of an existing user, then (after hashing) the
    [INSERT] and [COMMIT] of the new one, followed by token issuance.
    Another request may run between the two.

    - [register_after_check] is the code after [if existing_user:];
      [register_split] shows that [register] is the [SELECT] followed by it;
    - a [thread] is one [register] request: not started, past its check,
      or finished with its result; [thread_step] runs one atomic piece;
    - [sched] is any interleaving of the threads' steps; [step1] is one
      step of it.

    [register_race] exhibits the schedule in which two registrations of the
    same free email both pass the check: the second [INSERT] violates the
    unique index and raises [IntegrityError], which the application turns
    into a 500, not the 400 of the sequential case.
    [at_most_one_registration] shows that under every interleaving of any
    number of registrations of one email, at most one succeeds: the unique
    index, not the check, is what keeps accounts unique.
    The lemmas [register_split_equiv] (a request run alone through its
    two pieces answers what [register] answers), [sched_terminates]
    (every schedule is finite: the pieces left, [work], decrease) and
    [requests_answered] (a schedule answering every request exists) are
    facts about the scheduler, true whatever [register] does. *)

From S2P Require Import Prelude Builtins Config Datetime Json Jose Hasher Symbolic Jwt Schemas Routes App.

Module Concurrency.
Import Config Datetime Jose Hasher Jwt Schemas Routes App.

Inductive thread :=
| TStart (u : UserCreate)
| TChecked (u : UserCreate)
| TDone (r : res TokenResponse).

Definition is_success (t : thread) : bool :=
  match t with TDone (Ret _) => true | _ => false end.

(** The email a running thread registers. *)
Definition thread_email (t : thread) : option pystr :=
  match t with TStart u | TChecked u => Some (uc_email u) | TDone _ => None end.

Section Concurrency.
Context `{JoseCodec} `{Hmac} `{PasswordHasher}.
Variable settings : Settings.

(** Lines 39-53 of [register]: hash, insert and commit, issue the token. *)
Definition register_after_check (user_data : UserCreate) : PyM world TokenResponse :=
  (let* salt := draw_salt in
   let hashed_pwd := hash_password (uc_password user_data) salt in
   let* new_user := insert_user (uc_email user_data) hashed_pwd in
   let* access_token := create_access_token settings (email new_user) None in
   py_ret (mk_TokenResponse access_token))%py.

(** One atomic piece of a request. *)
Definition thread_step (t : thread) (w : world) : option (thread * world) :=
  match t with
  | TStart u =>
      Some (match users w !! uc_email u with
            | Some _ => TDone (Exc email_taken)
            | None => TChecked u
            end, w)
  | TChecked u => let '(r, w') := register_after_check u w in Some (TDone r, w')
  | TDone _ => None
  end.

Inductive sched : list thread * world -> list thread * world -> Prop :=
| sched_refl c : sched c c
| sched_step ts w i t t' w' c :
    ts !! i = Some t -> thread_step t w = Some (t', w') ->
    sched (<[i := t']> ts, w') c -> sched (ts, w) c.

(** One scheduling step: a thread with a piece left runs it. *)
Inductive step1 : list thread * world -> list thread * world -> Prop :=
| step1_intro ts w i t t' w' :
    ts !! i = Some t -> thread_step t w = Some (t', w') ->
    step1 (ts, w) (<[i := t']> ts, w').

End Concurrency.

(** ** Lemmas *)

(** The atomic pieces a thread still has to run. *)
Definition pending (t : thread) : nat :=
  match t with TStart _ => 2 | TChecked _ => 1 | TDone _ => 0 end.

Definition work (ts : list thread) : nat := sum_list_with pending ts.

Definition is_done (t : thread) : bool := match t with TDone _ => true | _ => false end.

Lemma work_insert (ts : list thread) (i : nat) (t t' : thread) :
  ts !! i = Some t -> (work (<[i := t']> ts) + pending t = work ts + pending t')%nat.
Proof.
  unfold work. revert i. induction ts as [|x ts IH]; intros [|i] Hi; simpl in *; try done.
  - injection Hi as ->. lia.
  - specialize (IH i Hi). lia.
Qed.

(** A thread that is not done has a step, whatever the world. *)
Lemma thread_step_live `{JoseCodec} `{Hmac} `{PasswordHasher} (settings : Settings)
      (t : thread) (w : world) :
  is_done t = false -> exists t' w', thread_step settings t w = Some (t', w').
Proof.
  destruct t as [u|u|r]; simpl; [| |done]; intros _; [by eauto|].
  destruct (register_after_check settings u w) as [r w']. by eauto.
Qed.

Lemma not_all_done (ts : list thread) :
  forallb is_done ts = false -> exists i t, ts !! i = Some t /\ is_done t = false.
Proof.
  induction ts as [|t ts IH]; simpl; [done|].
  destruct (is_done t) eqn:Ht; simpl.
  - intros Hf. destruct (IH Hf) as (i & t' & ? & ?). by exists (S i), t'.
  - intros _. by exists 0%nat, t.
Qed.

Lemma thread_step_pending `{JoseCodec} `{Hmac} `{PasswordHasher} (settings : Settings)
      (t t' : thread) (w w' : world) :
  thread_step settings t w = Some (t', w') -> (pending t' < pending t)%nat.
Proof.
  destruct t as [u|u|r]; simpl; [|destruct (register_after_check settings u w)|done];
    [destruct (users w !! uc_email u)|]; intros [= <- <-]; simpl; lia.
Qed.

Lemma step1_work `{JoseCodec} `{Hmac} `{PasswordHasher} (settings : Settings)
      (c c' : list thread * world) :
  step1 settings c c' -> (work c'.1 < work c.1)%nat.
Proof.
  destruct 1 as [ts w i t t' w' Hi Hstep]. simpl.
  pose proof (work_insert ts i t t' Hi). pose proof (thread_step_pending settings t t' w w' Hstep). lia.
Qed.

Definition n_success (ts : list thread) : nat := length (List.filter is_success ts).

(** Every running thread registers [e]. *)
Definition same_email (e : pystr) (ts : list thread) : Prop :=
  Forall (fun t => thread_email t = None \/ thread_email t = Some e) ts.

(** At most one registration has succeeded, and if one has, [e] is in
    the table. *)
Definition inv (e : pystr) (ts : list thread) (w : world) : Prop :=
  (n_success ts <= 1)%nat /\ (n_success ts = 1%nat -> is_Some (users w !! e)) /\ same_email e ts.

Lemma n_success_insert (ts : list thread) (i : nat) (t t' : thread) :
  ts !! i = Some t ->
  (n_success (<[i := t']> ts) + (if is_success t then 1 else 0) =
   n_success ts + (if is_success t' then 1 else 0))%nat.
Proof.
  unfold n_success. revert i. induction ts as [|x ts IH]; intros [|i] Hi; simpl in *; try done.
  - injection Hi as ->. destruct (is_success t), (is_success t'); simpl; lia.
  - specialize (IH i Hi). destruct (is_success x); simpl; lia.
Qed.

Section Lemmas.
Context `{JoseCodec} `{Hmac} `{PasswordHasher}.
Variable settings : Settings.

Lemma register_split (u : UserCreate) (w : world) :
  register settings u w =
  match users w !! uc_email u with
  | Some _ => (Exc email_taken, w)
  | None => register_after_check settings u w
  end.
Proof. unfold register, py_bind, select_user. by destruct (users w !! uc_email u). Qed.

(** What the second visit to the database does to the table. *)
Lemma after_check_effect (u : UserCreate) (w w' : world) (r : res TokenResponse) :
  register_after_check settings u w = (r, w') ->
  (users w' = users w /\ forall t, r <> Ret t) \/
  (users w !! uc_email u = None /\ users w' = <[uc_email u := new_row u w]> (users w)).
Proof.
  unfold register_after_check, py_bind, draw_salt, insert_user. simpl.
  destruct (_ || _); [intros [= <- <-]; by left|].
  destruct (users w !! uc_email u) eqn:Hfree; [intros [= <- <-]; by left|].
  fold (new_row u w). fold (after_insert u w).
  pose proof (create_access_token_keeps_world settings (uc_email u) None (after_insert u w)) as Hk.
  destruct (create_access_token _ _ _ _) as [[t|e] w0]; simpl in Hk; subst;
    intros [= _ <-]; by right.
Qed.

Section Fresh.
Context `{!JoseCodecLaws} `{!HmacLaws}.

Lemma after_check_fresh (u : UserCreate) (w : world) (h : sha) (kb : bytes) :
  secret_usable settings h kb ->
  users w !! uc_email u = None ->
  (length (uc_email u) <= varchar_max)%nat ->
  (length (hash_password (uc_password u) (salt_seed w)) <= varchar_max)%nat ->
  register_after_check settings u w = (respond (issue settings (uc_email u) w h kb), after_insert u w).
Proof.
  intros Hu Hfree Hl1 Hl2. unfold register_after_check, py_bind, draw_salt, insert_user. simpl.
  rewrite (proj2 (Nat.ltb_ge _ _) Hl1), (proj2 (Nat.ltb_ge _ _) Hl2), Hfree. simpl.
  fold (new_row u w). fold (after_insert u w).
  rewrite (create_access_token_world settings (uc_email u) (after_insert u w) h kb Hu).
  change (issue settings (uc_email u) (after_insert u w) h kb) with (issue settings (uc_email u) w h kb).
  by destruct (issue settings (uc_email u) w h kb).
Qed.

End Fresh.

(** The unique index refuses a second row for a stored email. *)
Lemma after_check_taken (u : UserCreate) (w : world) :
  is_Some (users w !! uc_email u) ->
  (length (uc_email u) <= varchar_max)%nat ->
  (length (hash_password (uc_password u) (salt_seed w)) <= varchar_max)%nat ->
  register_after_check settings u w =
  (Exc IntegrityError, {| users := users w; next_id := next_id w + 1; now_us := now_us w;
                          salt_seed := salt_seed w + 1 |}).
Proof.
  intros [row Hrow] Hl1 Hl2. unfold register_after_check, py_bind, draw_salt, insert_user. simpl.
  by rewrite (proj2 (Nat.ltb_ge _ _) Hl1), (proj2 (Nat.ltb_ge _ _) Hl2), Hrow.
Qed.

Lemma inv_step (e : pystr) (ts : list thread) (w w' : world) (i : nat) (t t' : thread) :
  inv e ts w -> ts !! i = Some t -> thread_step settings t w = Some (t', w') ->
  inv e (<[i := t']> ts) w'.
Proof.
  intros (Hn & Hs & Hf) Hi Hstep. pose proof (n_success_insert ts i t t' Hi) as Hc.
  pose proof (Forall_lookup_1 _ _ _ _ Hf Hi) as Ht.
  destruct t as [u|u|r]; simpl in Hstep, Ht; [| |discriminate].
  - injection Hstep as <- <-.
    split_and!; [| |apply Forall_insert; [done|]];
      destruct (users w !! uc_email u); simpl in *; try lia; try (intros; apply Hs; lia); naive_solver.
  - destruct (register_after_check settings u w) as [r w''] eqn:Hr. injection Hstep as <- <-.
    split_and!; [| |by apply Forall_insert; [|left]].
    + destruct (after_check_effect u w w'' r Hr) as [[_ Hnr]|[Hfree _]].
      * destruct r as [t0|]; [by destruct (Hnr t0)|]. simpl in Hc. lia.
      * destruct Ht as [?|[= <-]]; [done|].
        assert (n_success ts <> 1%nat) by (intros Hone; destruct (Hs Hone); congruence).
        destruct (is_success (TDone r)); simpl in Hc; lia.
    + destruct (after_check_effect u w w'' r Hr) as [[-> Hnr]|[Hfree ->]].
      * destruct r as [t0|]; [by destruct (Hnr t0)|]. simpl in Hc. intros Hone. apply Hs. lia.
      * destruct Ht as [?|[= <-]]; [done|]. rewrite lookup_insert_eq. by eauto.
Qed.

Lemma sched_inv (e : pystr) (c c' : list thread * world) :
  sched settings c c' -> inv e c.1 c.2 -> inv e c'.1 c'.2.
Proof.
  induction 1 as [c|ts w i t t' w' c Hi Hstep _ IH]; [done|].
  simpl. intros Hinv. apply IH. by apply (inv_step e ts w w' i t t').
Qed.

End Lemmas.

(** ** Properties *)

Section Properties.
Context `{JoseCodec} `{Hmac} `{PasswordHasher}.
Variable settings : Settings.

(** C11: under any interleaving of any number of concurrent registrations
    of one email, at most one of them succeeds. *)
Theorem at_most_one_registration (e : pystr) (us : list UserCreate) (w : world)
        (ts' : list thread) (w' : world) :
  Forall (fun u => uc_email u = e) us ->
  sched settings (map TStart us, w) (ts', w') ->
  (n_success ts' <= 1)%nat.
Proof.
  intros Hus Hs. apply (sched_inv settings e) in Hs as [Hn _]; [done|].
  assert (Hz : n_success (map TStart us) = 0%nat).
  { unfold n_success. clear Hus Hs. induction us as [|u us IH]; simpl; [done|exact IH]. }
  split_and!; simpl; [lia|lia|].
  apply Forall_map. eapply Forall_impl; [exact Hus|]. simpl. intros u ->. by right.
Qed.


Lemma sched_single (t : thread) (w : world) (c : list thread * world) :
  sched settings ([t], w) c ->
  c = ([t], w) \/
  exists t' w1, thread_step settings t w = Some (t', w1) /\ sched settings ([t'], w1) c.
Proof.
  inversion 1 as [|ts w0 i t0 t' w1 c0 Hi Hstep Hrest]; subst; [by left|right].
  destruct i as [|[|]]; simpl in Hi; simplify_eq. by exists t', w1.
Qed.

Lemma sched_done (r : res TokenResponse) (w : world) (c : list thread * world) :
  sched settings ([TDone r], w) c -> c = ([TDone r], w).
Proof. intros [->|(t' & w1 & Hs & _)] % sched_single; [done|discriminate]. Qed.

(** A registration run alone through its two atomic
    pieces answers [r] and leaves [w'] exactly when the handler
    [register], run in one go, does. *)
Theorem register_split_equiv (u : UserCreate) (w w' : world) (r : res TokenResponse) :
  sched settings ([TStart u], w) ([TDone r], w') <-> register settings u w = (r, w').
Proof.
  rewrite register_split. split.
  - intros [Heq|(t1 & w1 & Hs1 & Hrest)] % sched_single; [done|]. simpl in Hs1.
    destruct (users w !! uc_email u); injection Hs1 as <- <-.
    + by apply sched_done in Hrest as [= -> ->].
    + apply sched_single in Hrest as [Heq|(t2 & w2 & Hs2 & Hrest)]; [done|]. simpl in Hs2.
      destruct (register_after_check settings u w) as [r2 w2'] eqn:Hr.
      injection Hs2 as <- <-. by apply sched_done in Hrest as [= -> ->].
  - intros Hr. eapply (sched_step _ _ _ 0%nat); [done|done|]. simpl.
    destruct (users w !! uc_email u); [injection Hr as -> ->; apply sched_refl|].
    eapply (sched_step _ _ _ 0%nat); [done|simpl; by rewrite Hr|]. apply sched_refl.
Qed.

(** No schedule of concurrent registrations runs forever, whatever
    [register] does; every step runs one of the at most two atomic pieces left to
    a request, so the step relation is well founded. *)
Theorem sched_terminates : well_founded (fun c' c => step1 settings c c').
Proof.
  intros c. induction c as [c IH] using (induction_ltof1 _ (fun c => work c.1)).
  constructor. intros c' Hs. apply IH. by apply (step1_work settings).
Qed.

(** From any configuration, whatever the database holds,
    the scheduler can run every pending request to its answer: no request
    is blocked by another. *)
Theorem requests_answered (c : list thread * world) :
  exists c', sched settings c c' /\ forallb is_done c'.1 = true.
Proof.
  induction c as [[ts w] IH] using (induction_ltof1 _ (fun c => work c.1)).
  destruct (forallb is_done ts) eqn:Hall; [by exists (ts, w); split; [apply sched_refl|]|].
  destruct (not_all_done ts Hall) as (i & t & Hi & Ht).
  destruct (thread_step_live settings t w Ht) as (t' & w' & Hstep).
  destruct (IH (<[i := t']> ts, w')) as (c' & Hs & Hd).
  - apply (step1_work settings). by econstructor.
  - exists c'. split; [|done]. by eapply sched_step.
Qed.

Section Race.
Context `{!JoseCodecLaws} `{!HmacLaws}.

(** C12: two registrations of the same free email can both pass the
    [SELECT] check: if both check before either inserts, the first gets its
    token and the second's [INSERT] raises [IntegrityError], which the
    application answers with 500 instead of the 400 "Email already
    registered" a sequential run gives. *)
Theorem register_race (u1 u2 : UserCreate) (w : world) (h : sha) (kb : bytes) :
  secret_usable settings h kb ->
  uc_email u2 = uc_email u1 ->
  users w !! uc_email u1 = None ->
  (length (uc_email u1) <= varchar_max)%nat ->
  (length (hash_password (uc_password u1) (salt_seed w)) <= varchar_max)%nat ->
  (length (hash_password (uc_password u2) (salt_seed w + 1)) <= varchar_max)%nat ->
  sched settings ([TStart u1; TStart u2], w)
    ([TDone (respond (issue settings (uc_email u1) w h kb)); TDone (Exc IntegrityError)],
     {| users := users (after_insert u1 w); next_id := next_id w + 2; now_us := now_us w;
        salt_seed := salt_seed w + 2 |}) /\
  status (respond_with 201 (Exc IntegrityError)) = 500.
Proof.
  intros Hu He Hfree Hl1 Hl2 Hl3. split; [|done].
  eapply (sched_step _ _ _ 0%nat); [done|simpl; by rewrite Hfree|]. simpl.
  eapply (sched_step _ _ _ 1%nat); [done|simpl; by rewrite He, Hfree|]. simpl.
  eapply (sched_step _ _ _ 0%nat); [done|simpl; by rewrite (after_check_fresh settings u1 w h kb)|]. simpl.
  eapply (sched_step _ _ _ 1%nat); [done|simpl; rewrite (after_check_taken settings); [done| |by rewrite He|done]|].
  - simpl. rewrite He, lookup_insert_eq. by eauto.
  - simpl. replace (next_id w + 1 + 1) with (next_id w + 2) by lia.
    replace (salt_seed w + 1 + 1) with (salt_seed w + 2) by lia. apply sched_refl.
Qed.

End Race.

End Properties.


(** ** Witnesses: alice registering twice on an empty database. *)

Import Symbolic.

Definition after_first : world := snd (register_after_check default_settings demo_user demo_world).

Lemma at_most_one_registration_witness :
  (n_success [TDone (fst (register_after_check default_settings demo_user demo_world));
              TDone (Exc email_taken)] <= 1)%nat.
Proof.
  apply (at_most_one_registration default_settings demo_subject [demo_user; demo_user] demo_world
           _ after_first).
  - repeat constructor.
  - apply (sched_step _ _ _ 0 (TStart demo_user) (TChecked demo_user) demo_world);
      [reflexivity|vm_compute; reflexivity|].
    apply (sched_step _ _ _ 0 (TChecked demo_user)
             (TDone (fst (register_after_check default_settings demo_user demo_world))) after_first);
      [reflexivity|vm_compute; reflexivity|].
    apply (sched_step _ _ _ 1 (TStart demo_user) (TDone (Exc email_taken)) after_first);
      [reflexivity|vm_compute; reflexivity|].
    apply sched_refl.
Defined.

Lemma register_race_witness :
  sched default_settings ([TStart demo_user; TStart demo_user], demo_world)
    ([TDone (respond (issue default_settings demo_subject demo_world SHA256 default_JWT_SECRET));
      TDone (Exc IntegrityError)],
     {| users := users (after_insert demo_user demo_world); next_id := next_id demo_world + 2;
        now_us := now_us demo_world; salt_seed := salt_seed demo_world + 2 |}) /\
  status (respond_with 201 (Exc IntegrityError)) = 500.
Proof.
  refine (register_race default_settings demo_user demo_user demo_world SHA256 default_JWT_SECRET
            default_secret_usable eq_refl _ _ _ _).
  - vm_compute. reflexivity.
  - apply Nat.leb_le. vm_compute. reflexivity.
  - apply Nat.leb_le. vm_compute. reflexivity.
  - apply Nat.leb_le. vm_compute. reflexivity.
Defined.

End Concurrency.
